(** * A shallow embedding of the $MEGA mining bot (src/bot.py)

    The development models the reward core of the bot: user profiles,
    energy plans, the [/mine] claim flow with its streak and achievement
    side effects, referral attribution in [/start], sponsor tasks and the
    payment callback.  Handlers are written in state-passing style over a
    [world] that holds the module-level dictionaries of the program.

    Representation choices, all taken from the source:
    - user and task identifiers are Python ints: [Z];
    - [datetime] values are naive timestamps with microsecond resolution:
      a [Z] number of microseconds since [datetime.min]; a [timedelta] is
      the difference of two of them, and [.days] is the floor quotient by
      one day;
    - amounts ([balance], [total_mined], rewards, bonuses) are Python
      floats: IEEE-754 binary64, here Rocq's primitive [float].  The only
      int an amount field ever holds is the initial [0], identified with
      [0.0]; the small ints that enter a sum (50, 150, a streak bonus of at
      most 100) convert exactly;
    - counters ([mining_count], [referral_count], streaks, levels) are
      Python ints: [Z];
    - dictionaries are [gmap], sets are [gset];
    - every [datetime.now()] and the [random.random()] draw of one handler
      run are inputs of the handler, one per call site, in program order;
    - outbound Telegram messages are collected in a list, in sending
      order.  A handler is written for the run in which its sends are
      delivered; a send that raises after the last write of a handler
      leaves the same state.  Only [mine] can be cut short between two
      writes, by a notice of its streak check that raises: [mine_run]
      models it with the outcome of its sends, and the runs of the
      program ([step_of]) are taken with [mine_run].

    The module constants keep their source values; the admin command that
    rebinds them at run time is not part of the modelled flow. *)

From Stdlib Require Import ZArith Bool List PrimFloat FloatOps SpecFloat.
From stdpp Require Import gmap strings.

#[local] Set Warnings "-inexact-float".

Local Open Scope Z_scope.

(** ** Python numbers *)

Module Py.

(** [float(n)] for an int [n]: the nearest binary64 value.  (Python
    raises [OverflowError] beyond the float range; the ints this program
    converts are plan limits, prices, streak bonuses and levels, all far
    below it.) *)
Definition float_of_int (n : Z) : float :=
  SF2Prim (binary_normalize prec emax n 0 false).

(** [int(x)] for a float [x]: truncation toward zero; [None] stands for
    the [ValueError]/[OverflowError] Python raises on NaN and infinities. *)
Definition int_of_float (x : float) : option Z :=
  match Prim2SF x with
  | S754_zero _ => Some 0
  | S754_finite s m e =>
      let v := if 0 <=? e then Z.pos m * 2 ^ e else Z.pos m / 2 ^ (- e) in
      Some (if s then - v else v)
  | S754_infinity _ => None
  | S754_nan => None
  end.

(** [min(a, b)] and [max(a, b)] on ints. *)
Definition min (a b : Z) : Z := if b <? a then b else a.
Definition max (a b : Z) : Z := if a <? b then b else a.

(** Truthiness of an optional string ([None] and [''] are falsy). *)
Definition truthy_str (o : option string) : bool :=
  match o with
  | Some s => negb (String.eqb s EmptyString)
  | None => false
  end.

End Py.

(** ** Time *)

(** One microsecond is the unit; [timedelta(hours=24)] and
    [timedelta(days=1)] are the same duration. *)
Definition us_per_second : Z := 1000000.
Definition timedelta_hours (h : Z) : Z := h * 3600 * us_per_second.
Definition timedelta_days (d : Z) : Z := d * 24 * 3600 * us_per_second.

(** [td.days] of a timedelta: floor quotient by a day. *)
Definition days (td : Z) : Z := td / timedelta_days 1.

(** ** Constants (bot.py, lines 30-66) *)

Definition STREAK_BONUS : Z := 2.
Definition MAX_STREAK_BONUS : Z := 100.
Definition LEVEL_THRESHOLD : Z := 1000.
Definition LEVEL_BONUS_PERCENT : float := 0.1%float.

Inductive plan_id := plan_max | plan_unlimited.

Record energy_plan_entry := {
  price : Z;
  daily_limit : Z;
  name : string;
}.

Definition ENERGY_PLANS (k : plan_id) : energy_plan_entry :=
  match k with
  | plan_max => {| price := 50; daily_limit := 50; name := "Max Energy" |}
  | plan_unlimited =>
      {| price := 250; daily_limit := 150; name := "Unlimited Energy" |}
  end.

(** ** UserProfile (bot.py, lines 68-110) *)

Record UserProfile := {
  user_id : Z;
  balance : float;
  total_mined : float;
  mining_count : Z;
  referral_count : Z;
  achievements : gset string;
  last_mine_time : option Z;
  current_streak : Z;
  highest_streak : Z;
  last_daily_bonus : option Z;
  referred_by : option Z;
  energy_plan : option plan_id;
  energy_expires : option Z;
}.

(** [UserProfile(user_id)] *)
Definition new_profile (uid : Z) : UserProfile := {|
  user_id := uid;
  balance := 0%float;
  total_mined := 0%float;
  mining_count := 0;
  referral_count := 0;
  achievements := ∅;
  last_mine_time := None;
  current_streak := 0;
  highest_streak := 0;
  last_daily_bonus := None;
  referred_by := None;
  energy_plan := None;
  energy_expires := None;
|}.

Definition has_active_plan (p : UserProfile) (now : Z) : bool :=
  match energy_plan p, energy_expires p with
  | Some _, Some expires => now <? expires
  | _, _ => false
  end.

Definition get_daily_limit (p : UserProfile) (now : Z) : Z :=
  if has_active_plan p now then
    match energy_plan p with
    | Some k => daily_limit (ENERGY_PLANS k)
    | None => 0
    end
  else 0.

Definition calculate_level (total : float) : option Z :=
  Py.int_of_float (total / Py.float_of_int LEVEL_THRESHOLD)%float.

Definition calculate_level_bonus (level : Z) : float :=
  (Py.float_of_int level * LEVEL_BONUS_PERCENT)%float.

(** Field updates, one per assignment of the source. *)
Definition set_balance (v : float) (p : UserProfile) : UserProfile :=
  {| user_id := user_id p; balance := v; total_mined := total_mined p;
     mining_count := mining_count p; referral_count := referral_count p;
     achievements := achievements p; last_mine_time := last_mine_time p;
     current_streak := current_streak p; highest_streak := highest_streak p;
     last_daily_bonus := last_daily_bonus p; referred_by := referred_by p;
     energy_plan := energy_plan p; energy_expires := energy_expires p |}.

Definition set_total_mined (v : float) (p : UserProfile) : UserProfile :=
  {| user_id := user_id p; balance := balance p; total_mined := v;
     mining_count := mining_count p; referral_count := referral_count p;
     achievements := achievements p; last_mine_time := last_mine_time p;
     current_streak := current_streak p; highest_streak := highest_streak p;
     last_daily_bonus := last_daily_bonus p; referred_by := referred_by p;
     energy_plan := energy_plan p; energy_expires := energy_expires p |}.

Definition set_mining_count (v : Z) (p : UserProfile) : UserProfile :=
  {| user_id := user_id p; balance := balance p; total_mined := total_mined p;
     mining_count := v; referral_count := referral_count p;
     achievements := achievements p; last_mine_time := last_mine_time p;
     current_streak := current_streak p; highest_streak := highest_streak p;
     last_daily_bonus := last_daily_bonus p; referred_by := referred_by p;
     energy_plan := energy_plan p; energy_expires := energy_expires p |}.

Definition set_referral_count (v : Z) (p : UserProfile) : UserProfile :=
  {| user_id := user_id p; balance := balance p; total_mined := total_mined p;
     mining_count := mining_count p; referral_count := v;
     achievements := achievements p; last_mine_time := last_mine_time p;
     current_streak := current_streak p; highest_streak := highest_streak p;
     last_daily_bonus := last_daily_bonus p; referred_by := referred_by p;
     energy_plan := energy_plan p; energy_expires := energy_expires p |}.

Definition set_achievements (v : gset string) (p : UserProfile) : UserProfile :=
  {| user_id := user_id p; balance := balance p; total_mined := total_mined p;
     mining_count := mining_count p; referral_count := referral_count p;
     achievements := v; last_mine_time := last_mine_time p;
     current_streak := current_streak p; highest_streak := highest_streak p;
     last_daily_bonus := last_daily_bonus p; referred_by := referred_by p;
     energy_plan := energy_plan p; energy_expires := energy_expires p |}.

Definition set_last_mine_time (v : option Z) (p : UserProfile) : UserProfile :=
  {| user_id := user_id p; balance := balance p; total_mined := total_mined p;
     mining_count := mining_count p; referral_count := referral_count p;
     achievements := achievements p; last_mine_time := v;
     current_streak := current_streak p; highest_streak := highest_streak p;
     last_daily_bonus := last_daily_bonus p; referred_by := referred_by p;
     energy_plan := energy_plan p; energy_expires := energy_expires p |}.

Definition set_current_streak (v : Z) (p : UserProfile) : UserProfile :=
  {| user_id := user_id p; balance := balance p; total_mined := total_mined p;
     mining_count := mining_count p; referral_count := referral_count p;
     achievements := achievements p; last_mine_time := last_mine_time p;
     current_streak := v; highest_streak := highest_streak p;
     last_daily_bonus := last_daily_bonus p; referred_by := referred_by p;
     energy_plan := energy_plan p; energy_expires := energy_expires p |}.

Definition set_highest_streak (v : Z) (p : UserProfile) : UserProfile :=
  {| user_id := user_id p; balance := balance p; total_mined := total_mined p;
     mining_count := mining_count p; referral_count := referral_count p;
     achievements := achievements p; last_mine_time := last_mine_time p;
     current_streak := current_streak p; highest_streak := v;
     last_daily_bonus := last_daily_bonus p; referred_by := referred_by p;
     energy_plan := energy_plan p; energy_expires := energy_expires p |}.

Definition set_referred_by (v : option Z) (p : UserProfile) : UserProfile :=
  {| user_id := user_id p; balance := balance p; total_mined := total_mined p;
     mining_count := mining_count p; referral_count := referral_count p;
     achievements := achievements p; last_mine_time := last_mine_time p;
     current_streak := current_streak p; highest_streak := highest_streak p;
     last_daily_bonus := last_daily_bonus p; referred_by := v;
     energy_plan := energy_plan p; energy_expires := energy_expires p |}.

Definition set_energy (k : plan_id) (expires : Z) (p : UserProfile)
  : UserProfile :=
  {| user_id := user_id p; balance := balance p; total_mined := total_mined p;
     mining_count := mining_count p; referral_count := referral_count p;
     achievements := achievements p; last_mine_time := last_mine_time p;
     current_streak := current_streak p; highest_streak := highest_streak p;
     last_daily_bonus := last_daily_bonus p; referred_by := referred_by p;
     energy_plan := Some k; energy_expires := Some expires |}.

(** ** Tasks (bot.py, lines 889-912) *)

(** [channel_id] is what the constructor extracts from [link]; it is kept
    as a field, as in the source. *)
Record Task := {
  task_id : Z;
  title : string;
  description : string;
  link : string;
  display_text : string;
  reward : float;
  created_at : Z;
  completed_by : gset Z;
  channel_id : option string;
}.

Definition set_completed_by (v : gset Z) (t : Task) : Task :=
  {| task_id := task_id t; title := title t; description := description t;
     link := link t; display_text := display_text t; reward := reward t;
     created_at := created_at t; completed_by := v;
     channel_id := channel_id t |}.

(** ** The program state: the module-level stores *)

Record world := {
  REFERRAL_REWARD : float;
  user_profiles : gmap Z UserProfile;
  suspended_users : gset Z;
  tasks : gmap Z Task;
  next_task_id : Z;
}.

Definition set_user_profiles (m : gmap Z UserProfile) (w : world) : world :=
  {| REFERRAL_REWARD := REFERRAL_REWARD w; user_profiles := m;
     suspended_users := suspended_users w; tasks := tasks w;
     next_task_id := next_task_id w |}.

Definition set_suspended_users (s : gset Z) (w : world) : world :=
  {| REFERRAL_REWARD := REFERRAL_REWARD w; user_profiles := user_profiles w;
     suspended_users := s; tasks := tasks w;
     next_task_id := next_task_id w |}.

Definition set_tasks (m : gmap Z Task) (n : Z) (w : world) : world :=
  {| REFERRAL_REWARD := REFERRAL_REWARD w; user_profiles := user_profiles w;
     suspended_users := suspended_users w; tasks := m; next_task_id := n |}.

(** [user_profiles[uid] = p] *)
Definition store_profile (uid : Z) (p : UserProfile) (w : world) : world :=
  set_user_profiles (<[uid := p]> (user_profiles w)) w.

(** [if uid not in user_profiles: user_profiles[uid] = UserProfile(uid)] *)
Definition ensure_profile (uid : Z) (w : world) : world :=
  match user_profiles w !! uid with
  | Some _ => w
  | None => store_profile uid (new_profile uid) w
  end.

(** The profile a handler works on after [ensure_profile]; for a user
    without a stored profile this is what [UserProfile(uid)] builds. *)
Definition profile_of (w : world) (uid : Z) : UserProfile :=
  default (new_profile uid) (user_profiles w !! uid).

(** The program starts with empty stores. *)
Definition initial_world (referral_reward : float) : world :=
  {| REFERRAL_REWARD := referral_reward; user_profiles := ∅;
     suspended_users := ∅; tasks := ∅; next_task_id := 1 |}.

(** ** Outbound messages *)

(** The figures of a successful mining reply (lines 486-500): the base
    reward, the three bonus terms, the level and the total. *)
Record receipt := {
  rc_daily_limit : Z;
  rc_bonus : float;
  rc_streak_bonus : Z;
  rc_level : Z;
  rc_level_bonus : float;
  rc_total_reward : float;
}.

Inductive message :=
| MsgSuspended
| MsgNoActivePlan
| MsgCooldownActive (remaining : Z) (streak : Z)
    (* [remaining]: the timedelta left, which the reply shows in seconds *)
| MsgMined (figures : receipt) (new_balance : float) (streak : Z)
| MsgWeeklyStreakBonus (streak : Z) (bonus : Z)
| MsgStreakBroken (streak : Z)
| MsgAchievement (id : string)
| MsgReferralBonus (referrer : Z) (amount : float)
| MsgWelcome
| MsgTaskGone
| MsgAlreadyCompleted
| MsgTaskLink
| MsgVerificationFailed
| MsgTaskCompleted (amount : float) (new_balance : float)
| MsgPaymentOk (plan : plan_id)
| MsgPurchaseBonus (referrer : Z) (amount : float)
| MsgAdminOnly
| MsgBadArgument
| MsgNotFound
| MsgAdminDone.

(** What one handler run leaves behind: the state, the messages sent and
    whether the coroutine ended by raising. *)
Record result := {
  after : world;
  sent : list message;
  raised : bool;
}.

Definition returns (w : world) (msgs : list message) : result :=
  {| after := w; sent := msgs; raised := false |}.

Definition raises (w : world) (msgs : list message) : result :=
  {| after := w; sent := msgs; raised := true |}.

(** ** check_achievements (bot.py, lines 289-326) *)

(** One guarded [achievements.add]; the condition is evaluated by the
    caller on the profile, whose other fields the unlocks leave alone. *)
Definition unlock (cond : bool) (id : string)
    (st : UserProfile * list string) : UserProfile * list string :=
  let '(p, new_achievements) := st in
  if cond && negb (bool_decide (id ∈ achievements p)) then
    (set_achievements ({[id]} ∪ achievements p) p, new_achievements ++ [id])
  else st.

Definition check_achievements (now : Z) (p : UserProfile)
  : UserProfile * list message :=
  let st := (p, []) in
  let st := unlock (mining_count p =? 1) "first_mine" st in
  let st := unlock (7 <=? current_streak p) "mining_streak_7" st in
  let st := unlock (5 <=? referral_count p) "referral_master" st in
  let st := unlock (1000 <=? total_mined p)%float "mega_miner" st in
  let since_reset := now mod timedelta_days 1 in
  let st := unlock (since_reset <=? 3600 * us_per_second) "early_bird" st in
  (st.1, MsgAchievement <$> st.2).

(** ** check_daily_streak (bot.py, lines 328-357) *)

(** The call in which the notice of lines 344 or 352, if one is due, is
    delivered; [check_daily_streak_run] below covers the send that
    raises. *)
Definition check_daily_streak (now : Z) (p : UserProfile)
  : UserProfile * list message :=
  match last_mine_time p with
  | Some last =>
      let days_difference := days (now - last) in
      if days_difference <=? 1 then
        let p := set_current_streak (current_streak p + 1) p in
        let p := set_highest_streak
                   (Py.max (current_streak p) (highest_streak p)) p in
        if current_streak p mod 7 =? 0 then
          let bonus := 50 in
          let p := set_balance (balance p + Py.float_of_int bonus)%float p in
          (p, [MsgWeeklyStreakBonus (current_streak p) bonus])
        else (p, [])
      else
        let notice :=
          if 0 <? current_streak p then [MsgStreakBroken (current_streak p)]
          else [] in
        (set_current_streak 1 p, notice)
  | None => (p, [])
  end.

(** ** mine (bot.py, lines 419-500) *)

(** The clock readings and the random draw of one run, in program order:
    [has_active_plan] (line 435), [current_time] (line 449),
    [get_daily_limit] (line 466), [random.random()] (line 469),
    [check_daily_streak] (line 331), [check_achievements] (line 311). *)
Record mine_env := {
  t_has_plan : Z;
  current_time : Z;
  t_daily_limit : Z;
  random_draw : float;
  t_streak : Z;
  t_achievements : Z;
}.

Definition streak_bonus_of (p : UserProfile) : Z :=
  if 0 <? current_streak p then
    Py.min (current_streak p * STREAK_BONUS) MAX_STREAK_BONUS
  else 0.

Definition cooldown_active (p : UserProfile) (now : Z) : bool :=
  match last_mine_time p with
  | Some last => now - last <? timedelta_hours 24
  | None => false
  end.

(** The run in which every message is delivered; [mine_run] below covers
    the sends that raise.  The bookkeeping of [record_user_action]
    (line 447) touches only the per-user action log, which no reward rule
    reads; it is left out. *)
Definition mine (env : mine_env) (uid : Z) (w : world) : result :=
  if bool_decide (uid ∈ suspended_users w) then returns w [MsgSuspended]
  else
    let w := ensure_profile uid w in
    let profile := profile_of w uid in
    if negb (has_active_plan profile (t_has_plan env)) then
      returns w [MsgNoActivePlan]
    else if cooldown_active profile (current_time env) then
      let elapsed := current_time env - default 0 (last_mine_time profile) in
      returns w [MsgCooldownActive (timedelta_hours 24 - elapsed)
                   (current_streak profile)]
    else
      let daily_limit := get_daily_limit profile (t_daily_limit env) in
      let bonus :=
        if (random_draw env <? 0.1)%float
        then (Py.float_of_int daily_limit * 0.1)%float else 0%float in
      let streak_bonus := streak_bonus_of profile in
      match calculate_level (total_mined profile) with
      | None => raises w []
      | Some level =>
          let level_bonus :=
            (calculate_level_bonus level * Py.float_of_int daily_limit)%float in
          let total_reward :=
            (Py.float_of_int daily_limit + bonus
             + Py.float_of_int streak_bonus + level_bonus)%float in
          let profile :=
            set_balance (balance profile + total_reward)%float profile in
          let profile :=
            set_total_mined (total_mined profile + total_reward)%float
              profile in
          let profile := set_mining_count (mining_count profile + 1) profile in
          let profile :=
            set_last_mine_time (Some (current_time env)) profile in
          let '(profile, streak_msgs) :=
            check_daily_streak (t_streak env) profile in
          let '(profile, achievement_msgs) :=
            check_achievements (t_achievements env) profile in
          returns (store_profile uid profile w)
            (streak_msgs ++ achievement_msgs ++
             [MsgMined
                {| rc_daily_limit := daily_limit; rc_bonus := bonus;
                   rc_streak_bonus := streak_bonus; rc_level := level;
                   rc_level_bonus := level_bonus;
                   rc_total_reward := total_reward |}
                (balance profile) (current_streak profile)])
      end.

(** ** Sends that raise (bot.py, lines 344, 352 and 425-500)

    Two kinds of Telegram calls of a [mine] run are not wrapped in [try]:
    the [send_message] of [check_daily_streak] (the weekly bonus notice
    of line 344 and the streak-broken notice of line 352) and the
    [reply_text] that ends the run (lines 425, 438, 457 and 490).  When
    one raises, the coroutine ends there, and what was written to the
    profile before stays written.  The notices of [check_achievements]
    are sent under [try]. *)
Record delivery := {
  notice_delivered : bool;
  reply_delivered : bool;
}.

Definition all_delivered : delivery :=
  {| notice_delivered := true; reply_delivered := true |}.

(** [check_daily_streak] with the outcome of its send: the profile as it
    is when the call ends, the notice sent, and whether the send raised.
    The weekly bonus is credited before its notice is sent (lines
    343-344); the streak is reset after the streak-broken notice (lines
    352-357). *)
Definition check_daily_streak_run (delivered : bool) (now : Z)
    (p : UserProfile) : UserProfile * list message * bool :=
  match last_mine_time p with
  | Some last =>
      let days_difference := days (now - last) in
      if days_difference <=? 1 then
        let p := set_current_streak (current_streak p + 1) p in
        let p := set_highest_streak
                   (Py.max (current_streak p) (highest_streak p)) p in
        if current_streak p mod 7 =? 0 then
          let bonus := 50 in
          let p := set_balance (balance p + Py.float_of_int bonus)%float p in
          if delivered then
            (p, [MsgWeeklyStreakBonus (current_streak p) bonus], false)
          else (p, [], true)
        else (p, [], false)
      else
        if 0 <? current_streak p then
          if delivered then
            (set_current_streak 1 p, [MsgStreakBroken (current_streak p)],
             false)
          else (p, [], true)
        else (set_current_streak 1 p, [], false)
  | None => (p, [], false)
  end.

(** [mine] with the outcome of its sends.  The profile is the stored
    object, so what the run wrote before a send raised is in the store. *)
Definition mine_run (d : delivery) (env : mine_env) (uid : Z) (w : world)
  : result :=
  if bool_decide (uid ∈ suspended_users w) then
    if reply_delivered d then returns w [MsgSuspended] else raises w []
  else
    let w := ensure_profile uid w in
    let profile := profile_of w uid in
    if negb (has_active_plan profile (t_has_plan env)) then
      if reply_delivered d then returns w [MsgNoActivePlan] else raises w []
    else if cooldown_active profile (current_time env) then
      let elapsed := current_time env - default 0 (last_mine_time profile) in
      if reply_delivered d then
        returns w [MsgCooldownActive (timedelta_hours 24 - elapsed)
                     (current_streak profile)]
      else raises w []
    else
      let daily_limit := get_daily_limit profile (t_daily_limit env) in
      let bonus :=
        if (random_draw env <? 0.1)%float
        then (Py.float_of_int daily_limit * 0.1)%float else 0%float in
      let streak_bonus := streak_bonus_of profile in
      match calculate_level (total_mined profile) with
      | None => raises w []
      | Some level =>
          let level_bonus :=
            (calculate_level_bonus level * Py.float_of_int daily_limit)%float in
          let total_reward :=
            (Py.float_of_int daily_limit + bonus
             + Py.float_of_int streak_bonus + level_bonus)%float in
          let profile :=
            set_balance (balance profile + total_reward)%float profile in
          let profile :=
            set_total_mined (total_mined profile + total_reward)%float
              profile in
          let profile := set_mining_count (mining_count profile + 1) profile in
          let profile :=
            set_last_mine_time (Some (current_time env)) profile in
          let '(profile, streak_msgs, notice_raised) :=
            check_daily_streak_run (notice_delivered d) (t_streak env)
              profile in
          if notice_raised then
            raises (store_profile uid profile w) streak_msgs
          else
            let '(profile, achievement_msgs) :=
              check_achievements (t_achievements env) profile in
            if reply_delivered d then
              returns (store_profile uid profile w)
                (streak_msgs ++ achievement_msgs ++
                 [MsgMined
                    {| rc_daily_limit := daily_limit; rc_bonus := bonus;
                       rc_streak_bonus := streak_bonus; rc_level := level;
                       rc_level_bonus := level_bonus;
                       rc_total_reward := total_reward |}
                    (balance profile) (current_streak profile)])
            else
              raises (store_profile uid profile w)
                (streak_msgs ++ achievement_msgs)
      end.

(** ** start (bot.py, lines 359-417) *)

(** [arg0] is [int(context.args[0])]: [None] when the command came without
    an argument or the argument is not an integer ([ValueError], passed
    over by the handler). *)
Definition start (uid : Z) (arg0 : option Z) (w : world) : result :=
  if bool_decide (uid ∈ suspended_users w) then returns w [MsgSuspended]
  else
    let '(w, notice) :=
      match arg0 with
      | Some referred_by =>
          if bool_decide (referred_by ≠ uid) then
            match user_profiles w !! referred_by, user_profiles w !! uid with
            | Some referrer_profile, None =>
                let referrer_profile :=
                  set_balance
                    (balance referrer_profile + REFERRAL_REWARD w)%float
                    referrer_profile in
                let referrer_profile :=
                  set_referral_count (referral_count referrer_profile + 1)
                    referrer_profile in
                let w := store_profile referred_by referrer_profile w in
                let new_profile := new_profile uid in
                let new_profile :=
                  set_balance (REFERRAL_REWARD w) new_profile in
                let new_profile :=
                  set_referred_by (Some referred_by) new_profile in
                (store_profile uid new_profile w,
                 [MsgReferralBonus referred_by (REFERRAL_REWARD w)])
            | _, _ => (w, [])
            end
          else (w, [])
      | None => (w, [])
      end in
    returns (ensure_profile uid w) (notice ++ [MsgWelcome]).

(** ** Sponsor tasks (bot.py, lines 1079-1164) *)

(** [task] is the id parsed from the [/task_<id>] command. *)
Definition task_handler (uid : Z) (task : Z) (w : world) : result :=
  match tasks w !! task with
  | None => returns w [MsgTaskGone]
  | Some t =>
      if bool_decide (uid ∈ completed_by t) then
        returns w [MsgAlreadyCompleted]
      else returns (ensure_profile uid w) [MsgTaskLink]
  end.

(** [is_member] is the answer of [verify_channel_membership], consulted
    only for a task with a channel.  The profile worked on is
    [user_profiles.get(uid, UserProfile(uid))]: the stored object when
    there is one, otherwise a new object that no store refers to, so its
    update is visible in the reply only. *)
Definition verify_task (uid : Z) (task : Z) (is_member : bool) (w : world)
  : result :=
  match tasks w !! task with
  | None => returns w [MsgTaskGone]
  | Some t =>
      if bool_decide (uid ∈ completed_by t) then
        returns w [MsgAlreadyCompleted]
      else if Py.truthy_str (channel_id t) && negb is_member then
        returns w [MsgVerificationFailed]
      else
        let profile := profile_of w uid in
        let profile := set_balance (balance profile + reward t)%float profile in
        let w :=
          match user_profiles w !! uid with
          | Some _ => store_profile uid profile w
          | None => w
          end in
        let t := set_completed_by ({[uid]} ∪ completed_by t) t in
        returns (set_tasks (<[task := t]> (tasks w)) (next_task_id w) w)
          [MsgTaskCompleted (reward t) (balance profile)]
  end.

(** ** successful_payment_callback (bot.py, lines 1316-1365) *)

(** [plan] is the payload's plan key looked up in [ENERGY_PLANS]: [None]
    when it is not a key of the catalog. *)
Definition successful_payment_callback (uid : Z) (plan : option plan_id)
    (now : Z) (w : world) : result :=
  match plan with
  | None => returns w []
  | Some k =>
      let w := ensure_profile uid w in
      let profile := profile_of w uid in
      let profile := set_energy k (now + timedelta_days 30) profile in
      let w := store_profile uid profile w in
      let '(w, notice) :=
        match referred_by profile with
        | Some r =>
            match bool_decide (r ≠ 0), user_profiles w !! r with
            | true, Some referrer_profile =>
                let bonus_amount :=
                  (Py.float_of_int (price (ENERGY_PLANS k)) * 0.10)%float in
                let referrer_profile :=
                  set_balance (balance referrer_profile + bonus_amount)%float
                    referrer_profile in
                (store_profile r referrer_profile w,
                 [MsgPurchaseBonus r bonus_amount])
            | _, _ => (w, [])
            end
        | None => (w, [])
        end in
      returns w (notice ++ [MsgPaymentOk k])
  end.

(** ** Admin commands (bot.py, lines 237-287 and 940-1055)

    [admin] is the outcome of the [is_admin] check.  [target] is [None]
    when the argument is missing or [str.isdigit] refuses it; otherwise
    it holds [int(context.args[0])], which is [None] when [int] raises
    [ValueError] (a digit that is no decimal digit, such as a
    superscript two): the handler does not catch it, so the run ends
    there with nothing sent. *)

Definition suspend_user (admin : bool) (target : option (option Z))
    (w : world) : result :=
  if negb admin then returns w [MsgAdminOnly]
  else match target with
       | None => returns w [MsgBadArgument]
       | Some None => raises w []
       | Some (Some target_id) =>
           match user_profiles w !! target_id with
           | None => returns w [MsgNotFound]
           | Some _ =>
               returns
                 (set_suspended_users ({[target_id]} ∪ suspended_users w) w)
                 [MsgAdminDone]
           end
       end.

Definition unsuspend_user (admin : bool) (target : option (option Z))
    (w : world) : result :=
  if negb admin then returns w [MsgAdminOnly]
  else match target with
       | None => returns w [MsgBadArgument]
       | Some None => raises w []
       | Some (Some target_id) =>
           if bool_decide (target_id ∈ suspended_users w) then
             returns
               (set_suspended_users (suspended_users w ∖ {[target_id]}) w)
               [MsgAdminDone]
           else returns w [MsgNotFound]
       end.

(** [fields] carries what the command line parsed to, [None] when the
    format or the channel validation is refused; the new task starts with
    an empty completion set under the next free id. *)
Definition add_task (admin : bool) (fields : option Task) (w : world)
  : result :=
  if negb admin then returns w [MsgAdminOnly]
  else match fields with
       | None => returns w [MsgBadArgument]
       | Some f =>
           let task :=
             {| task_id := next_task_id w; title := title f;
                description := description f; link := link f;
                display_text := display_text f; reward := reward f;
                created_at := created_at f; completed_by := ∅;
                channel_id := channel_id f |} in
           returns
             (set_tasks (<[next_task_id w := task]> (tasks w))
                (next_task_id w + 1) w)
             [MsgAdminDone]
       end.

Definition remove_task (admin : bool) (target : option (option Z))
    (w : world) : result :=
  if negb admin then returns w [MsgAdminOnly]
  else match target with
       | None => returns w [MsgBadArgument]
       | Some None => raises w []
       | Some (Some id) =>
           match tasks w !! id with
           | None => returns w [MsgNotFound]
           | Some _ =>
               returns (set_tasks (delete id (tasks w)) (next_task_id w) w)
                 [MsgAdminDone]
           end
       end.

(** ** Runs of the program *)

(** The clock readings of one [mine] run are taken in program order within
    the same day-long window.  The program does not guarantee this: the
    readings are separate calls of [datetime.now()] (lines 449 and 331). *)
Definition prompt_clock (env : mine_env) : Prop :=
  current_time env <= t_streak env < current_time env + timedelta_days 1.

(** One handler run, of a program whose [mine] runs are the ones [ok]
    admits.  A [mine] run is taken with the outcome of its sends; of the
    other handlers only the state they leave matters here, and a reply
    of theirs that raises comes after their last write.  The constants of
    lines 30-34 keep the values of the source text: [/config_set], which
    rebinds them, is not among the runs. *)
Inductive step_of (ok : mine_env -> delivery -> Prop)
  : world -> world -> Prop :=
| step_start uid arg0 w :
    step_of ok w (after (start uid arg0 w))
| step_mine d env uid w :
    ok env d -> step_of ok w (after (mine_run d env uid w))
| step_task_handler uid task w :
    step_of ok w (after (task_handler uid task w))
| step_verify_task uid task is_member w :
    step_of ok w (after (verify_task uid task is_member w))
| step_payment uid plan now w :
    step_of ok w (after (successful_payment_callback uid plan now w))
| step_suspend admin target w :
    step_of ok w (after (suspend_user admin target w))
| step_unsuspend admin target w :
    step_of ok w (after (unsuspend_user admin target w))
| step_add_task admin fields w :
    step_of ok w (after (add_task admin fields w))
| step_remove_task admin target w :
    step_of ok w (after (remove_task admin target w)).

(** The states the program can be in when its [mine] runs are the ones
    [ok] admits. *)
Definition reachable_when (ok : mine_env -> delivery -> Prop) (w : world)
  : Prop :=
  exists referral_reward, rtc (step_of ok) (initial_world referral_reward) w.

(** Every run: any clock readings, any send raising. *)
Definition any_run (env : mine_env) (d : delivery) : Prop := True.

Definition step : world -> world -> Prop := step_of any_run.

(** The states the program can be in. *)
Definition reachable (w : world) : Prop := reachable_when any_run w.

(** The runs with clock readings in order and less than a day apart. *)
Definition prompt_run (env : mine_env) (d : delivery) : Prop :=
  prompt_clock env.

(** The runs whose notice from [check_daily_streak] is delivered. *)
Definition notified_run (env : mine_env) (d : delivery) : Prop :=
  notice_delivered d = true.

(** The runs in which neither happens: the clock readings are prompt
    and the notice is delivered. *)
Definition smooth_run (env : mine_env) (d : delivery) : Prop :=
  prompt_clock env /\ notice_delivered d = true.

(** ** Reading a run *)

(** The figures reported by a run that ended with the mining reply. *)
Definition receipt_of (m : message) : option receipt :=
  match m with
  | MsgMined figures _ _ => Some figures
  | _ => None
  end.

Definition claim_receipt (r : result) : option receipt :=
  last (sent r) ≫= receipt_of.

(** The success path of [mine], step by step. *)
Definition base_reward (env : mine_env) (p : UserProfile) : Z :=
  get_daily_limit p (t_daily_limit env).

Definition jackpot (env : mine_env) (p : UserProfile) : float :=
  if (random_draw env <? 0.1)%float
  then (Py.float_of_int (base_reward env p) * 0.1)%float else 0%float.

Definition figures_at (env : mine_env) (p : UserProfile) (level : Z)
  : receipt :=
  let level_bonus :=
    (calculate_level_bonus level * Py.float_of_int (base_reward env p))%float in
  {| rc_daily_limit := base_reward env p;
     rc_bonus := jackpot env p;
     rc_streak_bonus := streak_bonus_of p;
     rc_level := level;
     rc_level_bonus := level_bonus;
     rc_total_reward :=
       (Py.float_of_int (base_reward env p) + jackpot env p
        + Py.float_of_int (streak_bonus_of p) + level_bonus)%float |}.

(** The four assignments of lines 476-479. *)
Definition credit (env : mine_env) (p : UserProfile) (level : Z)
  : UserProfile :=
  let total_reward := rc_total_reward (figures_at env p level) in
  set_last_mine_time (Some (current_time env))
    (set_mining_count (mining_count p + 1)
       (set_total_mined (total_mined p + total_reward)%float
          (set_balance (balance p + total_reward)%float p))).

(** The profile when [check_daily_streak] returns (line 482). *)
Definition advanced (env : mine_env) (p : UserProfile) (level : Z)
  : UserProfile :=
  (check_daily_streak (t_streak env) (credit env p level)).1.

(** The profile when [check_achievements] returns (line 483). *)
Definition settled (env : mine_env) (p : UserProfile) (level : Z)
  : UserProfile :=
  (check_achievements (t_achievements env) (advanced env p level)).1.

(** The profile a run leaves once the four assignments are made: where
    the notice of [check_daily_streak] raised, or else as
    [check_achievements] returns it. *)
Definition left_by (d : delivery) (env : mine_env) (p : UserProfile)
    (level : Z) : UserProfile :=
  let '(q, _, notice_raised) :=
    check_daily_streak_run (notice_delivered d) (t_streak env)
      (credit env p level) in
  if notice_raised then q
  else (check_achievements (t_achievements env) q).1.

(** The messages of a successful run, in sending order. *)
Definition mined_messages (env : mine_env) (p : UserProfile) (level : Z)
  : list message :=
  (check_daily_streak (t_streak env) (credit env p level)).2
  ++ (check_achievements (t_achievements env) (advanced env p level)).2
  ++ [MsgMined (figures_at env p level) (balance (settled env p level))
        (current_streak (settled env p level))].

(** Whether the streak check of a claim has a notice to send: the weekly
    bonus notice when the incremented streak is a multiple of 7, the
    streak-broken notice when it resets a streak. *)
Definition notice_due (env : mine_env) (p : UserProfile) : bool :=
  if days (t_streak env - current_time env) <=? 1
  then (current_streak p + 1) mod 7 =? 0
  else 0 <? current_streak p.

(** ** Invariants *)

(** A property of every stored profile. *)
Definition all_profiles (I : UserProfile -> Prop) (w : world) : Prop :=
  forall uid p, user_profiles w !! uid = Some p -> I p.


(** What a property of profiles must withstand to hold of every stored
    profile in every state reached with the [mine] runs [ok] admits:
    creation, and each kind of update a handler applies to a stored
    profile. *)
Record profile_invariant (ok : mine_env -> delivery -> Prop)
    (I : UserProfile -> Prop) : Prop := {
  inv_new : forall uid, I (new_profile uid);
  inv_balance : forall v p, I p -> I (set_balance v p);
  inv_referral_count :
    forall p, I p -> I (set_referral_count (referral_count p + 1) p);
  inv_referred_by : forall r p, I p -> I (set_referred_by (Some r) p);
  inv_energy : forall k expires p, I p -> I (set_energy k expires p);
  inv_mine :
    forall d env level p, ok env d -> I p -> I (left_by d env p level);
}.

(** Stored profiles stay, with the referrer they were created with. *)
Definition keeps_referrers (w w' : world) : Prop :=
  forall uid p, user_profiles w !! uid = Some p ->
    exists p', user_profiles w' !! uid = Some p' /\
               referred_by p' = referred_by p.

(** ** The statements under scrutiny, as the specification words them *)

(** The streak bonus is computed from the streak the advance step leaves. *)
Definition streak_bonus_is_post_advance (env : mine_env) (uid : Z) (w : world)
  : Prop :=
  forall rc, claim_receipt (mine env uid w) = Some rc ->
    rc_streak_bonus rc =
      Z.min (current_streak (profile_of (after (mine env uid w)) uid) * 2) 100.

(** Balance, lifetime total and claim count move by the reported payout
    and by one. *)
Definition pays_exactly_the_receipt (env : mine_env) (uid : Z) (w : world)
  : Prop :=
  forall rc, claim_receipt (mine env uid w) = Some rc ->
    let p := profile_of w uid in
    let p' := profile_of (after (mine env uid w)) uid in
    balance p' = (balance p + rc_total_reward rc)%float /\
    total_mined p' = (total_mined p + rc_total_reward rc)%float /\
    mining_count p' = mining_count p + 1.



(** A successful claim adds exactly 1 to the streak and sends no
    streak-broken notice. *)
Definition claim_always_increments (env : mine_env) (uid : Z) (w : world)
  : Prop :=
  forall rc, claim_receipt (mine env uid w) = Some rc ->
    current_streak (profile_of (after (mine env uid w)) uid)
    = current_streak (profile_of w uid) + 1 /\
    forall n, MsgStreakBroken n ∉ sent (mine env uid w).

(** The payout a fixed-point decimal ledger holds, in hundredths: the base,
    a tenth of it on a jackpot, the streak bonus and a tenth of the base
    per level. *)
Definition payout_hundredths (rc : receipt) (jackpot_hit : bool) : Z :=
  100 * rc_daily_limit rc
  + (if jackpot_hit then 10 * rc_daily_limit rc else 0)
  + 100 * rc_streak_bonus rc
  + 10 * rc_level rc * rc_daily_limit rc.

(** The reported payout is that decimal amount. *)
Definition payout_is_decimal (env : mine_env) (uid : Z) (w : world) : Prop :=
  forall rc, claim_receipt (mine env uid w) = Some rc ->
    rc_total_reward rc =
      (Py.float_of_int
         (payout_hundredths rc (random_draw env <? 0.1)%float) / 100)%float.

(** Signup attribution, as the specification words its conditions: the
    referrer is someone else, has a profile, and the new user has none.
    The result is the referrer to credit, if any. *)
Definition attributes (uid : Z) (arg0 : option Z) (w : world) : option Z :=
  match arg0 with
  | Some referrer =>
      if bool_decide (referrer ≠ uid)
         && bool_decide (is_Some (user_profiles w !! referrer))
         && negb (bool_decide (is_Some (user_profiles w !! uid)))
      then Some referrer else None
  | None => None
  end.

(** ** Sample states *)

Module Sample.

Definition alice : Z := 1001.
Definition bob : Z := 1002.
Definition day (n : Z) : Z := timedelta_days n.
Definition hour (n : Z) : Z := timedelta_hours n.

(** The readings of a run that starts at hour [h] of day [d], one
    microsecond apart, with the given random draw. *)
Definition at_hour (d h : Z) (draw : float) : mine_env :=
  {| t_has_plan := day d + hour h;
     current_time := day d + hour h + 1;
     t_daily_limit := day d + hour h + 2;
     random_draw := draw;
     t_streak := day d + hour h + 3;
     t_achievements := day d + hour h + 4 |}.

(** The readings of a run that starts at hour [h] of day [d] and whose
    streak check reads the clock two days later (a clock that was set
    forward, or a process that was suspended, in between). *)
Definition late_check (d h : Z) (draw : float) : mine_env :=
  {| t_has_plan := day d + hour h;
     current_time := day d + hour h + 1;
     t_daily_limit := day d + hour h + 2;
     random_draw := draw;
     t_streak := day (d + 2) + hour h + 3;
     t_achievements := day (d + 2) + hour h + 4 |}.

(** A holder of the max plan, valid up to day [until], with [n] daily
    claims behind it, the last one at 11:00 of day [d]. *)
Definition miner (uid n d until : Z) (funds : float) : UserProfile :=
  {| user_id := uid; balance := funds; total_mined := funds;
     mining_count := n; referral_count := 0; achievements := ∅;
     last_mine_time := Some (day d + hour 11);
     current_streak := n; highest_streak := n;
     last_daily_bonus := None; referred_by := None;
     energy_plan := Some plan_max; energy_expires := Some (day until) |}.

Definition with_profile (p : UserProfile) : world :=
  store_profile (user_id p) p (initial_world 50).

(** A new user who has just bought the max plan. *)
Definition newcomer : UserProfile :=
  set_energy plan_max (day 31) (new_profile alice).

(** A profile whose plan runs out an hour after its claim. *)
Definition expiring : UserProfile :=
  set_energy plan_max (day 10 + hour 13) (new_profile alice).

(** A task without a channel. *)
Definition survey : Task :=
  {| task_id := 1; title := "Survey"; description := "Answer the survey";
     link := "https://example.org/"; display_text := "Open";
     reward := 50; created_at := day 1; completed_by := ∅;
     channel_id := Some "" |}.

Definition with_survey : world :=
  set_tasks {[1 := survey]} 2 (initial_world 50).

(** A run of the program: Alice signs up, buys the max plan on day 1 and
    claims at noon of day 10. *)
Definition signed_up : world :=
  after (start alice None (initial_world 50)).

Definition subscribed : world :=
  after (successful_payment_callback alice (Some plan_max) (day 1) signed_up).

Definition after_first_claim : world :=
  after (mine (at_hour 10 12 0.5) alice subscribed).

(** A long-time holder of the max plan: 29000 mined, a streak of 30. *)
Definition veteran : UserProfile := miner alice 30 9 31 29000.

(** Alice on the unlimited plan: renewed at midnight of day [d]. *)
Definition renewed (d : Z) (w : world) : world :=
  after (successful_payment_callback alice (Some plan_unlimited) (day d) w).

(** A season of [n] daily claims without jackpot: from day 2 on Alice
    renews at midnight and claims at noon. *)
Fixpoint season (n : nat) : world :=
  match n with
  | O => signed_up
  | S k =>
      after (mine (at_hour (1 + Z.of_nat n) 12 0.5) alice
               (renewed (1 + Z.of_nat n) (season k)))
  end.

End Sample.

(** * Further parts of the program *)

From Stdlib Require Import Ascii.
From stdpp Require Import pretty.

Local Open Scope Z_scope.

#[local] Set Warnings "-clear-no-such-hyp".

(** ** Counters *)

(** The counters a claim moves together. *)
Definition counters_agree (p : UserProfile) : Prop :=
  0 <= mining_count p /\
  current_streak p = mining_count p /\
  highest_streak p = mining_count p /\
  (last_mine_time p = None <-> mining_count p = 0).

(** ** Achievements *)

(** The keys of [ACHIEVEMENTS] (lines 37-43). *)
Definition ACHIEVEMENTS : gset string :=
  {[ "first_mine"; "mining_streak_7"; "referral_master"; "mega_miner";
     "early_bird" ]}.

(** The five guarded unlocks of [check_achievements], as a list of
    condition and identifier in the order of the source. *)
Definition unlock_conditions (now : Z) (p : UserProfile)
  : list (bool * string) :=
  [ (mining_count p =? 1, "first_mine");
    (7 <=? current_streak p, "mining_streak_7");
    (5 <=? referral_count p, "referral_master");
    ((1000 <=? total_mined p)%float, "mega_miner");
    (now mod timedelta_days 1 <=? 3600 * us_per_second, "early_bird") ].

Definition unlock_all (cs : list (bool * string))
    (st : UserProfile * list string) : UserProfile * list string :=
  foldl (fun st c => unlock c.1 c.2 st) st cs.

(** The achievements a profile holds whenever their condition holds. *)
Definition achievements_earned (p : UserProfile) : Prop :=
  0 <= mining_count p /\
  achievements p ⊆ ACHIEVEMENTS /\
  (1 <= mining_count p -> "first_mine" ∈ achievements p) /\
  (7 <= current_streak p -> "mining_streak_7" ∈ achievements p) /\
  ((1000 <=? total_mined p)%float = true -> "mega_miner" ∈ achievements p).

(** ** Further sample states *)

Module Sample2.

(** Alice claims again at 13:00 of day 12, having skipped day 11. *)
Definition after_second_claim : world :=
  after (mine (Sample.at_hour 12 13 0.5) Sample.alice
           Sample.after_first_claim).

End Sample2.

(** ** Consistency of the stores *)

(** The stores other than the profiles are left as they were. *)
Definition same_admin_stores (w w' : world) : Prop :=
  suspended_users w' = suspended_users w /\
  tasks w' = tasks w /\
  next_task_id w' = next_task_id w.

(** What one handler run can do to the task store. *)
Inductive task_effect (w w' : world) : Prop :=
| tasks_kept :
    tasks w' = tasks w -> next_task_id w' = next_task_id w ->
    task_effect w w'
| task_completed k t uid :
    tasks w !! k = Some t -> uid ∉ completed_by t ->
    tasks w'
    = <[k := set_completed_by ({[uid]} ∪ completed_by t) t]> (tasks w) ->
    next_task_id w' = next_task_id w ->
    task_effect w w'
| task_added t :
    task_id t = next_task_id w -> completed_by t = ∅ ->
    tasks w' = <[next_task_id w := t]> (tasks w) ->
    next_task_id w' = next_task_id w + 1 ->
    task_effect w w'
| task_removed k :
    is_Some (tasks w !! k) ->
    tasks w' = delete k (tasks w) -> next_task_id w' = next_task_id w ->
    task_effect w w'.

(** Task identifiers: every task is stored under its own identifier, and
    identifiers are handed out in increasing order from 1. *)
Definition task_ids_ok (w : world) : Prop :=
  1 <= next_task_id w /\
  forall k t, tasks w !! k = Some t ->
              task_id t = k /\ 1 <= k < next_task_id w.

(** ** Sample runs with admin commands *)

Module Sample3.

(** Alice is suspended after the first claim. *)
Definition alice_suspended : world :=
  after (suspend_user true (Some (Some Sample.alice))
           Sample.after_first_claim).

(** An admin adds the survey task; Alice, who has a profile, completes
    it; the admin removes it and adds it again. *)
Definition survey_added : world :=
  after (add_task true (Some Sample.survey) Sample.signed_up).

Definition survey_done : world :=
  after (verify_task Sample.alice 1 true survey_added).

Definition survey_removed : world :=
  after (remove_task true (Some (Some 1)) survey_done).

Definition survey_again : world :=
  after (add_task true (Some Sample.survey) survey_removed).

End Sample3.

(** ** The referral ledger *)

(** The stored users whose profile names [r] as referrer. *)
Definition referred_ids (w : world) (r : Z) : gset Z :=
  dom (filter (fun kp => referred_by kp.2 = Some r) (user_profiles w)).

(** Referrers are stored users other than the referred one, and each
    referral count is the number of stored users referred. *)
Definition ledger_ok (w : world) : Prop :=
  (forall u p r, user_profiles w !! u = Some p ->
                 referred_by p = Some r ->
                 r <> u /\ is_Some (user_profiles w !! r)) /\
  (forall r p, user_profiles w !! r = Some p ->
               referral_count p = Z.of_nat (size (referred_ids w r))).

(** A run that attributes no signup: stored profiles keep referrer and
    referral count, new profiles start without referrer at count 0. *)
Definition ledger_quiet (w w' : world) : Prop :=
  forall u,
    match user_profiles w !! u, user_profiles w' !! u with
    | Some p, Some p' =>
        referred_by p' = referred_by p /\
        referral_count p' = referral_count p
    | None, Some p' => referred_by p' = None /\ referral_count p' = 0
    | Some _, None => False
    | None, None => True
    end.

(** A run that attributes the signup of [uid] to [r]. *)
Definition ledger_attributes (uid r : Z) (w w' : world) : Prop :=
  r <> uid /\ user_profiles w !! uid = None /\
  exists rp rp' newp,
    user_profiles w !! r = Some rp /\
    user_profiles w' = <[uid := newp]> (<[r := rp']> (user_profiles w)) /\
    referred_by newp = Some r /\ referral_count newp = 0 /\
    referred_by rp' = referred_by rp /\
    referral_count rp' = referral_count rp + 1.

Module Sample4.

(** Bob signs up through Alice's link. *)
Definition bob_referred : world :=
  after (start Sample.bob (Some Sample.alice) Sample.signed_up).

End Sample4.

(** ** Admin roles (bot.py, lines 780-886 and 1409-1413) *)

Module Admin.

Inductive role_name := owner | admin | moderator.

(** [ADMIN_ROLES[role]['level']] *)
Definition level (r : role_name) : Z :=
  match r with
  | owner => 3
  | admin => 2
  | moderator => 1
  end.

(** [ADMIN_ROLES[role]['commands']], shown by [/admin_stats]. *)
Definition commands (r : role_name) : list string :=
  match r with
  | owner => ["add_admin"; "remove_admin"; "config_set"]
  | admin => ["announce"; "broadcast"; "suspend_user"; "unsuspend_user"]
  | moderator => ["monitor_user"; "config_get"]
  end.

Record AdminUser := {
  user_id : Z;
  role : role_name;
  added_by : option Z;
  added_at : Z;
}.

Definition get_admin_level (admin_users : gmap Z AdminUser) (uid : Z) : Z :=
  match admin_users !! uid with
  | None => 0
  | Some a => level (role a)
  end.

(** The second definition of [is_admin] (line 803), which replaces the
    one of line 123 when the module is loaded. *)
Definition is_admin (admin_users : gmap Z AdminUser) (uid : Z)
    (required_level : Z) : bool :=
  required_level <=? get_admin_level admin_users uid.

Inductive reply :=
| OwnerOnly
| BadFormat
| InvalidRole
| Added (target : Z) (r : role_name)
| Promoted (target : Z) (r : role_name)
| NotAnAdmin
| CannotRemoveOwner
| Removed (target : Z) (r : role_name)
| Dismissed (target : Z).

Record outcome := {
  admins_after : gmap Z AdminUser;
  replies : list reply;
  failed : bool;
}.

Definition done (a : gmap Z AdminUser) (l : list reply) : outcome :=
  {| admins_after := a; replies := l; failed := false |}.

(** [args] is [None] unless the command has exactly two arguments; then
    it holds [int(context.args[0])] ([None] when Python raises
    [ValueError], which the handler does not catch) and the lower-cased
    second argument looked up in [ADMIN_ROLES] ([None] when it is not a
    key). *)
Definition add_admin (caller : Z) (args : option (option Z * option role_name))
    (now : Z) (admin_users : gmap Z AdminUser) : outcome :=
  if negb (is_admin admin_users caller 3) then done admin_users [OwnerOnly]
  else match args with
       | None => done admin_users [BadFormat]
       | Some (None, _) =>
           {| admins_after := admin_users; replies := []; failed := true |}
       | Some (Some target_id, new_role) =>
           match new_role with
           | None => done admin_users [InvalidRole]
           | Some owner => done admin_users [InvalidRole]
           | Some r =>
               let new_admin :=
                 {| user_id := target_id; role := r;
                    added_by := Some caller; added_at := now |} in
               done (<[target_id := new_admin]> admin_users)
                 [Added target_id r; Promoted target_id r]
           end
       end.

(** [target] is [None] when the argument is missing or [isdigit] refuses
    it; otherwise it holds [int(context.args[0])], [None] when Python
    raises [ValueError] (a digit that is no decimal digit, such as a
    superscript), which the handler does not catch. *)
Definition remove_admin (caller : Z) (target : option (option Z))
    (admin_users : gmap Z AdminUser) : outcome :=
  if negb (is_admin admin_users caller 3) then done admin_users [OwnerOnly]
  else match target with
       | None => done admin_users [BadFormat]
       | Some None =>
           {| admins_after := admin_users; replies := []; failed := true |}
       | Some (Some target_id) =>
           match admin_users !! target_id with
           | None => done admin_users [NotAnAdmin]
           | Some a =>
               match role a with
               | owner => done admin_users [CannotRemoveOwner]
               | removed_role =>
                   done (delete target_id admin_users)
                     [Removed target_id removed_role; Dismissed target_id]
               end
           end
       end.

(** The store [main] starts with; [owner_id] is
    [int(os.getenv('ADMIN_IDS', '0'))], and no owner is stored when it
    is 0. *)
Definition initial (owner_id now : Z) : gmap Z AdminUser :=
  if bool_decide (owner_id ≠ 0) then
    {[ owner_id := {| user_id := owner_id; role := owner;
                      added_by := None; added_at := now |} ]}
  else ∅.

(** One run of one of the two commands that write the store. *)
Inductive step : gmap Z AdminUser -> gmap Z AdminUser -> Prop :=
| step_add caller args now a :
    step a (admins_after (add_admin caller args now a))
| step_remove caller target a :
    step a (admins_after (remove_admin caller target a)).

End Admin.

(** ** The program with its admins *)

(** The profile, task and suspension stores together with the admin
    store that guards the admin commands. *)
Record bot := {
  admin_users : gmap Z Admin.AdminUser;
  core : world;
}.

(** One handler run; an admin command runs with the outcome of its own
    [is_admin] check: level 1 for [suspend_user] and [unsuspend_user],
    level 2 for [add_task] and [remove_task], level 3 for [add_admin] and
    [remove_admin]. *)
Inductive bot_step : bot -> bot -> Prop :=
| bot_start uid arg0 b :
    bot_step b {| admin_users := admin_users b;
                  core := after (start uid arg0 (core b)) |}
| bot_mine d env uid b :
    bot_step b {| admin_users := admin_users b;
                  core := after (mine_run d env uid (core b)) |}
| bot_task_handler uid task b :
    bot_step b {| admin_users := admin_users b;
                  core := after (task_handler uid task (core b)) |}
| bot_verify_task uid task is_member b :
    bot_step b {| admin_users := admin_users b;
                  core := after (verify_task uid task is_member (core b)) |}
| bot_payment uid plan now b :
    bot_step b {| admin_users := admin_users b;
                  core := after (successful_payment_callback uid plan now
                                   (core b)) |}
| bot_suspend caller target b :
    bot_step b {| admin_users := admin_users b;
                  core := after (suspend_user
                                   (Admin.is_admin (admin_users b) caller 1)
                                   target (core b)) |}
| bot_unsuspend caller target b :
    bot_step b {| admin_users := admin_users b;
                  core := after (unsuspend_user
                                   (Admin.is_admin (admin_users b) caller 1)
                                   target (core b)) |}
| bot_add_task caller fields b :
    bot_step b {| admin_users := admin_users b;
                  core := after (add_task
                                   (Admin.is_admin (admin_users b) caller 2)
                                   fields (core b)) |}
| bot_remove_task caller target b :
    bot_step b {| admin_users := admin_users b;
                  core := after (remove_task
                                   (Admin.is_admin (admin_users b) caller 2)
                                   target (core b)) |}
| bot_add_admin caller args now b :
    bot_step b {| admin_users :=
                    Admin.admins_after
                      (Admin.add_admin caller args now (admin_users b));
                  core := core b |}
| bot_remove_admin caller target b :
    bot_step b {| admin_users :=
                    Admin.admins_after
                      (Admin.remove_admin caller target (admin_users b));
                  core := core b |}.

(** The state [main] starts the program in. *)
Definition bot_initial (owner_id now : Z) (referral_reward : float) : bot :=
  {| admin_users := Admin.initial owner_id now;
     core := initial_world referral_reward |}.

(** The owner appoints themself to a lower role. *)
Definition demote_self (owner_id : Z) (r : Admin.role_name) (now : Z)
    (b : bot) : bot :=
  {| admin_users :=
       Admin.admins_after
         (Admin.add_admin owner_id (Some (Some owner_id, Some r)) now
            (admin_users b));
     core := core b |}.

(** ** Sample runs with admins *)

Module Sample5.

Definition carol : Z := 1003.

(** The program started with Alice as the owner. *)
Definition opened : bot := bot_initial Sample.alice 0 50.

(** Alice appoints Bob as admin. *)
Definition bob_admin : bot :=
  {| admin_users :=
       Admin.admins_after
         (Admin.add_admin Sample.alice
            (Some (Some Sample.bob, Some Admin.admin)) 1 (admin_users opened));
     core := core opened |}.

(** Alice then takes the role of moderator. *)
Definition alice_moderator : bot :=
  demote_self Sample.alice Admin.moderator 2 bob_admin.

(** The program started without an owner; Carol signs up and Bob tries
    to add the survey task. *)
Definition unowned : bot := bot_initial 0 0 50.

Definition unowned_busy : bot :=
  {| admin_users := admin_users unowned;
     core :=
       after (add_task (Admin.is_admin (admin_users unowned) Sample.bob 2)
                (Some Sample.survey)
                (after (start carol None (core unowned)))) |}.

End Sample5.

(** ** Bot detection (bot.py, lines 114 and 127-137) *)

(** [user_actions[uid]]: the log holds for each user the times
    ([time.time()], seconds as a float) of the recorded actions, oldest
    first; a missing key reads as the empty list, as in a
    [defaultdict(list)]. *)
Definition actions_of (user_actions : gmap Z (list float)) (uid : Z)
  : list float :=
  default [] (user_actions !! uid).

(** Returns the verdict and the count, and the log with the user's entry
    pruned to the last minute.  [SUSPICIOUS_THRESHOLD] is the integer
    read from the environment. *)
Definition check_bot_behavior (SUSPICIOUS_THRESHOLD : Z)
    (current_time : float) (uid : Z) (user_actions : gmap Z (list float))
  : (bool * Z) * gmap Z (list float) :=
  let kept :=
    List.filter (fun t => (current_time - t <? 60)%float)
      (actions_of user_actions uid) in
  let actions_per_minute := Z.of_nat (length kept) in
  let is_suspicious := SUSPICIOUS_THRESHOLD <=? actions_per_minute in
  ((is_suspicious, actions_per_minute), <[uid := kept]> user_actions).

Definition record_user_action (now : float) (uid : Z)
    (user_actions : gmap Z (list float)) : gmap Z (list float) :=
  <[uid := actions_of user_actions uid ++ [now]]> user_actions.

(** What happens to the log over time: [start] and [mine] record an
    action, [monitor_user] and [admin_stats] check users. *)
Inductive log_event :=
| recorded_at (uid : Z) (now : float)
| checked_at (uid : Z) (now : float).

Definition log_after (SUSPICIOUS_THRESHOLD : Z) (events : list log_event)
    (user_actions : gmap Z (list float)) : gmap Z (list float) :=
  foldl (fun log e =>
           match e with
           | recorded_at uid now => record_user_action now uid log
           | checked_at uid now =>
               (check_bot_behavior SUSPICIOUS_THRESHOLD now uid log).2
           end) user_actions events.

(** How many actions of [uid] the events record. *)
Definition records_of (uid : Z) (events : list log_event) : Z :=
  Z.of_nat
    (length
       (List.filter (fun e =>
                       match e with
                       | recorded_at u _ => bool_decide (u = uid)
                       | checked_at _ _ => false
                       end) events)).

(** ** Durations as text (bot.py, lines 96-110 and 117-121) *)

(** [td.seconds] of a timedelta: the whole seconds left after the days. *)
Definition td_seconds (td : Z) : Z :=
  (td `mod` timedelta_days 1) / us_per_second.

(** [divmod] is floor division, as [/] and [`mod`] on [Z] for a positive
    divisor; an integer in an f-string is written in decimal. *)
Definition format_time_remaining (seconds : Z) : string :=
  let hours := seconds / 3600 in
  let remainder := seconds `mod` 3600 in
  let minutes := remainder / 60 in
  let seconds := remainder `mod` 60 in
  pretty hours +:+ "h " +:+ pretty minutes +:+ "m " +:+ pretty seconds
    +:+ "s".

Definition get_plan_name (p : UserProfile) (now : Z) : string :=
  if has_active_plan p now then
    match energy_plan p with
    | Some k => name (ENERGY_PLANS k)
    | None => "No Active Plan"
    end
  else "No Active Plan".

(** The clock is read twice: by [has_active_plan] at [checked] and for
    the difference at [now]. *)
Definition get_remaining_time (p : UserProfile) (checked now : Z) : string :=
  if has_active_plan p checked then
    match energy_expires p with
    | Some expires =>
        let remaining := expires - now in
        let hours := td_seconds remaining / 3600 in
        let minutes := (td_seconds remaining `mod` 3600) / 60 in
        pretty (days remaining) +:+ "d " +:+ pretty hours +:+ "h "
          +:+ pretty minutes +:+ "m"
    | None => "No active plan"
    end
  else "No active plan".

(** ** energy_status (bot.py, lines 1367-1401) *)

(** The five clock readings of one run, in the order they are taken. *)
Record status_clock := {
  at_status : Z;
  at_plan_name : Z;
  at_daily_limit : Z;
  at_remaining_check : Z;
  at_remaining : Z;
}.

Inductive status_reply :=
| StatusNoProfile
| StatusNoPlan
| StatusReport (plan_name : string) (limit : Z) (remaining : string).

Definition energy_status (clock : status_clock) (uid : Z) (w : world)
  : status_reply :=
  match user_profiles w !! uid with
  | None => StatusNoProfile
  | Some profile =>
      if negb (has_active_plan profile (at_status clock)) then StatusNoPlan
      else
        StatusReport
          (get_plan_name profile (at_plan_name clock))
          (get_daily_limit profile (at_daily_limit clock))
          (get_remaining_time profile (at_remaining_check clock)
             (at_remaining clock))
  end.

(** All readings of one run at the same instant. *)
Definition instant (now : Z) : status_clock :=
  {| at_status := now; at_plan_name := now; at_daily_limit := now;
     at_remaining_check := now; at_remaining := now |}.

(** The readings are in order and all lie in [[from, until)]. *)
Definition clock_within (from until : Z) (clock : status_clock) : Prop :=
  from <= at_status clock /\
  at_status clock <= at_plan_name clock /\
  at_plan_name clock <= at_daily_limit clock /\
  at_daily_limit clock <= at_remaining_check clock /\
  at_remaining_check clock <= at_remaining clock /\
  at_remaining clock < until.

(** Characters of a decimal numeral. *)
Definition numeral_char (c : ascii) : bool :=
  bool_decide
    (c ∈ ["-"; "0"; "1"; "2"; "3"; "4"; "5"; "6"; "7"; "8"; "9"]%char).

Fixpoint numeral (s : string) : bool :=
  match s with
  | EmptyString => true
  | String c s => numeral_char c && numeral s
  end.

(** ** Strings (the methods of [str] the program uses) *)

(** A [str] is modelled by its UTF-8 bytes; the separators and characters
    the program searches for are ASCII, which never occur inside the
    encoding of another character. *)
Module Str.

(** [c in s] for a character. *)
Fixpoint occurs (c : ascii) (s : string) : bool :=
  match s with
  | EmptyString => false
  | String a s => Ascii.eqb a c || occurs c s
  end.

(** [sub in s] *)
Fixpoint contains (sub s : string) : bool :=
  String.prefix sub s
  || match s with
     | EmptyString => false
     | String _ s => contains sub s
     end.

(** [s.split(sep)] for a non-empty [sep], scanning from the left:
    [skip] counts the characters of a separator still to pass over and
    [cur] holds the piece read so far. *)
Fixpoint split_go (sep : string) (skip : nat) (cur s : string)
  : list string :=
  match s with
  | EmptyString => [cur]
  | String a s' =>
      match skip with
      | S n => split_go sep n cur s'
      | O =>
          if String.prefix sep s then
            cur :: split_go sep (String.length sep - 1) EmptyString s'
          else split_go sep 0 (cur +:+ String a EmptyString) s'
      end
  end.

Definition split (sep s : string) : list string :=
  split_go sep 0 EmptyString s.

(** [l[-1]] and [l[0]] of a list that [split] returned (never empty). *)
Definition last_item (l : list string) : string := List.last l EmptyString.
Definition first_item (l : list string) : string := List.hd EmptyString l.

(** [s.replace(c, '')] for a character. *)
Fixpoint remove_char (c : ascii) (s : string) : string :=
  match s with
  | EmptyString => EmptyString
  | String a s =>
      if Ascii.eqb a c then remove_char c s else String a (remove_char c s)
  end.

End Str.

(** ** The plan key in callback data and invoice payloads
       (bot.py, lines 1223-1314 and 1321-1327) *)

(** The keys of [ENERGY_PLANS]. *)
Definition plan_key (k : plan_id) : string :=
  match k with
  | plan_max => "max"
  | plan_unlimited => "unlimited"
  end.

(** [ENERGY_PLANS] looked up by key: [None] when [plan_id not in
    ENERGY_PLANS]. *)
Definition plan_of_key (s : string) : option plan_id :=
  if String.eqb s "max" then Some plan_max
  else if String.eqb s "unlimited" then Some plan_unlimited
  else None.

(** The [callback_data] of the shop's buttons, in the order of the
    catalog. *)
Definition energy_shop : list string :=
  (fun k => "buy_energy_" +:+ plan_key k) <$> [plan_max; plan_unlimited].

Record invoice := {
  inv_chat : Z;
  inv_title : string;
  inv_payload : string;
  inv_currency : string;
  inv_amount : Z;
  inv_start_parameter : string;
}.

Inductive purchase_reply :=
| PurchaseRaised
| PurchaseInvalidPlan
| PurchaseInvoice (i : invoice).

(** [data] is the callback data of the pressed button; [data.split('_')[2]]
    raises [IndexError], which is not caught, when there are fewer than
    three pieces. *)
Definition handle_energy_purchase (uid : Z) (data : string)
  : purchase_reply :=
  match Str.split "_" data !! 2%nat with
  | None => PurchaseRaised
  | Some plan_id =>
      match plan_of_key plan_id with
      | None => PurchaseInvalidPlan
      | Some k =>
          let plan := ENERGY_PLANS k in
          PurchaseInvoice
            {| inv_chat := uid;
               inv_title := "Purchase " +:+ name plan;
               inv_payload :=
                 "energy_plan_" +:+ plan_id +:+ "_" +:+ pretty uid;
               inv_currency := "XTR";
               inv_amount := price plan * 100;
               inv_start_parameter := "energy_" +:+ plan_id |}
      end
  end.

(** The [ok] of the answer to the pre-checkout query: refused when the
    third piece is missing (the [IndexError] is caught) or is no key of
    the catalog. *)
Definition precheckout_callback (payload : string) : bool :=
  match Str.split "_" payload !! 2%nat with
  | None => false
  | Some plan_id =>
      match plan_of_key plan_id with
      | None => false
      | Some _ => true
      end
  end.

Inductive payment_outcome :=
| PaymentError
| PaymentHandled (r : result).

(** [successful_payment_callback] from the payload of the payment: when
    the third piece is missing the [except] branch sends the error reply
    and nothing changes. *)
Definition payment_received (uid : Z) (payload : string) (now : Z) (w : world)
  : payment_outcome :=
  match Str.split "_" payload !! 2%nat with
  | None => PaymentError
  | Some plan_id =>
      PaymentHandled
        (successful_payment_callback uid (plan_of_key plan_id) now w)
  end.

(** ** The channel of a task (bot.py, lines 899-908 and 962-966) *)

(** [Task.__init__]: the [except] branch is never taken, as [split]
    returns a non-empty list of strings. *)
Definition task_channel_id (link : string) : option string :=
  let channel_id :=
    if Str.contains "t.me/" link then
      Str.last_item (Str.split "/" (Str.last_item (Str.split "t.me/" link)))
    else Str.last_item (Str.split "/" link) in
  Some (Str.first_item (Str.split "?" channel_id)).

(** The [channel_id] local to [add_task], which decides whether the
    channel is validated and what the reply says about verification. *)
Definition add_task_channel_id (link : string) : option string :=
  if Str.contains "t.me/" link then
    Some (Str.remove_char "@"
            (Str.first_item
               (Str.split "?"
                  (Str.last_item
                     (Str.split "/"
                        (Str.last_item (Str.split "t.me/" link)))))))
  else None.

(** [Task(task_id, title, description, link, display_text, reward)] *)
Definition Task_init (id : Z) (title description link display_text : string)
    (reward : float) (now : Z) : Task :=
  {| task_id := id; title := title; description := description;
     link := link; display_text := display_text; reward := reward;
     created_at := now; completed_by := ∅;
     channel_id := task_channel_id link |}.

(** The last [n] characters of ["t.me/"]: what is left to pass over
    [n] characters before the end of an occurrence. *)
Definition tme_tail (n : nat) : string :=
  match n with
  | 0 => ""
  | 1 => "/"
  | 2 => "e/"
  | 3 => "me/"
  | _ => ".me/"
  end%nat.

(** The text after the last [/] of a link. *)
Definition last_segment (link : string) : string :=
  Str.last_item (Str.split "/" link).

(** ** The chats asked about a channel
       (bot.py, lines 914-930 and 968-978) *)

(** The chat ids tried in order for a channel id: with the [@] prefix,
    then, if Telegram refuses that, with the [-100] prefix unless it is
    there already. *)
Definition chat_ids_tried (channel_id : string) : list string :=
  ["@" +:+ channel_id;
   if String.prefix "-100" channel_id then channel_id
   else "-100" +:+ channel_id].

(** The chats [add_task] validates before it stores the task; [None]
    when it validates nothing. *)
Definition add_task_chats (link : string) : option (list string) :=
  chat_ids_tried <$> add_task_channel_id link.

(** The chats [verify_channel_membership] asks for the membership of the
    user. *)
Definition verify_channel_membership_chats (channel_id : string)
  : list string :=
  let channel_id :=
    if Str.contains "t.me/" channel_id then
      Str.last_item (Str.split "t.me/" channel_id)
    else channel_id in
  chat_ids_tried (Str.remove_char "@" channel_id).

(** ** achievements and profile (bot.py, lines 588-622) *)

(** The keys of [ACHIEVEMENTS] in the order of the dictionary. *)
Definition ACHIEVEMENTS_keys : list string :=
  ["first_mine"; "mining_streak_7"; "referral_master"; "mega_miner";
   "early_bird"].

(** The lines of the [/achievements] reply: for each key whether it is
    shown as unlocked. *)
Definition achievements_reply (p : UserProfile) : list (bool * string) :=
  (fun id => (bool_decide (id ∈ achievements p), id)) <$> ACHIEVEMENTS_keys.

(** The [n/m] of the achievements line of [/profile]. *)
Definition profile_achievements (p : UserProfile) : Z * Z :=
  (Z.of_nat (size (achievements p)), Z.of_nat (length ACHIEVEMENTS_keys)).

(** * Properties *)

(** ** Numbers *)

Example float_of_int_rounds :
  Py.float_of_int 150 = 150%float /\
  Py.float_of_int (2 ^ 53 + 1) = 9007199254740992%float.
Proof. split; reflexivity. Qed.

Example int_of_float_truncates :
  Py.int_of_float 2.9 = Some 2 /\ Py.int_of_float (-3.9) = Some (-3) /\
  Py.int_of_float infinity = None /\ Py.int_of_float nan = None.
Proof. repeat split; reflexivity. Qed.

Example calculate_level_sample :
  calculate_level 29255 = Some 29 /\
  calculate_level_bonus 29 = 2.9000000000000004%float.
Proof. split; reflexivity. Qed.

Lemma Py_min_spec (a b : Z) : Py.min a b = Z.min a b.
Proof. unfold Py.min. destruct (Z.ltb_spec b a); lia. Qed.

Lemma Py_max_spec (a b : Z) : Py.max a b = Z.max a b.
Proof. unfold Py.max. destruct (Z.ltb_spec a b); lia. Qed.

(** Two floats are told apart by the primitive comparison; the second
    premise excludes NaN, which compares unequal to itself. *)
Lemma float_neq (x y : float) :
  PrimFloat.eqb x y = false -> PrimFloat.eqb y y = true -> x <> y.
Proof. intros Hxy Hyy ->. congruence. Qed.

Ltac float_differs := apply float_neq; vm_compute; reflexivity.

(** Closes a closed goal with an instance [t] of a general theorem: both
    are evaluated and compared. *)
Ltac by_instance t := generalize t; vm_compute; exact (fun H => H).

Lemma days_same_day (a b : Z) :
  a <= b < a + timedelta_days 1 -> days (b - a) = 0.
Proof.
  unfold days, timedelta_days. intros H.
  apply Z.div_small. lia.
Qed.

(** ** The profile store *)

Lemma ensure_profile_stored uid w p :
  user_profiles w !! uid = Some p -> ensure_profile uid w = w.
Proof. intros H. unfold ensure_profile. by rewrite H. Qed.

Lemma ensure_profile_lookup uid w :
  user_profiles (ensure_profile uid w) !! uid = Some (profile_of w uid).
Proof.
  unfold ensure_profile, profile_of.
  destruct (user_profiles w !! uid) as [p|] eqn:E; simpl.
  - exact E.
  - apply lookup_insert_eq.
Qed.

Lemma ensure_profile_lookup_ne uid u w :
  uid <> u ->
  user_profiles (ensure_profile uid w) !! u = user_profiles w !! u.
Proof.
  intros Hne. unfold ensure_profile.
  destruct (user_profiles w !! uid); [done|].
  simpl. by rewrite lookup_insert_ne.
Qed.

Lemma profile_of_ensure uid w :
  profile_of (ensure_profile uid w) uid = profile_of w uid.
Proof. unfold profile_of at 1. by rewrite ensure_profile_lookup. Qed.

Lemma profile_of_stored uid w p :
  user_profiles w !! uid = Some p -> profile_of w uid = p.
Proof. intros H. unfold profile_of. by rewrite H. Qed.

Lemma profile_of_store uid p w : profile_of (store_profile uid p w) uid = p.
Proof. unfold profile_of, store_profile. simpl. by rewrite lookup_insert_eq. Qed.


(** ** The claim flow *)

Lemma claim_receipt_snoc w (l : list message) m :
  claim_receipt (returns w (l ++ [m])) = receipt_of m.
Proof. unfold claim_receipt. simpl. by rewrite last_snoc. Qed.

(** A suspended user is turned away by [mine] and [start] before
    anything is read or written. *)
Lemma mine_suspended env uid w :
  uid ∈ suspended_users w -> mine env uid w = returns w [MsgSuspended].
Proof. intros Hs. unfold mine. by rewrite bool_decide_eq_true_2. Qed.

Lemma start_suspended uid arg0 w :
  uid ∈ suspended_users w -> start uid arg0 w = returns w [MsgSuspended].
Proof. intros Hs. unfold start. by rewrite bool_decide_eq_true_2. Qed.

(** The accepted path of [mine]. *)
Lemma mine_accepted env uid w level :
  uid ∉ suspended_users w ->
  has_active_plan (profile_of w uid) (t_has_plan env) = true ->
  cooldown_active (profile_of w uid) (current_time env) = false ->
  calculate_level (total_mined (profile_of w uid)) = Some level ->
  mine env uid w =
    returns
      (store_profile uid (settled env (profile_of w uid) level)
         (ensure_profile uid w))
      (mined_messages env (profile_of w uid) level).
Proof.
  intros Hsusp Hplan Hcool Hlevel. unfold mine.
  rewrite bool_decide_eq_false_2 by done.
  rewrite profile_of_ensure, Hplan, Hcool, Hlevel. cbn [negb].
  unfold mined_messages, settled, advanced.
  change (check_daily_streak (t_streak env) _) with
    (check_daily_streak (t_streak env) (credit env (profile_of w uid) level)).
  destruct (check_daily_streak _ _) as [p1 m1]. cbn [fst snd].
  destruct (check_achievements _ p1) as [p2 m2]. reflexivity.
Qed.

(** A run that reports figures went down the accepted path. *)
Lemma mine_receipt_inv env uid w rc :
  claim_receipt (mine env uid w) = Some rc ->
  exists level,
    (uid ∉ suspended_users w) /\
    has_active_plan (profile_of w uid) (t_has_plan env) = true /\
    cooldown_active (profile_of w uid) (current_time env) = false /\
    calculate_level (total_mined (profile_of w uid)) = Some level /\
    rc = figures_at env (profile_of w uid) level.
Proof.
  unfold mine. case_bool_decide as Hs; [discriminate|].
  rewrite profile_of_ensure.
  destruct (has_active_plan _ _) eqn:Hplan; cbn [negb]; [|discriminate].
  destruct (cooldown_active _ _) eqn:Hcool; [discriminate|].
  destruct (calculate_level _) as [level|] eqn:Hlevel; [|discriminate].
  destruct (check_daily_streak _ _) as [p1 m1].
  destruct (check_achievements _ p1) as [p2 m2].
  rewrite app_assoc, claim_receipt_snoc. cbn [receipt_of].
  intros [= <-]. exists level. done.
Qed.

(** The stored profile after an accepted run. *)
Lemma mine_receipt_profile env uid w rc :
  claim_receipt (mine env uid w) = Some rc ->
  exists level,
    rc = figures_at env (profile_of w uid) level /\
    profile_of (after (mine env uid w)) uid =
      settled env (profile_of w uid) level.
Proof.
  intros H. destruct (mine_receipt_inv _ _ _ _ H)
    as (level & Hs & Hplan & Hcool & Hlevel & ->).
  exists level. split; [done|].
  rewrite (mine_accepted _ _ _ level) by done.
  apply profile_of_store.
Qed.

(** [check_achievements] touches the achievement set only. *)
Lemma unlock_fields cond id st :
  let st' := unlock cond id st in
  balance st'.1 = balance st.1 /\ total_mined st'.1 = total_mined st.1 /\
  mining_count st'.1 = mining_count st.1 /\
  current_streak st'.1 = current_streak st.1 /\
  highest_streak st'.1 = highest_streak st.1 /\
  last_mine_time st'.1 = last_mine_time st.1 /\
  referred_by st'.1 = referred_by st.1.
Proof.
  destruct st as [p l]. unfold unlock.
  destruct (cond && _); simpl; done.
Qed.

Lemma check_achievements_fields now p :
  let p' := (check_achievements now p).1 in
  balance p' = balance p /\ total_mined p' = total_mined p /\
  mining_count p' = mining_count p /\
  current_streak p' = current_streak p /\
  highest_streak p' = highest_streak p /\
  last_mine_time p' = last_mine_time p /\
  referred_by p' = referred_by p.
Proof.
  unfold check_achievements. cbn [fst].
  repeat match goal with
  | |- context [unlock ?c ?i ?st] =>
      let H := fresh "H" in
      pose proof (unlock_fields c i st) as H; cbn zeta in H;
      destruct H as (-> & -> & -> & -> & -> & -> & ->)
  end.
  done.
Qed.

(** [check_daily_streak] leaves the lifetime total, the claim count, the
    claim time and the referrer alone. *)
Lemma check_daily_streak_fields now p :
  let p' := (check_daily_streak now p).1 in
  total_mined p' = total_mined p /\ mining_count p' = mining_count p /\
  last_mine_time p' = last_mine_time p /\ referred_by p' = referred_by p.
Proof.
  unfold check_daily_streak.
  destruct (last_mine_time p) as [last|] eqn:E; [|done].
  destruct (_ <=? 1); [destruct (_ =? 0)|]; simpl; by rewrite ?E.
Qed.

(** After the credit, the streak check sees a claim time, so it takes one
    of its two branches: increment (with the weekly bonus on a multiple
    of 7) or reset to 1. *)
Lemma check_daily_streak_after_credit now p last :
  last_mine_time p = Some last ->
  let p' := (check_daily_streak now p).1 in
  (days (now - last) <= 1 /\
   current_streak p' = current_streak p + 1 /\
   highest_streak p' = Z.max (current_streak p + 1) (highest_streak p) /\
   balance p' =
     if current_streak p' mod 7 =? 0
     then (balance p + Py.float_of_int 50)%float else balance p) \/
  (1 < days (now - last) /\
   current_streak p' = 1 /\ highest_streak p' = highest_streak p /\
   balance p' = balance p).
Proof.
  intros Hlast. unfold check_daily_streak. rewrite Hlast.
  destruct (Z.leb_spec (days (now - last)) 1) as [Hd|Hd].
  - left. split; [done|]. cbn [set_current_streak set_highest_streak
      current_streak highest_streak balance].
    rewrite Py_max_spec.
    destruct (_ =? 0) eqn:E; cbn; rewrite ?E; done.
  - right. done.
Qed.

Lemma credit_fields env p level :
  let tot := rc_total_reward (figures_at env p level) in
  balance (credit env p level) = (balance p + tot)%float /\
  total_mined (credit env p level) = (total_mined p + tot)%float /\
  mining_count (credit env p level) = mining_count p + 1 /\
  last_mine_time (credit env p level) = Some (current_time env) /\
  current_streak (credit env p level) = current_streak p /\
  highest_streak (credit env p level) = highest_streak p /\
  referred_by (credit env p level) = referred_by p.
Proof. done. Qed.

Lemma figures_at_level env p level : rc_level (figures_at env p level) = level.
Proof. done. Qed.

Lemma float_of_int_50 : Py.float_of_int 50 = 50%float.
Proof. reflexivity. Qed.

Lemma check_achievements_no_farewell now p n :
  MsgStreakBroken n ∉ (check_achievements now p).2.
Proof.
  unfold check_achievements. cbn [snd].
  intros (id & [=] & _)%list_elem_of_fmap.
Qed.

(** ** C1: which streak the streak bonus reads *)

(** C1, as stated, fails: a holder of the max plan with a streak of 3
    claims; the reply reports a streak bonus of 6 = 2 * 3 while the
    streak left by the advance step is 4, for which the statement asks
    min(4 * 2, 100) = 8. *)
Lemma streak_bonus_is_post_advance_fails :
  ~ streak_bonus_is_post_advance (Sample.at_hour 10 12 0.5) Sample.alice
      (Sample.with_profile (Sample.miner Sample.alice 3 9 31 156)).
Proof.
  intros H.
  assert (E : claim_receipt
                (mine (Sample.at_hour 10 12 0.5) Sample.alice
                   (Sample.with_profile (Sample.miner Sample.alice 3 9 31 156)))
              = Some {| rc_daily_limit := 50; rc_bonus := 0;
                        rc_streak_bonus := 6; rc_level := 0;
                        rc_level_bonus := 0; rc_total_reward := 56 |})
    by (vm_compute; reflexivity).
  specialize (H _ E). vm_compute in H. discriminate.
Qed.

(** C1, amended: on every successful claim the reported streak bonus is
    min(s * 2, 100) for s the streak the profile held when the claim
    started, before the streak-advance step ran. *)
Theorem mine_streak_bonus_pre_claim env uid w rc :
  claim_receipt (mine env uid w) = Some rc ->
  0 <= current_streak (profile_of w uid) ->
  rc_streak_bonus rc = Z.min (current_streak (profile_of w uid) * 2) 100.
Proof.
  intros Hrc Hpos.
  destruct (mine_receipt_inv _ _ _ _ Hrc) as (level & _ & _ & _ & _ & ->).
  cbn [figures_at rc_streak_bonus]. unfold streak_bonus_of.
  rewrite Py_min_spec. unfold STREAK_BONUS, MAX_STREAK_BONUS.
  destruct (Z.ltb_spec 0 (current_streak (profile_of w uid))); lia.
Qed.

Lemma mine_streak_bonus_pre_claim_witness :
  rc_streak_bonus
    {| rc_daily_limit := 50; rc_bonus := 0; rc_streak_bonus := 6;
       rc_level := 0; rc_level_bonus := 0; rc_total_reward := 56 |}
  = Z.min (3 * 2) 100.
Proof.
  by_instance
    (mine_streak_bonus_pre_claim (Sample.at_hour 10 12 0.5) Sample.alice
       (Sample.with_profile (Sample.miner Sample.alice 3 9 31 156))
       {| rc_daily_limit := 50; rc_bonus := 0; rc_streak_bonus := 6;
          rc_level := 0; rc_level_bonus := 0; rc_total_reward := 56 |}
       ltac:(vm_compute; reflexivity) ltac:(vm_compute; discriminate)).
Defined.

(** ** C2: what a successful claim adds to the profile *)

(** C2, as stated, fails: a holder of the max plan with a streak of 6 and
    a balance of 330 claims; the reply reports a payout of 62, the streak
    reaches 7 and the balance ends at 442 = 330 + 62 + 50, not 392. *)
Lemma pays_exactly_the_receipt_fails :
  ~ pays_exactly_the_receipt (Sample.at_hour 10 12 0.5) Sample.alice
      (Sample.with_profile (Sample.miner Sample.alice 6 9 31 330)).
Proof.
  intros H.
  assert (E : claim_receipt
                (mine (Sample.at_hour 10 12 0.5) Sample.alice
                   (Sample.with_profile (Sample.miner Sample.alice 6 9 31 330)))
              = Some {| rc_daily_limit := 50; rc_bonus := 0;
                        rc_streak_bonus := 12; rc_level := 0;
                        rc_level_bonus := 0; rc_total_reward := 62 |})
    by (vm_compute; reflexivity).
  destruct (H _ E) as [Hbalance _]. revert Hbalance. vm_compute.
  float_differs.
Qed.

(** The lifetime total and the claim count after an accepted run. *)
Lemma settled_totals env p level :
  total_mined (settled env p level)
    = (total_mined p + rc_total_reward (figures_at env p level))%float /\
  mining_count (settled env p level) = mining_count p + 1.
Proof.
  unfold settled.
  destruct (check_achievements_fields (t_achievements env)
              (advanced env p level)) as (_ & -> & -> & _).
  unfold advanced.
  by destruct (check_daily_streak_fields (t_streak env) (credit env p level))
    as (-> & -> & _).
Qed.

(** C2, amended: on every successful claim, from the start of the claim to
    its end, [total_mined] grows by the reported payout and
    [mining_count] by 1; [balance] grows by the reported payout, and by
    the weekly bonus of 50 on top of it when the streak left by the claim
    is a multiple of 7.  Growth is Python's float addition. *)
Theorem mine_credits_receipt_and_milestone env uid w rc :
  claim_receipt (mine env uid w) = Some rc ->
  let p := profile_of w uid in
  let p' := profile_of (after (mine env uid w)) uid in
  total_mined p' = (total_mined p + rc_total_reward rc)%float /\
  mining_count p' = mining_count p + 1 /\
  balance p' =
    if current_streak p' mod 7 =? 0
    then (balance p + rc_total_reward rc + 50)%float
    else (balance p + rc_total_reward rc)%float.
Proof.
  intros Hrc p p'.
  destruct (mine_receipt_profile _ _ _ _ Hrc) as (level & -> & Hp').
  subst p'. rewrite Hp'. fold p.
  destruct (settled_totals env p level) as (Ht & Hm).
  split; [exact Ht|]. split; [exact Hm|].
  unfold settled.
  destruct (check_achievements_fields (t_achievements env)
              (advanced env p level)) as (-> & _ & _ & -> & _).
  unfold advanced.
  destruct (credit_fields env p level) as (Hb & _ & _ & Hl & _).
  destruct (check_daily_streak_after_credit (t_streak env) _ _ Hl)
    as [(_ & Hc & _ & ->)|(_ & Hc & _ & ->)].
  - rewrite float_of_int_50, Hb. reflexivity.
  - rewrite Hc, Hb. reflexivity.
Qed.

Lemma mine_credits_receipt_and_milestone_witness :
  let w := Sample.with_profile (Sample.miner Sample.alice 6 9 31 330) in
  let r := mine (Sample.at_hour 10 12 0.5) Sample.alice w in
  total_mined (profile_of (after r) Sample.alice) = (330 + 62)%float /\
  mining_count (profile_of (after r) Sample.alice) = 6 + 1 /\
  balance (profile_of (after r) Sample.alice) = (330 + 62 + 50)%float.
Proof.
  by_instance
    (mine_credits_receipt_and_milestone (Sample.at_hour 10 12 0.5)
       Sample.alice
       (Sample.with_profile (Sample.miner Sample.alice 6 9 31 330))
       {| rc_daily_limit := 50; rc_bonus := 0; rc_streak_bonus := 12;
          rc_level := 0; rc_level_bonus := 0; rc_total_reward := 62 |}
       ltac:(vm_compute; reflexivity)).
Defined.

(** ** C9: the first claim on the max plan *)

Lemma get_daily_limit_max p now :
  energy_plan p = Some plan_max -> has_active_plan p now = true ->
  get_daily_limit p now = 50.
Proof. intros Hk Ha. unfold get_daily_limit. by rewrite Ha, Hk. Qed.

(** C9: a user with no earlier claim (no last claim time, streak 0,
    nothing mined) whose max plan is active claims: the run ends with the
    mining reply, with base 50, streak bonus 0, level 0, level bonus 0 and
    a total of 55 when the draw hits the jackpot (below 0.1) and of 50
    otherwise; the current streak is 1 afterwards. *)
Theorem first_claim_on_max_plan env uid w :
  uid ∉ suspended_users w ->
  last_mine_time (profile_of w uid) = None ->
  current_streak (profile_of w uid) = 0 ->
  total_mined (profile_of w uid) = 0%float ->
  energy_plan (profile_of w uid) = Some plan_max ->
  has_active_plan (profile_of w uid) (t_has_plan env) = true ->
  has_active_plan (profile_of w uid) (t_daily_limit env) = true ->
  let r := mine env uid w in
  let hit := (random_draw env <? 0.1)%float in
  raised r = false /\
  claim_receipt r =
    Some {| rc_daily_limit := 50;
            rc_bonus := if hit then 5%float else 0%float;
            rc_streak_bonus := 0;
            rc_level := 0;
            rc_level_bonus := 0%float;
            rc_total_reward := if hit then 55%float else 50%float |} /\
  current_streak (profile_of (after r) uid) = 1.
Proof.
  intros Hs Hlast Hstreak Htotal Hplan Hactive Hlimit r hit.
  assert (Hcool : cooldown_active (profile_of w uid) (current_time env)
                  = false) by (unfold cooldown_active; by rewrite Hlast).
  assert (Hlevel : calculate_level (total_mined (profile_of w uid)) = Some 0)
    by (rewrite Htotal; reflexivity).
  subst r. rewrite (mine_accepted _ _ _ 0) by done.
  cbn [raised after returns]. split; [done|]. split.
  - unfold mined_messages. rewrite app_assoc, claim_receipt_snoc.
    cbn [receipt_of]. f_equal.
    unfold figures_at, jackpot, base_reward, streak_bonus_of.
    rewrite (get_daily_limit_max _ _ Hplan Hlimit), Hstreak.
    fold hit. destruct hit; reflexivity.
  - rewrite profile_of_store. unfold settled.
    destruct (check_achievements_fields (t_achievements env)
                (advanced env (profile_of w uid) 0)) as (_ & _ & _ & -> & _).
    unfold advanced.
    destruct (credit_fields env (profile_of w uid) 0)
      as (_ & _ & _ & Hl & Hc & _).
    destruct (check_daily_streak_after_credit (t_streak env) _ _ Hl)
      as [(_ & -> & _)|(_ & -> & _)]; [|done].
    rewrite Hc, Hstreak. reflexivity.
Qed.

Lemma first_claim_on_max_plan_witness :
  let r := mine (Sample.at_hour 10 12 0.05) Sample.alice
             (Sample.with_profile Sample.newcomer) in
  raised r = false /\
  claim_receipt r =
    Some {| rc_daily_limit := 50; rc_bonus := 5; rc_streak_bonus := 0;
            rc_level := 0; rc_level_bonus := 0; rc_total_reward := 55 |} /\
  current_streak (profile_of (after r) Sample.alice) = 1.
Proof.
  by_instance
    (first_claim_on_max_plan (Sample.at_hour 10 12 0.05) Sample.alice
       (Sample.with_profile Sample.newcomer)
       ltac:(vm_compute; set_solver)
       ltac:(vm_compute; reflexivity) ltac:(vm_compute; reflexivity)
       ltac:(vm_compute; reflexivity) ltac:(vm_compute; reflexivity)
       ltac:(vm_compute; reflexivity) ltac:(vm_compute; reflexivity)).
Defined.

(** ** C7: a claim without a plan *)

(** C7: for a user who is not suspended and whose profile (the stored one,
    or the new one the handler creates) carries no energy plan, the claim
    is answered with the no-active-plan notice and reports no payout; the
    profile the handler worked on is left as it was, field for field, and
    so is every stored profile. *)
Theorem mine_without_plan_rejected env uid w :
  uid ∉ suspended_users w ->
  energy_plan (profile_of w uid) = None ->
  let r := mine env uid w in
  sent r = [MsgNoActivePlan] /\ raised r = false /\
  claim_receipt r = None /\
  profile_of (after r) uid = profile_of w uid /\
  forall u p, user_profiles w !! u = Some p ->
              user_profiles (after r) !! u = Some p.
Proof.
  intros Hs Hplan r. subst r. unfold mine.
  rewrite bool_decide_eq_false_2 by done.
  rewrite profile_of_ensure.
  unfold has_active_plan. rewrite Hplan. cbn.
  split; [done|]. split; [done|]. split; [done|].
  split; [apply profile_of_ensure|].
  intros u p Hu. destruct (decide (uid = u)) as [->|Hne].
  - by rewrite (ensure_profile_stored _ _ _ Hu).
  - by rewrite ensure_profile_lookup_ne.
Qed.

Lemma mine_without_plan_rejected_witness :
  let w := Sample.with_profile (new_profile Sample.alice) in
  let r := mine (Sample.at_hour 10 12 0.05) Sample.alice w in
  sent r = [MsgNoActivePlan] /\
  profile_of (after r) Sample.alice = new_profile Sample.alice.
Proof.
  pose proof
    (mine_without_plan_rejected (Sample.at_hour 10 12 0.05) Sample.alice
       (Sample.with_profile (new_profile Sample.alice))
       ltac:(vm_compute; set_solver) ltac:(vm_compute; reflexivity))
    as (Hsent & _ & _ & Hp & _).
  split; [exact Hsent|]. revert Hp. vm_compute. exact (fun H => H).
Defined.

(** ** C3: a second attempt inside the cooldown window *)

(** A successful claim records its time as the last claim time. *)
Lemma mine_records_claim_time env uid w rc :
  claim_receipt (mine env uid w) = Some rc ->
  last_mine_time (profile_of (after (mine env uid w)) uid)
    = Some (current_time env).
Proof.
  intros Hrc.
  destruct (mine_receipt_profile _ _ _ _ Hrc) as (level & _ & ->).
  unfold settled.
  destruct (check_achievements_fields (t_achievements env)
              (advanced env (profile_of w uid) level))
    as (_ & _ & _ & _ & _ & -> & _).
  unfold advanced.
  by destruct (check_daily_streak_fields (t_streak env)
                 (credit env (profile_of w uid) level)) as (_ & _ & -> & _).
Qed.




(** ** C4: completing a sponsor task *)

(** A user already in the completion set is turned away, and nothing
    changes. *)
Lemma verify_task_already_completed uid task is_member w t :
  tasks w !! task = Some t -> uid ∈ completed_by t ->
  verify_task uid task is_member w = returns w [MsgAlreadyCompleted].
Proof.
  intros Ht Hin. unfold verify_task. rewrite Ht.
  by rewrite bool_decide_eq_true_2.
Qed.

(** A failed verification changes nothing. *)
Lemma verify_task_not_verified uid task w t :
  tasks w !! task = Some t -> uid ∉ completed_by t ->
  Py.truthy_str (channel_id t) = true ->
  verify_task uid task false w = returns w [MsgVerificationFailed].
Proof.
  intros Ht Hin Hc. unfold verify_task. rewrite Ht.
  rewrite bool_decide_eq_false_2 by done. by rewrite Hc.
Qed.

(** The award step, for a task that needs no verification or whose
    verification passed. *)
Lemma verify_task_award uid task is_member w t :
  tasks w !! task = Some t -> uid ∉ completed_by t ->
  Py.truthy_str (channel_id t) && negb is_member = false ->
  let r := verify_task uid task is_member w in
  let credited :=
    set_balance (balance (profile_of w uid) + reward t)%float
      (profile_of w uid) in
  sent r = [MsgTaskCompleted (reward t) (balance credited)] /\
  tasks (after r) =
    <[task := set_completed_by ({[uid]} ∪ completed_by t) t]> (tasks w) /\
  user_profiles (after r) =
    match user_profiles w !! uid with
    | Some _ => <[uid := credited]> (user_profiles w)
    | None => user_profiles w
    end.
Proof.
  intros Ht Hin Hv. unfold verify_task. rewrite Ht.
  rewrite bool_decide_eq_false_2 by done. rewrite Hv.
  destruct (user_profiles w !! uid); done.
Qed.

(** With a stored profile the award is what the specification describes:
    the user enters the completion set, the stored balance grows by the
    reward, and a second call is turned away without a second credit. *)
Lemma verify_task_stored_once uid task is_member again w t p :
  tasks w !! task = Some t -> uid ∉ completed_by t ->
  Py.truthy_str (channel_id t) && negb is_member = false ->
  user_profiles w !! uid = Some p ->
  let r := verify_task uid task is_member w in
  user_profiles (after r) !! uid
    = Some (set_balance (balance p + reward t)%float p) /\
  verify_task uid task again (after r)
    = returns (after r) [MsgAlreadyCompleted].
Proof.
  intros Ht Hin Hv Hp r.
  destruct (verify_task_award uid task is_member w t Ht Hin Hv)
    as (_ & Htasks & Hprofiles).
  fold r in Htasks, Hprofiles. rewrite Hp in Hprofiles. split.
  - rewrite Hprofiles, lookup_insert_eq.
    by rewrite (profile_of_stored _ _ _ Hp).
  - eapply verify_task_already_completed.
    + rewrite Htasks. apply lookup_insert_eq.
    + cbn [completed_by set_completed_by]. set_solver.
Qed.

(** Without a stored profile the award step credits an object that no
    store refers to: the profile store is left as it was. *)
Lemma verify_task_unstored uid task is_member w t :
  tasks w !! task = Some t -> uid ∉ completed_by t ->
  Py.truthy_str (channel_id t) && negb is_member = false ->
  user_profiles w !! uid = None ->
  user_profiles (after (verify_task uid task is_member w)) = user_profiles w.
Proof.
  intros Ht Hin Hv Hp.
  destruct (verify_task_award uid task is_member w t Ht Hin Hv)
    as (_ & _ & Hprofiles).
  by rewrite Hprofiles, Hp.
Qed.

(** C4, on the failing input: a user without a stored profile completes
    the task "survey" (reward 50).  The reply announces the award and a
    new balance of 50, the user enters the completion set, and no stored
    balance is credited: the user still has no profile.  A second call is
    turned away as already completed, so the reward is lost for good. *)
Theorem verify_task_loses_unstored_credit :
  let w := Sample.with_survey in
  let r := verify_task Sample.alice 1 true w in
  sent r = [MsgTaskCompleted 50 50] /\
  user_profiles (after r) !! Sample.alice = None /\
  (exists t, tasks (after r) !! 1 = Some t /\ Sample.alice ∈ completed_by t) /\
  sent (verify_task Sample.alice 1 true (after r)) = [MsgAlreadyCompleted] /\
  user_profiles (after (verify_task Sample.alice 1 true (after r)))
    !! Sample.alice = None.
Proof.
  cbv zeta. split; [vm_compute; reflexivity|].
  split; [vm_compute; reflexivity|]. split.
  - eexists. split; [vm_compute; reflexivity|].
    apply (bool_decide_unpack _). vm_compute. exact I.
  - split; vm_compute; reflexivity.
Qed.

(** ** Runs and what they preserve *)

(** *** Runs with a send that raises *)

Lemma check_daily_streak_run_delivered now p :
  check_daily_streak_run true now p = (check_daily_streak now p, false).
Proof.
  unfold check_daily_streak_run, check_daily_streak.
  destruct (last_mine_time p); [|done].
  destruct (_ <=? 1); [by destruct (_ =? 0)|by destruct (0 <? _)].
Qed.

(** The call ends as [check_daily_streak] does, or its notice raises:
    the weekly one after the streak and the bonus are written, the
    streak-broken one before the reset. *)
Lemma check_daily_streak_run_spec delivered now p :
  check_daily_streak_run delivered now p = (check_daily_streak now p, false)
  \/
  (delivered = false /\
   exists last, last_mine_time p = Some last /\
     ((days (now - last) <= 1 /\
       check_daily_streak_run delivered now p
       = ((check_daily_streak now p).1, [], true)) \/
      (1 < days (now - last) /\ 0 < current_streak p /\
       check_daily_streak_run delivered now p = (p, [], true)))).
Proof.
  destruct delivered; [left; apply check_daily_streak_run_delivered|].
  unfold check_daily_streak_run, check_daily_streak.
  destruct (last_mine_time p) as [last|]; [|by left].
  destruct (Z.leb_spec (days (now - last)) 1) as [Hd|Hd].
  - destruct (_ =? 0); [|by left].
    right. split; [done|]. exists last. split; [done|]. by left.
  - destruct (Z.ltb_spec 0 (current_streak p)) as [Hc|Hc]; [|by left].
    right. split; [done|]. exists last. split; [done|]. by right.
Qed.

Lemma mine_run_delivered env uid w :
  mine_run all_delivered env uid w = mine env uid w.
Proof.
  unfold mine_run, mine. cbn [all_delivered reply_delivered notice_delivered].
  case_bool_decide; [done|].
  destruct (has_active_plan _ _); cbn [negb]; [|done].
  destruct (cooldown_active _ _); [done|].
  destruct (calculate_level _); [|done].
  rewrite check_daily_streak_run_delivered.
  by destruct (check_daily_streak _ _) as [p1 m1].
Qed.

Lemma left_by_spec d env p level :
  left_by d env p level = settled env p level \/
  (notice_delivered d = false /\
   ((days (t_streak env - current_time env) <= 1 /\
     left_by d env p level = advanced env p level) \/
    (1 < days (t_streak env - current_time env) /\ 0 < current_streak p /\
     left_by d env p level = credit env p level))).
Proof.
  unfold left_by, settled, advanced.
  destruct (check_daily_streak_run_spec (notice_delivered d) (t_streak env)
              (credit env p level))
    as [->|(Hd & last & Hlast & [(Hdays & ->)|(Hdays & Hc & ->)])].
  - left. by destruct (check_daily_streak _ _).
  - injection Hlast as <-. right. split; [done|]. by left.
  - injection Hlast as <-. right. split; [done|]. by right.
Qed.

Lemma left_by_notified d env p level :
  notice_delivered d = true -> left_by d env p level = settled env p level.
Proof.
  intros Hd. destruct (left_by_spec d env p level) as [?|(E & _)]; [done|].
  congruence.
Qed.

Lemma mine_run_after d env uid w :
  after (mine_run d env uid w) = w \/
  after (mine_run d env uid w) = ensure_profile uid w \/
  exists level,
    after (mine_run d env uid w) =
      store_profile uid (left_by d env (profile_of w uid) level)
        (ensure_profile uid w).
Proof.
  unfold mine_run. case_bool_decide; [by left; destruct (reply_delivered d)|].
  rewrite profile_of_ensure.
  destruct (has_active_plan _ _); cbn [negb];
    [|by right; left; destruct (reply_delivered d)].
  destruct (cooldown_active _ _);
    [by right; left; destruct (reply_delivered d)|].
  destruct (calculate_level _) as [level|] eqn:Hlevel; [|by right; left].
  right; right. exists level.
  unfold left_by.
  change (check_daily_streak_run (notice_delivered d) (t_streak env) _)
    with (check_daily_streak_run (notice_delivered d) (t_streak env)
            (credit env (profile_of w uid) level)).
  destruct (check_daily_streak_run _ _ _) as [[p1 m1] [|]]; [done|].
  destruct (check_achievements _ p1) as [p2 m2].
  by destruct (reply_delivered d).
Qed.

(** Neither check sends the mining reply. *)
Lemma streak_notices_no_receipt now p (l : list string) :
  last ((check_daily_streak now p).2 ++ (MsgAchievement <$> l))
    ≫= receipt_of = None.
Proof.
  destruct l as [|x l _] using rev_ind.
  - rewrite app_nil_r. unfold check_daily_streak.
    destruct (last_mine_time p); [|done].
    destruct (_ <=? 1); [by destruct (_ =? 0)|by destruct (0 <? _)].
  - rewrite fmap_app, app_assoc. cbn [fmap list_fmap].
    by rewrite last_snoc.
Qed.

Lemma notices_no_receipt w now now' p :
  claim_receipt
    (raises w ((check_daily_streak now p).2
               ++ (check_achievements now' (check_daily_streak now p).1).2))
  = None.
Proof.
  unfold claim_receipt, check_achievements. cbn [sent raises snd].
  apply streak_notices_no_receipt.
Qed.

(** A run that reports figures had all its sends delivered: it is the
    run [mine] describes. *)
Lemma mine_run_receipt d env uid w rc :
  claim_receipt (mine_run d env uid w) = Some rc ->
  mine_run d env uid w = mine env uid w.
Proof.
  unfold mine_run, mine. case_bool_decide.
  { by destruct (reply_delivered d). }
  destruct (has_active_plan _ _); cbn [negb];
    [|by destruct (reply_delivered d)].
  destruct (cooldown_active _ _); [by destruct (reply_delivered d)|].
  destruct (calculate_level _) as [level|]; [|done].
  match goal with
  | |- context [check_daily_streak_run ?dl ?t ?q] =>
      destruct (check_daily_streak_run_spec dl t q)
        as [->|(_ & last & _ & [(_ & ->)|(_ & _ & ->)])]; try done
  end.
  match goal with
  | |- context [check_daily_streak ?t ?q] =>
      pose proof (notices_no_receipt
                    (store_profile uid
                       (check_achievements (t_achievements env)
                          (check_daily_streak t q).1).1
                       (ensure_profile uid w))
                    t (t_achievements env) q) as Hnone;
      destruct (check_daily_streak t q) as [p1 m1]
  end.
  cbn [fst snd] in Hnone.
  destruct (check_achievements _ p1) as [p2 m2]. cbn [fst snd] in Hnone.
  destruct (reply_delivered d); [done|]. by rewrite Hnone.
Qed.

(** A run leaves the referrer and the referral count of the profile as
    they were, however it ends. *)
Lemma left_by_referral d env p level :
  referred_by (left_by d env p level) = referred_by p /\
  referral_count (left_by d env p level) = referral_count p.
Proof.
  assert (Hc : referred_by (credit env p level) = referred_by p /\
               referral_count (credit env p level) = referral_count p)
    by done.
  assert (Ha : referred_by (advanced env p level) = referred_by p /\
               referral_count (advanced env p level) = referral_count p).
  { unfold advanced, check_daily_streak.
    destruct (last_mine_time _); [|done].
    destruct (_ <=? 1); [by destruct (_ =? 0)|done]. }
  assert (Hs : referred_by (settled env p level) = referred_by p /\
               referral_count (settled env p level) = referral_count p).
  { destruct Ha as (<- & <-). unfold settled, check_achievements.
    cbn [fst]. unfold unlock.
    repeat match goal with
    | |- context [if ?c then _ else _] => destruct c
    end; done. }
  destruct (left_by_spec d env p level)
    as [->|(_ & [(_ & ->)|(_ & _ & ->)])]; done.
Qed.

Section Invariants.

Variable I : UserProfile -> Prop.

Lemma all_profiles_store uid q w :
  I q -> all_profiles I w -> all_profiles I (store_profile uid q w).
Proof.
  intros Hq Hw u p. unfold store_profile. cbn.
  rewrite lookup_insert. case_decide; [by intros [= <-]|apply Hw].
Qed.

Lemma all_profiles_ensure uid w :
  I (new_profile uid) -> all_profiles I w ->
  all_profiles I (ensure_profile uid w).
Proof.
  intros Hn Hw. unfold ensure_profile.
  destruct (user_profiles w !! uid); [done|].
  by apply all_profiles_store.
Qed.

Lemma all_profiles_profile_of uid w :
  I (new_profile uid) -> all_profiles I w -> I (profile_of w uid).
Proof.
  intros Hn Hw. unfold profile_of.
  destruct (user_profiles w !! uid) eqn:E; [by eapply Hw|done].
Qed.

Lemma all_profiles_same w w' :
  user_profiles w' = user_profiles w ->
  all_profiles I w -> all_profiles I w'.
Proof. intros E Hw u p. rewrite E. apply Hw. Qed.

Lemma all_profiles_initial rr : all_profiles I (initial_world rr).
Proof. intros u p. cbn. by rewrite lookup_empty. Qed.

End Invariants.

Lemma keeps_referrers_refl w : keeps_referrers w w.
Proof. intros u p Hp. by exists p. Qed.

Lemma keeps_referrers_trans w1 w2 w3 :
  keeps_referrers w1 w2 -> keeps_referrers w2 w3 -> keeps_referrers w1 w3.
Proof.
  intros H12 H23 u p Hp.
  destruct (H12 _ _ Hp) as (p2 & Hp2 & E2).
  destruct (H23 _ _ Hp2) as (p3 & Hp3 & E3).
  exists p3. split; [done|congruence].
Qed.

Lemma keeps_referrers_same w w' :
  user_profiles w' = user_profiles w -> keeps_referrers w w'.
Proof. intros E u p Hp. exists p. by rewrite E. Qed.

Lemma keeps_referrers_set_tasks m n w w' :
  keeps_referrers w w' -> keeps_referrers w (set_tasks m n w').
Proof. intros H u p Hp. exact (H u p Hp). Qed.

Lemma keeps_referrers_store uid q w :
  referred_by q = referred_by (profile_of w uid) ->
  keeps_referrers w (store_profile uid q w).
Proof.
  intros Hq u p Hp. unfold store_profile. cbn.
  rewrite lookup_insert. case_decide as E.
  - subst u. exists q. split; [done|].
    by rewrite Hq, (profile_of_stored _ _ _ Hp).
  - by exists p.
Qed.

(** Storing a profile under a free key keeps every stored profile. *)
Lemma keeps_referrers_store_new uid q w :
  user_profiles w !! uid = None ->
  keeps_referrers w (store_profile uid q w).
Proof.
  intros Hnone u p Hp. unfold store_profile. cbn.
  rewrite lookup_insert. case_decide as E; [congruence|by exists p].
Qed.

Lemma keeps_referrers_ensure uid w :
  keeps_referrers w (ensure_profile uid w).
Proof.
  unfold ensure_profile. destruct (user_profiles w !! uid) eqn:E.
  - apply keeps_referrers_refl.
  - by apply keeps_referrers_store_new.
Qed.

Create HintDb referrers.

#[local] Hint Resolve keeps_referrers_refl keeps_referrers_ensure
  keeps_referrers_store keeps_referrers_store_new : referrers.

Lemma start_keeps_referrers uid arg0 w :
  keeps_referrers w (after (start uid arg0 w)).
Proof.
  unfold start. case_bool_decide; [apply keeps_referrers_refl|].
  destruct arg0 as [r|]; [|apply keeps_referrers_ensure].
  case_bool_decide as Hne; [|apply keeps_referrers_ensure].
  destruct (user_profiles w !! r) as [rp|] eqn:Hr;
    [|apply keeps_referrers_ensure].
  destruct (user_profiles w !! uid) as [up|] eqn:Hu;
    [apply keeps_referrers_ensure|].
  cbn [after returns].
  eapply keeps_referrers_trans; [|apply keeps_referrers_ensure].
  eapply keeps_referrers_trans;
    [|apply keeps_referrers_store_new; unfold store_profile; cbn;
      by rewrite lookup_insert_ne].
  apply keeps_referrers_store. by rewrite (profile_of_stored _ _ _ Hr).
Qed.

Lemma mine_keeps_referrers d env uid w :
  keeps_referrers w (after (mine_run d env uid w)).
Proof.
  destruct (mine_run_after d env uid w) as [->|[->|(level & ->)]];
    auto with referrers.
  eapply keeps_referrers_trans; [apply keeps_referrers_ensure|].
  apply keeps_referrers_store.
  destruct (left_by_referral d env (profile_of w uid) level) as (-> & _).
  by rewrite profile_of_ensure.
Qed.

Lemma task_handler_keeps_referrers uid task w :
  keeps_referrers w (after (task_handler uid task w)).
Proof.
  unfold task_handler. destruct (tasks w !! task); [|auto with referrers].
  case_bool_decide; cbn; auto with referrers.
Qed.

Lemma verify_task_keeps_referrers uid task is_member w :
  keeps_referrers w (after (verify_task uid task is_member w)).
Proof.
  unfold verify_task. destruct (tasks w !! task); [|auto with referrers].
  case_bool_decide; [auto with referrers|].
  destruct (_ && _); [auto with referrers|].
  cbn [after returns].
  apply keeps_referrers_set_tasks.
  destruct (user_profiles w !! uid); [|apply keeps_referrers_refl].
  by apply keeps_referrers_store.
Qed.

Lemma payment_keeps_referrers uid plan now w :
  keeps_referrers w (after (successful_payment_callback uid plan now w)).
Proof.
  unfold successful_payment_callback.
  destruct plan as [k|]; [|auto with referrers].
  set (w1 := ensure_profile uid w).
  set (w2 := store_profile uid _ w1).
  assert (H2 : keeps_referrers w w2).
  { eapply keeps_referrers_trans; [apply keeps_referrers_ensure|].
    by apply keeps_referrers_store. }
  cbn [referred_by set_energy].
  destruct (referred_by (profile_of w1 uid)) as [r|]; [|done].
  case_bool_decide; [|done].
  destruct (user_profiles w2 !! r) as [rp|] eqn:Hr; [|done].
  cbn [after returns].
  eapply keeps_referrers_trans; [exact H2|].
  apply keeps_referrers_store. by rewrite (profile_of_stored _ _ _ Hr).
Qed.

Lemma step_keeps_referrers ok w w' :
  step_of ok w w' -> keeps_referrers w w'.
Proof.
  destruct 1.
  - apply start_keeps_referrers.
  - apply mine_keeps_referrers.
  - apply task_handler_keeps_referrers.
  - apply verify_task_keeps_referrers.
  - apply payment_keeps_referrers.
  - unfold suspend_user. repeat case_match; by apply keeps_referrers_same.
  - unfold unsuspend_user. repeat case_match; by apply keeps_referrers_same.
  - unfold add_task. repeat case_match; by apply keeps_referrers_same.
  - unfold remove_task. repeat case_match; by apply keeps_referrers_same.
Qed.

Lemma rtc_step_keeps_referrers ok w w' :
  rtc (step_of ok) w w' -> keeps_referrers w w'.
Proof.
  induction 1 as [|w1 w2 w3 H12 _ IH].
  - apply keeps_referrers_refl.
  - eapply keeps_referrers_trans; [by eapply step_keeps_referrers|exact IH].
Qed.


(** ** C6: referral attribution at signup *)

(** [/start] from a known user changes nothing. *)
Lemma start_known uid arg0 w p :
  uid ∉ suspended_users w -> user_profiles w !! uid = Some p ->
  after (start uid arg0 w) = w.
Proof.
  intros Hs Hp. unfold start. rewrite bool_decide_eq_false_2 by done.
  assert (E : ensure_profile uid w = w) by by eapply ensure_profile_stored.
  destruct arg0 as [r|]; [|by cbn].
  case_bool_decide; [|by cbn].
  rewrite Hp. destruct (user_profiles w !! r); by cbn.
Qed.

(** After [/start] the user has a stored profile. *)
Lemma start_stores uid arg0 w :
  uid ∉ suspended_users w ->
  let w' := after (start uid arg0 w) in
  suspended_users w' = suspended_users w /\
  user_profiles w' !! uid = Some (profile_of w' uid).
Proof.
  intros Hs. unfold start. rewrite bool_decide_eq_false_2 by done.
  assert (H : forall w0 : world,
             user_profiles (ensure_profile uid w0) !! uid
             = Some (profile_of (ensure_profile uid w0) uid))
    by (intros w0; by rewrite profile_of_ensure, ensure_profile_lookup).
  assert (Hsusp : forall w0 : world,
             suspended_users (ensure_profile uid w0) = suspended_users w0)
    by (intros w0; unfold ensure_profile;
        by destruct (user_profiles w0 !! uid)).
  destruct arg0 as [r|]; [|cbn; by rewrite Hsusp].
  case_bool_decide; [|cbn; by rewrite Hsusp].
  destruct (user_profiles w !! r), (user_profiles w !! uid);
    cbn [after returns]; by rewrite ?Hsusp.
Qed.

(** C6: signup attribution is first-contact-only.  For a user who is not
    suspended, [/start] attributes the signup exactly when the referrer
    id differs from the user's, the referrer has a profile and the user
    has none: then the referrer's balance grows by the referral reward
    and its referral count by 1, and the user's profile is created with
    the referral reward as balance and the referrer recorded; otherwise
    nobody is credited (at most the user's empty profile is created).
    Running [/start] again for the same user, with any argument, changes
    nothing, and every later run of the program keeps the recorded
    referrer. *)
Theorem start_referral_first_contact uid arg0 w :
  uid ∉ suspended_users w ->
  let w' := after (start uid arg0 w) in
  match attributes uid arg0 w with
  | Some referrer =>
      let rp := profile_of w referrer in
      w' =
        store_profile uid
          (set_referred_by (Some referrer)
             (set_balance (REFERRAL_REWARD w) (new_profile uid)))
          (store_profile referrer
             (set_referral_count (referral_count rp + 1)
                (set_balance (balance rp + REFERRAL_REWARD w)%float rp))
             w)
  | None => w' = ensure_profile uid w
  end /\
  (forall again, after (start uid again w') = w') /\
  (forall w'', rtc step w' w'' ->
     exists p, user_profiles w'' !! uid = Some p /\
               referred_by p = referred_by (profile_of w' uid)).
Proof.
  intros Hs w'.
  destruct (start_stores uid arg0 w Hs) as (Hsusp & Hstored).
  fold w' in Hsusp, Hstored.
  split; [|split].
  - subst w'. unfold start.
    rewrite bool_decide_eq_false_2 by done. unfold attributes.
    destruct arg0 as [r|]; [|by cbn].
    case_bool_decide as Hne; cbn [andb]; [|by cbn].
    unfold profile_of.
    destruct (user_profiles w !! r) as [rp|] eqn:Hr.
    + rewrite (bool_decide_eq_true_2 (is_Some (Some rp))) by done.
      destruct (user_profiles w !! uid) as [up|] eqn:Hu.
      * rewrite (bool_decide_eq_true_2 (is_Some (Some up))) by done.
        by cbn.
      * rewrite (bool_decide_eq_false_2 (is_Some None))
          by (by intros [? ?]).
        cbn [andb negb after returns]. rewrite ?Hr. cbn [default].
        erewrite ensure_profile_stored; [reflexivity|].
        unfold store_profile. cbn. apply lookup_insert_eq.
    + rewrite (bool_decide_eq_false_2 (is_Some None)) by (by intros [? ?]).
      by destruct (user_profiles w !! uid); cbn.
  - intros again. eapply start_known; [by rewrite Hsusp|exact Hstored].
  - intros w'' Hrun.
    exact (rtc_step_keeps_referrers _ _ _ Hrun _ _ Hstored).
Qed.

(** Bob is known; Alice arrives through Bob's link, twice. *)
Lemma start_referral_first_contact_witness :
  let w := after (start Sample.bob None (initial_world 50)) in
  let w' := after (start Sample.alice (Some Sample.bob) w) in
  (balance (profile_of w' Sample.bob) = 50%float /\
   referral_count (profile_of w' Sample.bob) = 1 /\
   balance (profile_of w' Sample.alice) = 50%float /\
   referred_by (profile_of w' Sample.alice) = Some Sample.bob) /\
  after (start Sample.alice (Some Sample.bob) w') = w'.
Proof.
  intros w w'.
  destruct (start_referral_first_contact Sample.alice (Some Sample.bob) w
              ltac:(vm_compute; set_solver)) as (Hw & Hagain & _).
  fold w' in Hw, Hagain.
  assert (E : attributes Sample.alice (Some Sample.bob) w = Some Sample.bob)
    by (vm_compute; reflexivity).
  rewrite E in Hw. split; [|apply Hagain].
  rewrite Hw. vm_compute. repeat split.
Defined.

(** ** Invariants of stored profiles *)

Lemma step_of_mono (ok ok' : mine_env -> delivery -> Prop) w w' :
  (forall env d, ok env d -> ok' env d) ->
  step_of ok w w' -> step_of ok' w w'.
Proof. intros Hok []; constructor. by apply Hok. Qed.

Lemma reachable_when_mono (ok ok' : mine_env -> delivery -> Prop) w :
  (forall env d, ok env d -> ok' env d) ->
  reachable_when ok w -> reachable_when ok' w.
Proof.
  intros Hok (rr & Hrun). exists rr.
  eapply rtc_subrel; [|exact Hrun].
  intros w1 w2. by apply step_of_mono.
Qed.

(** Whatever runs are admitted, the states they reach are states of the
    program. *)
Lemma reachable_when_reachable ok w : reachable_when ok w -> reachable w.
Proof. by apply reachable_when_mono. Qed.

(** A run of [mine] with every send delivered is a step. *)
Lemma step_mine_delivered (ok : mine_env -> delivery -> Prop) env uid w :
  ok env all_delivered -> step_of ok w (after (mine env uid w)).
Proof. intros Hok. rewrite <- mine_run_delivered. by apply step_mine. Qed.

Lemma profile_invariant_step ok I w w' :
  profile_invariant ok I ->
  step_of ok w w' -> all_profiles I w -> all_profiles I w'.
Proof.
  intros HI Hstep Hw.
  assert (He : forall uid w0, all_profiles I w0 ->
                 all_profiles I (ensure_profile uid w0))
    by (intros uid w0; apply all_profiles_ensure, (inv_new ok I HI)).
  assert (Hof : forall uid w0, all_profiles I w0 -> I (profile_of w0 uid))
    by (intros uid w0; apply all_profiles_profile_of, (inv_new ok I HI)).
  destruct Hstep as [uid arg0 w|d env uid w Hok|uid task w
                    |uid task is_member w|uid plan now w|admin target w
                    |admin target w|admin fields w|admin target w].
  - unfold start. case_bool_decide; [done|].
    destruct arg0 as [r|]; [|by apply He].
    case_bool_decide; [|by apply He].
    destruct (user_profiles w !! r) as [rp|] eqn:Hr; [|by apply He].
    destruct (user_profiles w !! uid); [by apply He|].
    cbn [after returns]. apply He.
    apply all_profiles_store.
    { apply (inv_referred_by ok I HI), (inv_balance ok I HI),
        (inv_new ok I HI). }
    apply all_profiles_store; [|done].
    apply (inv_referral_count ok I HI (set_balance _ rp)),
      (inv_balance ok I HI).
    exact (Hw _ _ Hr).
  - destruct (mine_run_after d env uid w) as [->|[->|(level & ->)]];
      [done| |].
    + by apply He.
    + apply all_profiles_store; [|by apply He].
      apply (inv_mine ok I HI); [done|]. by apply Hof.
  - unfold task_handler. destruct (tasks w !! task); [|done].
    case_bool_decide; [done|]. by apply He.
  - unfold verify_task. destruct (tasks w !! task); [|done].
    case_bool_decide; [done|]. destruct (_ && _); [done|].
    cbn [after returns].
    eapply all_profiles_same; [reflexivity|].
    destruct (user_profiles w !! uid) as [p|] eqn:Hp; [|done].
    apply all_profiles_store; [|done].
    apply (inv_balance ok I HI). by apply Hof.
  - unfold successful_payment_callback. destruct plan as [k|]; [|done].
    set (w1 := ensure_profile uid w).
    set (w2 := store_profile uid _ w1).
    assert (H1 : all_profiles I w1) by by apply He.
    assert (H2 : all_profiles I w2).
    { apply all_profiles_store; [|done].
      apply (inv_energy ok I HI). by apply Hof. }
    cbn [referred_by set_energy].
    destruct (referred_by (profile_of w1 uid)) as [r|]; [|done].
    case_bool_decide; [|done].
    destruct (user_profiles w2 !! r) as [rp|] eqn:Hr; [|done].
    cbn [after returns]. apply all_profiles_store; [|done].
    apply (inv_balance ok I HI). exact (H2 _ _ Hr).
  - unfold suspend_user. repeat case_match; by eapply all_profiles_same.
  - unfold unsuspend_user. repeat case_match; by eapply all_profiles_same.
  - unfold add_task. repeat case_match; by eapply all_profiles_same.
  - unfold remove_task. repeat case_match; by eapply all_profiles_same.
Qed.

Lemma profile_invariant_reachable ok I w :
  profile_invariant ok I -> reachable_when ok w -> all_profiles I w.
Proof.
  intros HI (rr & Hrun).
  refine (rtc_ind_r (R := step_of ok) (all_profiles I) (initial_world rr)
            _ _ w Hrun); [apply all_profiles_initial|].
  intros w1 w2 _ Hstep IH. by eapply profile_invariant_step.
Qed.

(** *** Sample runs *)

Lemma signed_up_smooth : reachable_when smooth_run Sample.signed_up.
Proof. exists 50%float. apply rtc_once, step_start. Qed.

Lemma after_first_claim_smooth :
  reachable_when smooth_run Sample.after_first_claim.
Proof.
  exists 50%float.
  apply rtc_l with Sample.signed_up; [apply step_start|].
  apply rtc_l with Sample.subscribed; [apply step_payment|].
  apply rtc_once. apply step_mine_delivered.
  split; [|done]. vm_compute. split; [discriminate|reflexivity].
Qed.


Lemma after_first_claim_reachable : reachable Sample.after_first_claim.
Proof. exact (reachable_when_reachable _ _ after_first_claim_smooth). Qed.

(** ** C5: the highest streak bounds the current streak *)






(** The streak counters as the streak check of a claim returns them. *)
Lemma advanced_streak env p level :
  let q := advanced env p level in
  (days (t_streak env - current_time env) <= 1 /\
   current_streak q = current_streak p + 1 /\
   highest_streak q = Z.max (current_streak p + 1) (highest_streak p)) \/
  (1 < days (t_streak env - current_time env) /\
   current_streak q = 1 /\ highest_streak q = highest_streak p).
Proof.
  cbv zeta. unfold advanced.
  destruct (credit_fields env p level) as (_ & _ & _ & Hlast & Ec & Eh & _).
  destruct (check_daily_streak_after_credit (t_streak env) _ _ Hlast)
    as [(Hd & Hc & Hh & _)|(Hd & Hc & Hh & _)].
  - left. by rewrite Hc, Hh, Ec, Eh.
  - right. by rewrite Hc, Hh, Eh.
Qed.




(** ** C10: the streak check runs after the claim time is overwritten *)

(** The streak-broken notice is sent in the reset branch, to a profile
    that had a streak. *)
Lemma check_daily_streak_farewell now p last n :
  last_mine_time p = Some last ->
  MsgStreakBroken n ∈ (check_daily_streak now p).2 <->
  1 < days (now - last) /\ 0 < current_streak p /\ n = current_streak p.
Proof.
  intros Hlast. unfold check_daily_streak. rewrite Hlast.
  destruct (Z.leb_spec (days (now - last)) 1) as [Hd|Hd].
  - destruct (_ =? 0); cbn [snd].
    + rewrite list_elem_of_singleton. split; [done|lia].
    + split; [by intros ?%not_elem_of_nil|lia].
  - cbn [snd]. destruct (Z.ltb_spec 0 (current_streak p)) as [Hc|Hc].
    + rewrite list_elem_of_singleton. split.
      * by intros [= ->].
      * by intros (_ & _ & ->).
    + split; [by intros ?%not_elem_of_nil|lia].
Qed.

(** C10, as stated, fails: Alice's second claim, two days after the
    first, with the streak check reading the clock two days after the
    claim time.  The check takes the reset branch: the streak stays at 1
    instead of becoming 2, and the streak-broken notice is sent. *)
Lemma claim_always_increments_fails :
  reachable Sample.after_first_claim /\
  ~ claim_always_increments (Sample.late_check 12 13 0.5) Sample.alice
      Sample.after_first_claim.
Proof.
  split; [exact after_first_claim_reachable|].
  intros H.
  assert (E : claim_receipt
                (mine (Sample.late_check 12 13 0.5) Sample.alice
                   Sample.after_first_claim)
              = Some {| rc_daily_limit := 50; rc_bonus := 0;
                        rc_streak_bonus := 2; rc_level := 0;
                        rc_level_bonus := 0; rc_total_reward := 52 |})
    by (vm_compute; reflexivity).
  destruct (H _ E) as (Hs & _). revert Hs. vm_compute. discriminate.
Qed.

(** C10, amended: in the claim flow the profile handed to the streak
    check already carries the claim time of this run (line 449) as its
    last claim time, so the day difference the check computes is the
    whole days between the two clock readings of the run (lines 449 and
    331), whatever the time of the previous claim.  A successful claim
    therefore adds exactly 1 to the current streak when the second
    reading is less than two days after the first, and otherwise resets
    it to 1, sending the streak-broken notice if there was a streak.
    With the readings in order and less than a day apart the difference
    is 0: the claim adds 1 however long ago the previous claim was, and
    no streak-broken notice is sent. *)
Theorem mine_always_increments_streak env uid w rc :
  claim_receipt (mine env uid w) = Some rc ->
  let p := profile_of w uid in
  let p' := profile_of (after (mine env uid w)) uid in
  let days_difference := days (t_streak env - current_time env) in
  last_mine_time (credit env p (rc_level rc)) = Some (current_time env) /\
  current_streak p'
  = (if days_difference <=? 1 then current_streak p + 1 else 1) /\
  (forall n, MsgStreakBroken n ∈ sent (mine env uid w) <->
             1 < days_difference /\ 0 < current_streak p /\
             n = current_streak p) /\
  (prompt_clock env ->
   days_difference = 0 /\
   current_streak p' = current_streak p + 1 /\
   forall n, MsgStreakBroken n ∉ sent (mine env uid w)).
Proof.
  intros Hrc p p' dd.
  destruct (mine_receipt_inv _ _ _ _ Hrc)
    as (level & Hs & Hplan & Hcool & Hlevel & ->).
  rewrite figures_at_level. fold p in Hplan, Hcool, Hlevel.
  destruct (credit_fields env p level) as (_ & _ & _ & Hl & Hc & _).
  assert (Hstreak : current_streak p'
                    = if dd <=? 1 then current_streak p + 1 else 1).
  { subst p'. rewrite (mine_accepted _ _ _ level) by done. fold p.
    cbn [after returns]. rewrite profile_of_store. unfold settled.
    destruct (check_achievements_fields (t_achievements env)
                (advanced env p level)) as (_ & _ & _ & -> & _).
    destruct (advanced_streak env p level)
      as [(Hd & -> & _)|(Hd & -> & _)]; fold dd in Hd.
    - by destruct (Z.leb_spec dd 1); [|lia].
    - by destruct (Z.leb_spec dd 1); [lia|]. }
  assert (Hnotice : forall n,
            MsgStreakBroken n ∈ sent (mine env uid w) <->
            1 < dd /\ 0 < current_streak p /\ n = current_streak p).
  { intros n. rewrite (mine_accepted _ _ _ level) by done. fold p.
    cbn [sent returns]. unfold mined_messages.
    rewrite !elem_of_app, list_elem_of_singleton.
    rewrite (check_daily_streak_farewell _ _ _ n Hl), Hc. fold dd.
    split; [|by left].
    intros [Hn|[Hn|[=]]]; [done|].
    destruct (check_achievements_no_farewell _ _ _ Hn). }
  split; [exact Hl|]. split; [exact Hstreak|]. split; [exact Hnotice|].
  intros Hclock.
  assert (Hdays : dd = 0) by exact (days_same_day _ _ Hclock).
  split; [exact Hdays|]. split.
  - rewrite Hstreak, Hdays. reflexivity.
  - intros n Hn%Hnotice. lia.
Qed.

(** A claim 40 days after the previous one, with a streak of 3 and a
    prompt clock. *)
Lemma mine_always_increments_streak_witness :
  let w := Sample.with_profile (Sample.miner Sample.alice 3 9 70 156) in
  let r := mine (Sample.at_hour 49 12 0.5) Sample.alice w in
  current_streak (profile_of (after r) Sample.alice) = 3 + 1 /\
  MsgStreakBroken 3 ∉ sent r.
Proof.
  pose proof
    (mine_always_increments_streak (Sample.at_hour 49 12 0.5) Sample.alice
       (Sample.with_profile (Sample.miner Sample.alice 3 9 70 156))
       {| rc_daily_limit := 50; rc_bonus := 0; rc_streak_bonus := 6;
          rc_level := 0; rc_level_bonus := 0; rc_total_reward := 56 |}
       ltac:(vm_compute; reflexivity)) as (_ & _ & _ & H).
  destruct (H ltac:(vm_compute; split; [discriminate|reflexivity]))
    as (_ & Hs & Hn).
  split; [|apply Hn]. revert Hs. vm_compute. exact (fun H => H).
Defined.

(** ** C8: the representation of amounts *)

Lemma renewed_reachable d w :
  reachable w -> reachable (Sample.renewed d w).
Proof.
  intros (rr & Hrun). exists rr.
  eapply rtc_r; [exact Hrun|]. apply step_payment.
Qed.

Lemma season_reachable n : reachable (Sample.season n).
Proof.
  induction n as [|n IH].
  - exact (reachable_when_reachable _ _ signed_up_smooth).
  - change (Sample.season (S n))
      with (after (mine (Sample.at_hour (1 + Z.of_nat (S n)) 12 0.5)
                     Sample.alice
                     (Sample.renewed (1 + Z.of_nat (S n))
                        (Sample.season n)))).
    destruct (renewed_reachable (1 + Z.of_nat (S n)) _ IH) as (rr & Hrun).
    exists rr. eapply rtc_r; [exact Hrun|].
    by apply step_mine_delivered.
Qed.

(** C8, as stated, fails in a state the program reaches: Alice signs up
    and, from day 2 on, renews the unlimited plan at midnight and claims
    at noon, never hitting the jackpot.  The 95th claim is made at level
    41 with a streak bonus of 100: in decimal fixed point the payout is
    150 + 100 + 41 * 0.10 * 150 = 865; the reply reports
    865.0000000000001, the binary64 result of the float computation. *)
Lemma payout_is_decimal_fails :
  reachable (Sample.renewed 96 (Sample.season 94)) /\
  ~ payout_is_decimal (Sample.at_hour 96 12 0.5) Sample.alice
      (Sample.renewed 96 (Sample.season 94)).
Proof.
  split; [apply renewed_reachable, season_reachable|].
  intros H.
  assert (E : claim_receipt
                (mine (Sample.at_hour 96 12 0.5) Sample.alice
                   (Sample.renewed 96 (Sample.season 94)))
              = Some {| rc_daily_limit := 150; rc_bonus := 0;
                        rc_streak_bonus := 100; rc_level := 41;
                        rc_level_bonus := 615.0000000000001;
                        rc_total_reward := 865.0000000000001 |})
    by (vm_compute; reflexivity).
  specialize (H _ E). revert H. vm_compute. float_differs.
Qed.

(** The balance a successful claim leaves. *)
Lemma settled_balance env p level :
  balance (settled env p level)
  = if current_streak (settled env p level) mod 7 =? 0
    then (balance p + rc_total_reward (figures_at env p level) + 50)%float
    else (balance p + rc_total_reward (figures_at env p level))%float.
Proof.
  unfold settled.
  destruct (check_achievements_fields (t_achievements env)
              (advanced env p level)) as (-> & _ & _ & -> & _).
  unfold advanced.
  destruct (credit_fields env p level) as (Hb & _ & _ & Hl & _).
  destruct (check_daily_streak_after_credit (t_streak env) _ _ Hl)
    as [(_ & Hc & _ & ->)|(_ & Hc & _ & ->)].
  - rewrite float_of_int_50, Hb. reflexivity.
  - rewrite Hc, Hb. reflexivity.
Qed.

Lemma get_daily_limit_values p now :
  get_daily_limit p now = 0 \/ get_daily_limit p now = 50 \/
  get_daily_limit p now = 150.
Proof.
  unfold get_daily_limit. destruct (has_active_plan p now); [|by left].
  destruct (energy_plan p) as [[|]|]; cbn; auto.
Qed.

Lemma streak_bonus_of_range p : 0 <= streak_bonus_of p <= 100.
Proof.
  unfold streak_bonus_of, STREAK_BONUS, MAX_STREAK_BONUS.
  destruct (Z.ltb_spec 0 (current_streak p)); [|lia].
  rewrite Py_min_spec. lia.
Qed.

(** At level 0 the float computation of the payout is exact: the base
    is 0, 50 or 150, a jackpot 0, 5 or 15, and the streak bonus an
    integer up to 100. *)
Lemma level_0_payout_exact (base sb : Z) (jackpot_hit : bool) :
  base = 0 \/ base = 50 \/ base = 150 ->
  0 <= sb <= 100 ->
  (Py.float_of_int base
   + (if jackpot_hit then Py.float_of_int base * 0.1 else 0)
   + Py.float_of_int sb
   + calculate_level_bonus 0 * Py.float_of_int base)%float
  = (Py.float_of_int
       (100 * base + (if jackpot_hit then 10 * base else 0) + 100 * sb
        + 10 * 0 * base) / 100)%float.
Proof.
  intros Hbase Hsb.
  assert (Hk : exists k : nat, sb = Z.of_nat k /\ (k <= 100)%nat).
  { exists (Z.to_nat sb). lia. }
  destruct Hk as (k & -> & Hk). clear Hsb.
  destruct Hbase as [->|[->| ->]]; destruct jackpot_hit;
    do 101 (destruct k as [|k]; [vm_compute; reflexivity|]); lia.
Qed.

(** C8, amended: the reported jackpot, level bonus and payout are
    binary64 values computed with float arithmetic from the integer
    base, streak bonus and level: the jackpot is the float product of
    the base by 0.1 (or 0), the level bonus is the float product
    level * 0.1 * base, and the payout is their float sum with the base
    and the streak bonus, added left to right.  [total_mined] receives
    the payout by one float addition, and [balance] by one float
    addition followed, when the streak left by the claim is a multiple
    of 7, by the addition of the weekly 50.  At level 0 the payout is
    exactly the decimal amount; the rounding that makes payouts differ
    from it enters with the level bonus. *)
Theorem payout_is_binary64_sum env uid w rc :
  claim_receipt (mine env uid w) = Some rc ->
  let p := profile_of w uid in
  let p' := profile_of (after (mine env uid w)) uid in
  let jackpot_hit := (random_draw env <? 0.1)%float in
  rc_bonus rc =
    (if jackpot_hit
     then (Py.float_of_int (rc_daily_limit rc) * 0.1)%float else 0%float) /\
  rc_level_bonus rc =
    (Py.float_of_int (rc_level rc) * 0.1
     * Py.float_of_int (rc_daily_limit rc))%float /\
  rc_total_reward rc =
    (Py.float_of_int (rc_daily_limit rc) + rc_bonus rc
     + Py.float_of_int (rc_streak_bonus rc) + rc_level_bonus rc)%float /\
  total_mined p' = (total_mined p + rc_total_reward rc)%float /\
  balance p' =
    (if current_streak p' mod 7 =? 0
     then (balance p + rc_total_reward rc + 50)%float
     else (balance p + rc_total_reward rc)%float) /\
  (rc_level rc = 0 ->
   rc_total_reward rc =
     (Py.float_of_int (payout_hundredths rc jackpot_hit) / 100)%float).
Proof.
  intros Hrc p p' jackpot_hit.
  destruct (mine_receipt_profile _ _ _ _ Hrc) as (level & -> & Hp').
  subst p'. rewrite Hp'. fold p.
  destruct (settled_totals env p level) as (Ht & _).
  split; [done|]. split; [done|]. split; [done|]. split; [exact Ht|].
  split; [apply settled_balance|].
  rewrite figures_at_level. intros ->.
  unfold payout_hundredths, figures_at, jackpot.
  cbn [rc_daily_limit rc_bonus rc_streak_bonus rc_level rc_level_bonus
       rc_total_reward].
  fold jackpot_hit.
  pose proof (level_0_payout_exact (base_reward env p) (streak_bonus_of p)
                jackpot_hit (get_daily_limit_values _ _)
                (streak_bonus_of_range p)) as Hexact.
  by destruct jackpot_hit.
Qed.

(** Alice's 95th claim of the season: the payout is the float sum
    865.0000000000001, and the lifetime total receives it by float
    addition. *)
Lemma payout_is_binary64_sum_witness :
  (Py.float_of_int 150 + 0 + Py.float_of_int 100
   + Py.float_of_int 41 * 0.1 * Py.float_of_int 150)%float
  = 865.0000000000001%float /\
  total_mined
    (profile_of
       (after (mine (Sample.at_hour 96 12 0.5) Sample.alice
                 (Sample.renewed 96 (Sample.season 94))))
       Sample.alice)
  = (41275 + 865.0000000000001)%float.
Proof.
  destruct (payout_is_binary64_sum (Sample.at_hour 96 12 0.5) Sample.alice
              (Sample.renewed 96 (Sample.season 94))
              {| rc_daily_limit := 150; rc_bonus := 0;
                 rc_streak_bonus := 100; rc_level := 41;
                 rc_level_bonus := 615.0000000000001;
                 rc_total_reward := 865.0000000000001 |}
              ltac:(vm_compute; reflexivity))
    as (_ & _ & Hsum & Htotal & _).
  split.
  - revert Hsum. vm_compute. exact (fun H => eq_sym H).
  - revert Htotal. vm_compute. exact (fun H => H).
Defined.

(** * Properties of the further parts *)

(** ** Invariants of stored profiles *)

Lemma check_daily_streak_achievements now p :
  achievements (check_daily_streak now p).1 = achievements p.
Proof.
  unfold check_daily_streak.
  destruct (last_mine_time p); [|done].
  destruct (_ <=? 1); [destruct (_ =? 0)|]; done.
Qed.

(** The counters as the streak check of a run with a prompt clock
    leaves them. *)
Lemma advanced_prompt env p level :
  prompt_clock env ->
  mining_count (advanced env p level) = mining_count p + 1 /\
  current_streak (advanced env p level) = current_streak p + 1 /\
  highest_streak (advanced env p level)
    = Z.max (current_streak p + 1) (highest_streak p) /\
  last_mine_time (advanced env p level) = Some (current_time env).
Proof.
  intros Hclock. unfold advanced.
  destruct (credit_fields env p level) as (_ & _ & Hm & Hl & Hc & Hh & _).
  destruct (check_daily_streak_fields (t_streak env) (credit env p level))
    as (_ & -> & -> & _).
  pose proof (days_same_day _ _ Hclock) as Hdays.
  destruct (check_daily_streak_after_credit (t_streak env) _ _ Hl)
    as [(_ & -> & -> & _)|(Hd & _)]; [|lia].
  by rewrite Hc, Hh.
Qed.

(** The counters after a run with a prompt clock that passed the gates,
    whether or not its weekly notice raised. *)
Lemma left_by_prompt d env p level :
  prompt_clock env ->
  mining_count (left_by d env p level) = mining_count p + 1 /\
  current_streak (left_by d env p level) = current_streak p + 1 /\
  highest_streak (left_by d env p level)
    = Z.max (current_streak p + 1) (highest_streak p) /\
  last_mine_time (left_by d env p level) = Some (current_time env).
Proof.
  intros Hclock.
  destruct (left_by_spec d env p level)
    as [->|(_ & [(_ & ->)|(Hdays & _)])].
  - unfold settled.
    destruct (check_achievements_fields (t_achievements env)
                (advanced env p level)) as (_ & _ & -> & -> & -> & -> & _).
    by apply advanced_prompt.
  - by apply advanced_prompt.
  - rewrite (days_same_day _ _ Hclock) in Hdays. lia.
Qed.

Lemma counters_agree_invariant : profile_invariant prompt_run counters_agree.
Proof.
  split; try done.
  intros d env level p Hclock (Hpos & Hc & Hh & Hl).
  destruct (left_by_prompt d env p level Hclock) as (Em & Ec & Eh & El).
  unfold counters_agree. rewrite Em, Ec, Eh, El, Hc, Hh.
  repeat split; try lia; try done.
Qed.

Lemma after_second_claim_smooth :
  reachable_when smooth_run Sample2.after_second_claim.
Proof.
  destruct after_first_claim_smooth as (rr & Hrun).
  exists rr. eapply rtc_r; [exact Hrun|].
  apply step_mine_delivered.
  split; [|done]. vm_compute. split; [discriminate|reflexivity].
Qed.

Lemma after_second_claim_reachable : reachable Sample2.after_second_claim.
Proof. exact (reachable_when_reachable _ _ after_second_claim_smooth). Qed.

(** X1: in every state reached by runs whose clock readings are in
    order and less than a day apart, whichever of their sends raise,
    every stored profile has its current streak and its highest streak
    both equal to its number of claims: claims never reset the streak,
    however far apart they are.  The claim count is never negative, and
    the last claim time is absent exactly when the count is 0. *)
Theorem streak_equals_claim_count w uid p :
  reachable_when prompt_run w ->
  user_profiles w !! uid = Some p -> counters_agree p.
Proof.
  intros Hw Hp.
  exact (profile_invariant_reachable _ _ w counters_agree_invariant Hw
           _ _ Hp).
Qed.

(** Alice's two claims are two days apart; the streak is 2. *)
Lemma streak_equals_claim_count_witness :
  counters_agree (profile_of Sample2.after_second_claim Sample.alice) /\
  current_streak (profile_of Sample2.after_second_claim Sample.alice) = 2.
Proof.
  split; [|vm_compute; reflexivity].
  apply (streak_equals_claim_count Sample2.after_second_claim Sample.alice).
  - refine (reachable_when_mono _ _ _ _ after_second_claim_smooth).
    by intros env d (Hclock & _).
  - vm_compute. reflexivity.
Defined.

(** ** check_achievements *)

Lemma check_achievements_unlock_all now p :
  check_achievements now p =
    ((unlock_all (unlock_conditions now p) (p, [])).1,
     MsgAchievement <$> (unlock_all (unlock_conditions now p) (p, [])).2).
Proof. reflexivity. Qed.

Lemma unlock_achievements cond id p l :
  unlock cond id (p, l) =
    if cond && negb (bool_decide (id ∈ achievements p))
    then (set_achievements ({[id]} ∪ achievements p) p, l ++ [id])
    else (p, l).
Proof. reflexivity. Qed.

(** What a sequence of guarded unlocks does to the achievement set and to
    the list of new achievements. *)
Lemma unlock_all_spec cs p l :
  let st := unlock_all cs (p, l) in
  exists news,
    st.2 = l ++ news /\ NoDup news /\
    achievements p ⊆ achievements st.1 /\
    (forall id, id ∈ news <->
                id ∈ achievements st.1 /\ id ∉ achievements p) /\
    (forall id, id ∈ news -> (true, id) ∈ cs) /\
    (forall id, (true, id) ∈ cs -> id ∈ achievements st.1).
Proof.
  revert p l. induction cs as [|[c id] cs IH]; intros p l; cbn zeta.
  - exists []. cbn. rewrite app_nil_r.
    repeat split; try done; try apply NoDup_nil_2; set_solver.
  - cbn [unlock_all foldl fst snd]. rewrite unlock_achievements.
    destruct (c && negb (bool_decide (id ∈ achievements p))) eqn:E.
    + apply andb_true_iff in E as [-> E].
      apply negb_true_iff, bool_decide_eq_false in E.
      destruct (IH (set_achievements ({[id]} ∪ achievements p) p)
                  (l ++ [id])) as (news & Hl & Hnd & Hsub & Hnew & Hcs & Hin).
      fold (unlock_all cs
              (set_achievements ({[id]} ∪ achievements p) p, l ++ [id])).
      cbn [achievements set_achievements] in Hsub, Hnew.
      exists (id :: news). rewrite Hl, <- app_assoc.
      split; [done|]. split.
      { apply NoDup_cons. split; [|done]. intros Hid.
        apply Hnew in Hid. set_solver. }
      split; [set_solver|]. split.
      { intros id'. rewrite elem_of_cons, Hnew.
        destruct (decide (id' = id)) as [->|Hne]; set_solver. }
      split.
      { intros id' [->|Hid']%elem_of_cons; [set_solver|].
        apply elem_of_cons. right. by apply Hcs. }
      intros id' [[= <-]|Hid']%elem_of_cons; [set_solver|by apply Hin].
    + destruct (IH p l) as (news & Hl & Hnd & Hsub & Hnew & Hcs & Hin).
      fold (unlock_all cs (p, l)).
      exists news. repeat split; try done.
      * by apply Hnew.
      * by apply Hnew.
      * intros [? ?]. by apply Hnew.
      * intros id' Hid'. apply elem_of_cons. right. by apply Hcs.
      * intros id' [[= Hc Hid]|Hid']%elem_of_cons; [|by apply Hin].
        subst c id'. apply Hsub. cbn [andb] in E.
        by apply negb_false_iff, bool_decide_eq_true in E.
Qed.

(** Unlocks whose identifiers are all held change nothing. *)
Lemma unlock_all_held cs p l :
  (forall id, (true, id) ∈ cs -> id ∈ achievements p) ->
  unlock_all cs (p, l) = (p, l).
Proof.
  induction cs as [|[c id] cs IH]; intros Hheld; [done|].
  cbn [unlock_all foldl fst snd]. rewrite unlock_achievements.
  destruct c; cbn [andb].
  - rewrite bool_decide_eq_true_2 by (apply Hheld; set_solver).
    apply IH. intros id' Hid'. apply Hheld. set_solver.
  - apply IH. intros id' Hid'. apply Hheld. set_solver.
Qed.

Lemma unlock_all_fields cs st :
  let st' := unlock_all cs st in
  mining_count st'.1 = mining_count st.1 /\
  current_streak st'.1 = current_streak st.1 /\
  referral_count st'.1 = referral_count st.1 /\
  total_mined st'.1 = total_mined st.1.
Proof.
  revert st. induction cs as [|[c id] cs IH]; intros st; [done|].
  change (unlock_all ((c, id) :: cs) st)
    with (unlock_all cs (unlock c id st)).
  cbn zeta. destruct (IH (unlock c id st)) as (-> & -> & -> & ->).
  destruct st as [p l]. rewrite unlock_achievements.
  by destruct (c && _).
Qed.

Lemma unlock_conditions_fields now p q :
  mining_count q = mining_count p -> current_streak q = current_streak p ->
  referral_count q = referral_count p -> total_mined q = total_mined p ->
  unlock_conditions now q = unlock_conditions now p.
Proof. unfold unlock_conditions. by intros -> -> -> ->. Qed.

(** X2: [check_achievements] only adds to the achievement set; it
    announces exactly the achievements that enter the set, each once; and
    run again at the same time on the profile it returns, it changes
    nothing and announces nothing. *)
Theorem check_achievements_once now p :
  let p' := (check_achievements now p).1 in
  let msgs := (check_achievements now p).2 in
  achievements p ⊆ achievements p' /\
  NoDup msgs /\
  (forall id, MsgAchievement id ∈ msgs <->
              id ∈ achievements p' /\ id ∉ achievements p) /\
  check_achievements now p' = (p', []).
Proof.
  cbn zeta. rewrite check_achievements_unlock_all. cbn [fst snd].
  destruct (unlock_all_spec (unlock_conditions now p) p [])
    as (news & Hl & Hnd & Hsub & Hnew & Hcs & Hin).
  cbn zeta in Hl, Hsub, Hnew, Hin. rewrite Hl. cbn [app].
  split; [done|]. split.
  { apply NoDup_fmap_2; [|done]. by intros ? ? [=]. }
  split.
  { intros id. rewrite <- Hnew. rewrite list_elem_of_fmap. split.
    - by intros (id' & [= ->] & Hid).
    - intros Hid. by exists id. }
  rewrite check_achievements_unlock_all.
  destruct (unlock_all_fields (unlock_conditions now p) (p, []))
    as (Em & Ec & Er & Et).
  rewrite (unlock_conditions_fields now p _ Em Ec Er Et).
  by rewrite (unlock_all_held _ _ [] Hin).
Qed.

Lemma unlock_conditions_ids now p id :
  (true, id) ∈ unlock_conditions now p -> id ∈ ACHIEVEMENTS.
Proof.
  unfold unlock_conditions, ACHIEVEMENTS.
  rewrite !elem_of_cons, elem_of_nil.
  intros [[= _ ->]|[[= _ ->]|[[= _ ->]|[[= _ ->]|[[= _ ->]|[]]]]]];
    set_solver.
Qed.

Lemma unlock_conditions_met now p :
  (mining_count p = 1 -> (true, "first_mine") ∈ unlock_conditions now p) /\
  (7 <= current_streak p ->
   (true, "mining_streak_7") ∈ unlock_conditions now p) /\
  (5 <= referral_count p ->
   (true, "referral_master") ∈ unlock_conditions now p) /\
  ((1000 <=? total_mined p)%float = true ->
   (true, "mega_miner") ∈ unlock_conditions now p) /\
  (now mod timedelta_days 1 <= 3600 * us_per_second ->
   (true, "early_bird") ∈ unlock_conditions now p).
Proof.
  unfold unlock_conditions. repeat split.
  - intros ->. set_solver.
  - intros H. apply Z.leb_le in H. rewrite H. set_solver.
  - intros H. apply Z.leb_le in H. rewrite H. set_solver.
  - intros ->. set_solver.
  - intros H. apply Z.leb_le in H. rewrite H. set_solver.
Qed.

Lemma advanced_achievements env p level :
  achievements (advanced env p level) = achievements p.
Proof. unfold advanced. by rewrite check_daily_streak_achievements. Qed.

Lemma advanced_counts env p level :
  mining_count (advanced env p level) = mining_count p + 1 /\
  referral_count (advanced env p level) = referral_count p.
Proof.
  unfold advanced, check_daily_streak.
  destruct (last_mine_time _); [|done].
  destruct (_ <=? 1); [destruct (_ =? 0)|]; done.
Qed.

Lemma achievements_earned_invariant :
  profile_invariant notified_run achievements_earned.
Proof.
  split; try done.
  intros d env level p Hd (Hpos & Hknown & Hfirst & _).
  rewrite (left_by_notified d env p level Hd).
  unfold settled. rewrite check_achievements_unlock_all. cbn [fst].
  set (adv := advanced env p level).
  destruct (unlock_all_spec (unlock_conditions (t_achievements env) adv)
              adv []) as (news & _ & _ & Hsub & Hnew & Hcs & Hin).
  destruct (unlock_all_fields (unlock_conditions (t_achievements env) adv)
              (adv, [])) as (Em & Ec & _ & Et).
  cbn zeta in Hsub, Hnew, Hin, Em, Ec, Et. cbn [fst] in Em, Ec, Et.
  destruct (unlock_conditions_met (t_achievements env) adv)
    as (Mfirst & Mstreak & _ & Mtotal & _).
  destruct (advanced_counts env p level) as (Eadv & _). fold adv in Eadv.
  pose proof (advanced_achievements env p level) as Each. fold adv in Each.
  unfold achievements_earned. rewrite Em, Ec, Et.
  split; [lia|]. split; [|split; [|split]].
  + intros id Hid.
    destruct (decide (id ∈ achievements adv)) as [Hold|Hfresh].
    * apply Hknown. by rewrite <- Each.
    * eapply unlock_conditions_ids, Hcs, Hnew. done.
  + intros _. destruct (decide (mining_count p = 0)) as [E0|Hne].
    * apply Hin, Mfirst. lia.
    * apply Hsub. rewrite Each. apply Hfirst. lia.
  + intros H7. by apply Hin, Mstreak.
  + intros Ht. by apply Hin, Mtotal.
Qed.

(** Whatever the clock reads and whichever sends raise, a profile holds
    achievements of the catalog only. *)
Lemma achievements_known_invariant :
  profile_invariant any_run (fun p => achievements p ⊆ ACHIEVEMENTS).
Proof.
  split; try done.
  intros d env level p _ Hknown.
  destruct (left_by_spec d env p level)
    as [->|(_ & [(_ & ->)|(_ & _ & ->)])].
  - unfold settled. rewrite check_achievements_unlock_all. cbn [fst].
    set (adv := advanced env p level).
    destruct (unlock_all_spec (unlock_conditions (t_achievements env) adv)
                adv []) as (news & _ & _ & Hsub & Hnew & Hcs & Hin).
    cbn zeta in Hsub, Hnew, Hin.
    pose proof (advanced_achievements env p level) as Each.
    fold adv in Each.
    intros id Hid.
    destruct (decide (id ∈ achievements adv)) as [Hold|Hfresh].
    + apply Hknown. by rewrite <- Each.
    + eapply unlock_conditions_ids, Hcs, Hnew. done.
  - by rewrite advanced_achievements.
  - done.
Qed.

(** X3: in every state reached by runs in which the notice of the streak
    check, when one is due, is delivered (whatever the clock reads and
    whether or not the replies are delivered), every stored profile holds
    only achievements of the catalog, holds "first_mine" once it has
    claimed, "mining_streak_7" whenever its current streak is 7 or more,
    and "mega_miner" whenever its lifetime total is 1000 or more. *)
Theorem achievements_follow_progress w uid p :
  reachable_when notified_run w ->
  user_profiles w !! uid = Some p -> achievements_earned p.
Proof.
  intros Hw Hp.
  exact (profile_invariant_reachable _ _ w achievements_earned_invariant
           Hw _ _ Hp).
Qed.

Lemma achievements_follow_progress_witness :
  achievements_earned (profile_of Sample2.after_second_claim Sample.alice).
Proof.
  apply (achievements_follow_progress Sample2.after_second_claim
           Sample.alice).
  - refine (reachable_when_mono _ _ _ _ after_second_claim_smooth).
    by intros env d (_ & Hd).
  - vm_compute. reflexivity.
Defined.

(** ** The claim gate as a whole *)

(** The streak check of a claim raises exactly when a notice is due and
    is not delivered. *)
Lemma check_daily_streak_run_credit delivered env p level :
  check_daily_streak_run delivered (t_streak env) (credit env p level)
  = if notice_due env p && negb delivered then
      (if days (t_streak env - current_time env) <=? 1
       then advanced env p level else credit env p level, [], true)
    else (check_daily_streak (t_streak env) (credit env p level), false).
Proof.
  unfold notice_due, advanced, check_daily_streak_run, check_daily_streak.
  cbn [credit last_mine_time set_last_mine_time set_mining_count
       set_total_mined set_balance current_streak set_current_streak
       set_highest_streak].
  destruct (_ <=? 1).
  - destruct (_ =? 0); [|done]. by destruct delivered.
  - destruct (0 <? _); [|done]. by destruct delivered.
Qed.

(** A run that passes the four gates ends in one of three ways. *)
Lemma mine_run_gates d env uid w level :
  uid ∉ suspended_users w ->
  has_active_plan (profile_of w uid) (t_has_plan env) = true ->
  cooldown_active (profile_of w uid) (current_time env) = false ->
  calculate_level (total_mined (profile_of w uid)) = Some level ->
  (notice_due env (profile_of w uid) && negb (notice_delivered d) = true /\
   sent (mine_run d env uid w) = []) \/
  (notice_due env (profile_of w uid) && negb (notice_delivered d) = false /\
   reply_delivered d = true /\ mine_run d env uid w = mine env uid w) \/
  (notice_due env (profile_of w uid) && negb (notice_delivered d) = false /\
   reply_delivered d = false /\
   claim_receipt (mine_run d env uid w) = None).
Proof.
  intros Hsusp Hplan Hcool Hlevel. unfold mine_run, mine.
  rewrite !bool_decide_eq_false_2 by done.
  rewrite profile_of_ensure, Hplan, Hcool, Hlevel. cbn [negb].
  change (check_daily_streak_run (notice_delivered d) (t_streak env) _)
    with (check_daily_streak_run (notice_delivered d) (t_streak env)
            (credit env (profile_of w uid) level)).
  change (check_daily_streak (t_streak env) _)
    with (check_daily_streak (t_streak env)
            (credit env (profile_of w uid) level)).
  rewrite check_daily_streak_run_credit.
  destruct (notice_due _ _ && _); [by left|right].
  pose proof (notices_no_receipt
                (store_profile uid
                   (check_achievements (t_achievements env)
                      (check_daily_streak (t_streak env)
                         (credit env (profile_of w uid) level)).1).1
                   (ensure_profile uid w))
                (t_streak env) (t_achievements env)
                (credit env (profile_of w uid) level)) as Hnone.
  destruct (check_daily_streak _ _) as [p1 m1]. cbn [fst snd] in Hnone.
  destruct (check_achievements _ p1) as [p2 m2]. cbn [fst snd] in Hnone.
  destruct (reply_delivered d); [by left|by right].
Qed.

(** X4: a [/mine] run ends with the mining reply exactly when the user is
    not suspended, the plan is active at the first clock reading, no claim
    was recorded in the 24 hours before [current_time] (a claim exactly
    24 hours old does not block), the level of the lifetime total is
    defined, the notice of the streak check is delivered if one is due,
    and the reply itself is delivered.  A weekly bonus notice or a
    streak-broken notice that raises ends the run before the reply. *)
Theorem mine_accepted_iff d env uid w :
  let p := profile_of w uid in
  is_Some (claim_receipt (mine_run d env uid w)) <->
  (uid ∉ suspended_users w) /\
  has_active_plan p (t_has_plan env) = true /\
  (forall last, last_mine_time p = Some last ->
                timedelta_hours 24 <= current_time env - last) /\
  is_Some (calculate_level (total_mined p)) /\
  (notice_due env p = true -> notice_delivered d = true) /\
  reply_delivered d = true.
Proof.
  intros p. split.
  - intros (rc & Hrc).
    pose proof (mine_run_receipt _ _ _ _ _ Hrc) as Hrun.
    rewrite Hrun in Hrc.
    destruct (mine_receipt_inv _ _ _ _ Hrc)
      as (level & Hs & Hplan & Hcool & Hlevel & _).
    fold p in Hplan, Hcool, Hlevel.
    split; [done|]. split; [done|]. split.
    { intros last Hlast. unfold cooldown_active in Hcool.
      rewrite Hlast in Hcool. by apply Z.ltb_ge in Hcool. }
    split; [by eexists|].
    destruct (mine_run_gates d env uid w level Hs Hplan Hcool Hlevel)
      as [(_ & Hsent)|[(Hdue & Hreply & _)|(_ & _ & Hnone)]].
    + exfalso. rewrite <- Hrun in Hrc. unfold claim_receipt in Hrc.
      by rewrite Hsent in Hrc.
    + fold p in Hdue. split; [|done]. intros Hd. rewrite Hd in Hdue.
      by destruct (notice_delivered d).
    + exfalso. rewrite <- Hrun in Hrc. congruence.
  - intros (Hs & Hplan & Hcool & (level & Hlevel) & Hnotice & Hreply).
    assert (Hcool' : cooldown_active p (current_time env) = false).
    { unfold cooldown_active.
      destruct (last_mine_time p) as [last|]; [|done].
      apply Z.ltb_ge. by apply Hcool. }
    destruct (mine_run_gates d env uid w level Hs Hplan Hcool' Hlevel)
      as [(Hdue & _)|[(_ & _ & ->)|(_ & Hr & _)]].
    + fold p in Hdue. apply andb_true_iff in Hdue as (Hdue & Hd).
      rewrite (Hnotice Hdue) in Hd. done.
    + rewrite (mine_accepted _ _ _ level) by done.
      unfold mined_messages. rewrite app_assoc, claim_receipt_snoc.
      by eexists.
    + congruence.
Qed.

(** ** successful_payment_callback *)

Lemma payment_buyer uid k now w :
  let w' := after (successful_payment_callback uid (Some k) now w) in
  let p := profile_of w uid in
  exists v,
    profile_of w' uid
      = set_balance v (set_energy k (now + timedelta_days 30) p) /\
    suspended_users w' = suspended_users w /\
    user_profiles w' !! uid = Some (profile_of w' uid).
Proof.
  cbv zeta. unfold successful_payment_callback. cbv zeta.
  set (w1 := ensure_profile uid w).
  set (bought := set_energy k (now + timedelta_days 30) (profile_of w1 uid)).
  set (w2 := store_profile uid bought w1).
  assert (E1 : profile_of w1 uid = profile_of w uid)
    by apply profile_of_ensure.
  assert (S1 : suspended_users w1 = suspended_users w)
    by (unfold w1, ensure_profile; by destruct (user_profiles w !! uid)).
  assert (E2 : profile_of w2 uid = bought) by apply profile_of_store.
  assert (L2 : user_profiles w2 !! uid = Some bought)
    by (unfold w2, store_profile; cbn; apply lookup_insert_eq).
  assert (Hsame : exists v, bought = set_balance v
            (set_energy k (now + timedelta_days 30) (profile_of w uid))).
  { exists (balance (profile_of w uid)). unfold bought. by rewrite E1. }
  assert (Hplain :
    exists v,
      profile_of w2 uid
        = set_balance v
            (set_energy k (now + timedelta_days 30) (profile_of w uid)) /\
      suspended_users w2 = suspended_users w /\
      user_profiles w2 !! uid = Some (profile_of w2 uid)).
  { destruct Hsame as (v & Hv). exists v. rewrite E2, L2.
    split_and!; [exact Hv|exact S1|done]. }
  destruct (referred_by bought) as [r|]; [|exact Hplain].
  case_bool_decide; [|exact Hplain].
  destruct (user_profiles w2 !! r) as [rp|] eqn:Hr; [|exact Hplain].
  cbn [after returns].
  destruct (decide (r = uid)) as [->|Hne].
  - rewrite profile_of_store. rewrite L2 in Hr. injection Hr as <-.
    exists (balance bought
            + Py.float_of_int (price (ENERGY_PLANS k)) * 0.1)%float.
    split_and!; [|exact S1|].
    + unfold bought. by rewrite E1.
    + unfold store_profile. cbn. apply lookup_insert_eq.
  - assert (L3 : user_profiles (store_profile r
                   (set_balance
                      (balance rp
                       + Py.float_of_int (price (ENERGY_PLANS k)) * 0.1)%float
                      rp)
                   w2) !! uid = Some bought).
    { unfold store_profile. cbn. by rewrite lookup_insert_ne. }
    unfold profile_of at 1. unfold profile_of at 2. rewrite L3. cbn [default].
    destruct Hsame as (v & Hv). exists v.
    split_and!; [exact Hv|exact S1|done].
Qed.

(** X5: a successful payment replaces the buyer's plan and sets its
    expiry to 30 days after the payment, whatever plan and expiry the
    profile held before (purchases do not stack); the plan is then active
    exactly before that expiry, with the daily limit of the catalog; the
    buyer's claim history is untouched.  A payment for a plan that is not
    in the catalog changes nothing. *)
Theorem payment_replaces_plan uid k now w :
  let w' := after (successful_payment_callback uid (Some k) now w) in
  let p := profile_of w uid in
  let p' := profile_of w' uid in
  energy_plan p' = Some k /\
  energy_expires p' = Some (now + timedelta_days 30) /\
  (forall t, has_active_plan p' t = (t <? now + timedelta_days 30)) /\
  (forall t, get_daily_limit p' t =
             if t <? now + timedelta_days 30
             then daily_limit (ENERGY_PLANS k) else 0) /\
  (total_mined p' = total_mined p /\ mining_count p' = mining_count p /\
   current_streak p' = current_streak p /\
   last_mine_time p' = last_mine_time p /\
   referred_by p' = referred_by p) /\
  after (successful_payment_callback uid None now w) = w.
Proof.
  intros w' p p'.
  destruct (payment_buyer uid k now w) as (v & Hp' & _).
  fold w' p p' in Hp'. rewrite Hp'.
  unfold has_active_plan, get_daily_limit, has_active_plan.
  cbn [set_balance set_energy energy_plan energy_expires total_mined
       mining_count current_streak last_mine_time referred_by].
  repeat split.
Qed.

Lemma start_new_user uid arg0 w :
  uid ∉ suspended_users w -> user_profiles w !! uid = None ->
  let p := profile_of (after (start uid arg0 w)) uid in
  exists v r, p = set_referred_by r (set_balance v (new_profile uid)).
Proof.
  intros Hs Hnew. unfold start. rewrite bool_decide_eq_false_2 by done.
  assert (Hplain :
    exists v r,
      profile_of (ensure_profile uid w) uid
        = set_referred_by r (set_balance v (new_profile uid))).
  { exists 0%float, None. rewrite profile_of_ensure. unfold profile_of.
    by rewrite Hnew. }
  destruct arg0 as [ref|]; [|exact Hplain].
  case_bool_decide; [|exact Hplain].
  rewrite Hnew.
  destruct (user_profiles w !! ref) as [rp|]; [|exact Hplain].
  cbn [after returns]. rewrite profile_of_ensure, profile_of_store.
  by eexists _, _.
Qed.

(** X6: signing up, paying and claiming compose.  A user without a stored
    profile who is not suspended runs [/start] (with or without a
    referral argument), pays for a plan at time [t0] and then runs
    [/mine] with both plan checks before the expiry [t0] + 30 days: the
    claim is accepted with the base reward of the plan bought, no streak
    bonus, level 0 and no level bonus, and leaves a streak of 1 and a
    claim count of 1. *)
Theorem signup_payment_claim uid arg0 k t0 env w :
  uid ∉ suspended_users w ->
  user_profiles w !! uid = None ->
  t_has_plan env < t0 + timedelta_days 30 ->
  t_daily_limit env < t0 + timedelta_days 30 ->
  let w1 := after (start uid arg0 w) in
  let w2 := after (successful_payment_callback uid (Some k) t0 w1) in
  let r := mine env uid w2 in
  raised r = false /\
  (exists rc,
     claim_receipt r = Some rc /\
     rc_daily_limit rc = daily_limit (ENERGY_PLANS k) /\
     rc_streak_bonus rc = 0 /\ rc_level rc = 0 /\
     rc_level_bonus rc = 0%float) /\
  current_streak (profile_of (after r) uid) = 1 /\
  mining_count (profile_of (after r) uid) = 1.
Proof.
  intros Hs Hnew Hplan Hlimit w1 w2 r.
  destruct (start_new_user uid arg0 w Hs Hnew) as (v1 & ref & Hp1).
  fold w1 in Hp1.
  destruct (start_stores uid arg0 w Hs) as (Hs1 & _). fold w1 in Hs1.
  destruct (payment_buyer uid k t0 w1) as (v2 & Hp2 & Hs2 & _).
  fold w2 in Hp2, Hs2. rewrite Hp1 in Hp2.
  assert (Hsusp : uid ∉ suspended_users w2) by by rewrite Hs2, Hs1.
  assert (Hactive : has_active_plan (profile_of w2 uid) (t_has_plan env)
                    = true).
  { rewrite Hp2. unfold has_active_plan. cbn. by apply Z.ltb_lt. }
  assert (Hcool : cooldown_active (profile_of w2 uid) (current_time env)
                  = false) by by rewrite Hp2.
  assert (Hlevel : calculate_level (total_mined (profile_of w2 uid)) = Some 0)
    by by rewrite Hp2.
  assert (Hbase : base_reward env (profile_of w2 uid)
                  = daily_limit (ENERGY_PLANS k)).
  { rewrite Hp2. unfold base_reward, get_daily_limit, has_active_plan. cbn.
    apply Z.ltb_lt in Hlimit. by rewrite Hlimit. }
  subst r. rewrite (mine_accepted _ _ _ 0) by done.
  cbn [raised after returns]. split; [done|]. split.
  - exists (figures_at env (profile_of w2 uid) 0). split.
    + unfold mined_messages. by rewrite app_assoc, claim_receipt_snoc.
    + cbn [figures_at rc_daily_limit rc_streak_bonus rc_level
           rc_level_bonus].
      rewrite Hbase. split; [done|]. split; [by rewrite Hp2|].
      split; [done|]. by destruct k.
  - rewrite profile_of_store.
    destruct (settled_totals env (profile_of w2 uid) 0) as (_ & ->).
    unfold settled.
    destruct (check_achievements_fields (t_achievements env)
                (advanced env (profile_of w2 uid) 0))
      as (_ & _ & _ & -> & _).
    unfold advanced.
    destruct (credit_fields env (profile_of w2 uid) 0)
      as (_ & _ & _ & Hl & Hc & _).
    split; [|by rewrite Hp2].
    destruct (check_daily_streak_after_credit (t_streak env) _ _ Hl)
      as [(_ & -> & _)|(_ & -> & _)]; [|done].
    by rewrite Hc, Hp2.
Qed.

(** Bob, unknown so far, signs up through Alice's link, buys the
    unlimited plan on day 3 and claims at noon of day 5. *)
Lemma signup_payment_claim_witness :
  let w1 := after (start Sample.bob (Some Sample.alice) Sample.signed_up) in
  let w2 := after (successful_payment_callback Sample.bob
                     (Some plan_unlimited) (Sample.day 3) w1) in
  let r := mine (Sample.at_hour 5 12 0.5) Sample.bob w2 in
  claim_receipt r =
    Some {| rc_daily_limit := 150; rc_bonus := 0; rc_streak_bonus := 0;
            rc_level := 0; rc_level_bonus := 0; rc_total_reward := 150 |} /\
  current_streak (profile_of (after r) Sample.bob) = 1.
Proof.
  destruct (signup_payment_claim Sample.bob (Some Sample.alice)
              plan_unlimited (Sample.day 3) (Sample.at_hour 5 12 0.5)
              Sample.signed_up
              ltac:(vm_compute; set_solver) ltac:(vm_compute; reflexivity)
              ltac:(vm_compute; reflexivity) ltac:(vm_compute; reflexivity))
    as (_ & _ & Hstreak & _).
  split; [vm_compute; reflexivity|exact Hstreak].
Defined.

(** ** What handler runs do to the stores *)

Lemma same_admin_stores_refl w : same_admin_stores w w.
Proof. done. Qed.

Lemma same_admin_stores_trans w1 w2 w3 :
  same_admin_stores w1 w2 -> same_admin_stores w2 w3 ->
  same_admin_stores w1 w3.
Proof.
  intros (E1 & E2 & E3) (F1 & F2 & F3).
  unfold same_admin_stores. by rewrite F1, F2, F3.
Qed.

Lemma same_admin_stores_store uid p w :
  same_admin_stores w (store_profile uid p w).
Proof. done. Qed.

Lemma same_admin_stores_ensure uid w :
  same_admin_stores w (ensure_profile uid w).
Proof. unfold ensure_profile. by destruct (user_profiles w !! uid). Qed.

Lemma start_same_admin_stores uid arg0 w :
  same_admin_stores w (after (start uid arg0 w)).
Proof.
  unfold start. case_bool_decide; [done|].
  destruct arg0 as [r|]; [|apply same_admin_stores_ensure].
  case_bool_decide; [|apply same_admin_stores_ensure].
  destruct (user_profiles w !! r), (user_profiles w !! uid);
    try apply same_admin_stores_ensure.
  cbn [after returns].
  eapply same_admin_stores_trans; [|apply same_admin_stores_ensure]. done.
Qed.

Lemma mine_same_admin_stores d env uid w :
  same_admin_stores w (after (mine_run d env uid w)).
Proof.
  destruct (mine_run_after d env uid w) as [->|[->|(level & ->)]];
    [done|apply same_admin_stores_ensure|].
  eapply same_admin_stores_trans; [apply same_admin_stores_ensure|done].
Qed.

Lemma task_handler_same_admin_stores uid task w :
  same_admin_stores w (after (task_handler uid task w)).
Proof.
  unfold task_handler. destruct (tasks w !! task); [|done].
  case_bool_decide; [done|apply same_admin_stores_ensure].
Qed.

Lemma payment_same_admin_stores uid plan now w :
  same_admin_stores w (after (successful_payment_callback uid plan now w)).
Proof.
  unfold successful_payment_callback. destruct plan as [k|]; [|done].
  cbv zeta.
  set (w1 := ensure_profile uid w).
  assert (H1 : same_admin_stores w w1) by apply same_admin_stores_ensure.
  destruct (referred_by _) as [r|]; [|exact H1].
  case_bool_decide; [|exact H1].
  destruct (_ !! r); exact H1.
Qed.

(** One handler run keeps every stored profile's key, changes the set of
    suspended users only by suspending a stored user or lifting a
    suspension, and changes the task store in one of four ways. *)
Lemma step_stores w w' :
  step w w' ->
  dom (user_profiles w) ⊆ dom (user_profiles w') /\
  (suspended_users w' = suspended_users w \/
   (exists target, target ∈ dom (user_profiles w) /\
      suspended_users w' = {[target]} ∪ suspended_users w) \/
   (exists target, suspended_users w' = suspended_users w ∖ {[target]})) /\
  task_effect w w'.
Proof.
  intros Hstep. split.
  { intros uid [p Hp]%elem_of_dom.
    destruct (step_keeps_referrers _ _ _ Hstep _ _ Hp) as (p' & Hp' & _).
    apply elem_of_dom. by eexists. }
  destruct Hstep as [uid arg0 w|d env uid w _|uid task w
                    |uid task is_member w|uid plan now w|admin target w
                    |admin target w|admin fields w|admin target w].
  - destruct (start_same_admin_stores uid arg0 w) as (? & ? & ?).
    split; [by left|by apply tasks_kept].
  - destruct (mine_same_admin_stores d env uid w) as (? & ? & ?).
    split; [by left|by apply tasks_kept].
  - destruct (task_handler_same_admin_stores uid task w) as (? & ? & ?).
    split; [by left|by apply tasks_kept].
  - unfold verify_task. destruct (tasks w !! task) as [t|] eqn:Ht;
      [|split; [by left|by apply tasks_kept]].
    case_bool_decide as Hin; [split; [by left|by apply tasks_kept]|].
    destruct (_ && _); [split; [by left|by apply tasks_kept]|].
    cbn [after returns]. split.
    + left. by destruct (user_profiles w !! uid).
    + apply (task_completed _ _ task t uid); try done.
      all: by destruct (user_profiles w !! uid).
  - destruct (payment_same_admin_stores uid plan now w) as (? & ? & ?).
    split; [by left|by apply tasks_kept].
  - unfold suspend_user. destruct admin; cbn [negb];
      [|split; [by left|by apply tasks_kept]].
    destruct target as [[target|]|];
      [|split; [by left|by apply tasks_kept]..].
    destruct (user_profiles w !! target) eqn:Ht;
      [|split; [by left|by apply tasks_kept]].
    cbn [after returns]. split; [|by apply tasks_kept].
    right; left. exists target. split; [|done].
    apply elem_of_dom. by eexists.
  - unfold unsuspend_user. destruct admin; cbn [negb];
      [|split; [by left|by apply tasks_kept]].
    destruct target as [[target|]|];
      [|split; [by left|by apply tasks_kept]..].
    case_bool_decide; [|split; [by left|by apply tasks_kept]].
    cbn [after returns]. split; [|by apply tasks_kept].
    right; right. by exists target.
  - unfold add_task. destruct admin; cbn [negb];
      [|split; [by left|by apply tasks_kept]].
    destruct fields as [f|]; [|split; [by left|by apply tasks_kept]].
    cbn [after returns]. split; [by left|].
    eapply task_added; cycle 2; reflexivity.
  - unfold remove_task. destruct admin; cbn [negb];
      [|split; [by left|by apply tasks_kept]].
    destruct target as [[k|]|]; [|split; [by left|by apply tasks_kept]..].
    destruct (tasks w !! k) eqn:Hk; [|split; [by left|by apply tasks_kept]].
    cbn [after returns]. split; [by left|].
    by apply (task_removed _ _ k).
Qed.

(** X7: in every reachable state every suspended user has a stored
    profile: only stored users can be suspended and profiles are never
    deleted. *)
Theorem suspended_users_have_profiles w uid :
  reachable w -> uid ∈ suspended_users w ->
  is_Some (user_profiles w !! uid).
Proof.
  intros (rr & Hrun). revert uid.
  refine (rtc_ind_r (R := step)
            (fun w => forall uid, uid ∈ suspended_users w ->
                                  is_Some (user_profiles w !! uid))
            (initial_world rr) _ _ w Hrun).
  - intros uid. cbn. set_solver.
  - intros w1 w2 _ Hstep IH uid Hin.
    destruct (step_stores _ _ Hstep) as (Hdom & Hsusp & _).
    apply elem_of_dom, Hdom.
    destruct Hsusp as [E|[(target & Ht & E)|(target & E)]];
      rewrite E in Hin.
    + by apply elem_of_dom, IH.
    + apply elem_of_union in Hin as [->%elem_of_singleton|Hin]; [done|].
      by apply elem_of_dom, IH.
    + apply elem_of_difference in Hin as [Hin _].
      by apply elem_of_dom, IH.
Qed.

Lemma signed_up_reachable : reachable Sample.signed_up.
Proof. exists 50%float. apply rtc_once, step_start. Qed.

Lemma alice_suspended_reachable : reachable Sample3.alice_suspended.
Proof.
  destruct after_first_claim_reachable as (rr & Hrun).
  exists rr. eapply rtc_r; [exact Hrun|]. apply step_suspend.
Qed.

Lemma suspended_users_have_profiles_witness :
  is_Some (user_profiles Sample3.alice_suspended !! Sample.alice).
Proof.
  apply (suspended_users_have_profiles Sample3.alice_suspended Sample.alice).
  - exact alice_suspended_reachable.
  - apply (bool_decide_unpack _). vm_compute. exact I.
Defined.

(** ** Task identifiers *)

Lemma step_task_ids_ok w w' : step w w' -> task_ids_ok w -> task_ids_ok w'.
Proof.
  intros Hstep (Hnext & Hids).
  destruct (step_stores _ _ Hstep) as (_ & _ & Heff).
  destruct Heff as [Et En|k t uid Hk Hin Et En|t Hid Hc Et En|k Hk Et En];
    unfold task_ids_ok; rewrite Et, En.
  - done.
  - split; [done|]. intros k' t'. rewrite lookup_insert.
    case_decide as E; [|apply Hids].
    intros [= <-]. subst k'. cbn. exact (Hids _ _ Hk).
  - split; [lia|]. intros k' t'. rewrite lookup_insert.
    case_decide as E.
    + intros [= <-]. subst k'. split; [done|lia].
    + intros Hk'. destruct (Hids _ _ Hk') as (? & ?). split; [done|lia].
  - split; [done|]. intros k' t'. rewrite lookup_delete.
    case_decide; [done|apply Hids].
Qed.

Lemma reachable_task_ids_ok w : reachable w -> task_ids_ok w.
Proof.
  intros (rr & Hrun).
  refine (rtc_ind_r (R := step) task_ids_ok (initial_world rr) _ _ w Hrun).
  - split; [cbn; lia|]. intros k t. cbn. by rewrite lookup_empty.
  - intros w1 w2 _ Hstep IH. by eapply step_task_ids_ok.
Qed.

(** X8: in every reachable state each task is stored under its own
    identifier, identifiers lie between 1 and the next free one, and the
    next free identifier is unused, so [add_task] never overwrites a
    task. *)
Theorem task_ids_are_fresh w :
  reachable w ->
  task_ids_ok w /\ tasks w !! next_task_id w = None.
Proof.
  intros Hw. pose proof (reachable_task_ids_ok w Hw) as Hok.
  split; [done|].
  destruct Hok as (_ & Hids).
  destruct (tasks w !! next_task_id w) as [t|] eqn:E; [|done].
  destruct (Hids _ _ E). lia.
Qed.

Lemma survey_again_reachable : reachable Sample3.survey_again.
Proof.
  destruct signed_up_reachable as (rr & Hrun).
  exists rr.
  eapply rtc_r; [|apply step_add_task].
  eapply rtc_r; [|apply step_remove_task].
  eapply rtc_r; [|apply step_verify_task].
  eapply rtc_r; [exact Hrun|apply step_add_task].
Qed.

(** After adding, removing and adding again, the survey is task 2 and
    identifier 3 is the next free one. *)
Lemma task_ids_are_fresh_witness :
  task_ids_ok Sample3.survey_again /\
  tasks Sample3.survey_again !! 3 = None /\
  tasks Sample3.survey_again !! 1 = None.
Proof.
  destruct (task_ids_are_fresh Sample3.survey_again survey_again_reachable)
    as (Hok & Hfree).
  split; [exact Hok|]. split; [exact Hfree|].
  vm_compute. reflexivity.
Defined.

(** Along a run the next free identifier never decreases, and a task a
    user has completed is either kept, with that user still in its
    completion set, or gone for good. *)
Lemma completion_kept w w' k t uid :
  rtc step w w' -> k < next_task_id w ->
  tasks w !! k = Some t -> uid ∈ completed_by t ->
  next_task_id w <= next_task_id w' /\
  match tasks w' !! k with
  | Some t' => uid ∈ completed_by t'
  | None => True
  end.
Proof.
  intros Hrun Hk Ht Hin.
  refine (rtc_ind_r (R := step)
            (fun w' => next_task_id w <= next_task_id w' /\
                       match tasks w' !! k with
                       | Some t' => uid ∈ completed_by t'
                       | None => True
                       end) w _ _ w' Hrun).
  - split; [lia|]. by rewrite Ht.
  - intros w1 w2 _ Hstep (Hle & IH).
    destruct (step_stores _ _ Hstep) as (_ & _ & Heff).
    destruct Heff as [Et En|k0 t0 u0 Hk0 Hin0 Et En|t0 Hid Hc Et En
                     |k0 Hk0 Et En]; rewrite Et, En.
    + done.
    + split; [done|]. rewrite lookup_insert. case_decide as E; [|done].
      subst k0. rewrite Hk0 in IH. cbn. set_solver.
    + split; [lia|]. rewrite lookup_insert. case_decide as E; [lia|done].
    + split; [done|]. rewrite lookup_delete. by case_decide.
Qed.

(** X9: completing a task is permanent.  Once a user is in the completion
    set of a task of a reachable state, every later [verify_task] of that
    user for that identifier, whatever the verification says, is answered
    "already completed" or "task gone" and changes nothing: identifiers
    are never reused, so removing and re-adding tasks cannot reopen it. *)
Theorem task_completion_is_permanent w w' k t uid is_member :
  reachable w -> rtc step w w' ->
  tasks w !! k = Some t -> uid ∈ completed_by t ->
  let r := verify_task uid k is_member w' in
  after r = w' /\
  (sent r = [MsgAlreadyCompleted] \/ sent r = [MsgTaskGone]).
Proof.
  intros Hw Hrun Ht Hin r.
  destruct (reachable_task_ids_ok w Hw) as (_ & Hids).
  destruct (Hids _ _ Ht) as (_ & _ & Hk).
  destruct (completion_kept w w' k t uid Hrun Hk Ht Hin) as (_ & Hkept).
  subst r. unfold verify_task.
  destruct (tasks w' !! k) as [t'|]; [|by split; [|right]].
  rewrite bool_decide_eq_true_2 by done. by split; [|left].
Qed.

Lemma survey_done_reachable : reachable Sample3.survey_done.
Proof.
  destruct signed_up_reachable as (rr & Hrun).
  exists rr.
  eapply rtc_r; [|apply step_verify_task].
  eapply rtc_r; [exact Hrun|apply step_add_task].
Qed.

(** Alice completed task 1; after it is removed and the survey added
    again (as task 2), a new attempt on task 1 finds it gone. *)
Lemma task_completion_is_permanent_witness :
  let r := verify_task Sample.alice 1 true Sample3.survey_again in
  after r = Sample3.survey_again /\
  (sent r = [MsgAlreadyCompleted] \/ sent r = [MsgTaskGone]).
Proof.
  refine (task_completion_is_permanent Sample3.survey_done
            Sample3.survey_again 1
            (set_completed_by ({[Sample.alice]} ∪ ∅) 
               {| task_id := 1; title := title Sample.survey;
                  description := description Sample.survey;
                  link := link Sample.survey;
                  display_text := display_text Sample.survey;
                  reward := reward Sample.survey;
                  created_at := created_at Sample.survey;
                  completed_by := ∅;
                  channel_id := channel_id Sample.survey |})
            Sample.alice true survey_done_reachable _ _ _).
  - eapply rtc_l; [apply step_remove_task|]. apply rtc_once, step_add_task.
  - vm_compute. reflexivity.
  - cbn. set_solver.
Defined.

(** ** The referral ledger *)

Lemma elem_of_referred_ids w r u :
  u ∈ referred_ids w r <->
  exists p, user_profiles w !! u = Some p /\ referred_by p = Some r.
Proof.
  unfold referred_ids. rewrite elem_of_dom. unfold is_Some.
  setoid_rewrite map_lookup_filter_Some. cbn. naive_solver.
Qed.

Lemma ledger_quiet_refl w : ledger_quiet w w.
Proof. intros u. by destruct (user_profiles w !! u). Qed.

Lemma ledger_quiet_trans w1 w2 w3 :
  ledger_quiet w1 w2 -> ledger_quiet w2 w3 -> ledger_quiet w1 w3.
Proof.
  intros H12 H23 u. specialize (H12 u). specialize (H23 u).
  destruct (user_profiles w1 !! u), (user_profiles w2 !! u),
    (user_profiles w3 !! u); try done; naive_solver congruence.
Qed.

Lemma ledger_quiet_same w w' :
  user_profiles w' = user_profiles w -> ledger_quiet w w'.
Proof. intros E u. rewrite E. by destruct (user_profiles w !! u). Qed.

Lemma ledger_quiet_set_tasks m n w w' :
  ledger_quiet w w' -> ledger_quiet w (set_tasks m n w').
Proof. intros H u. exact (H u). Qed.

Lemma ledger_quiet_store uid q w :
  referred_by q = referred_by (profile_of w uid) ->
  referral_count q = referral_count (profile_of w uid) ->
  ledger_quiet w (store_profile uid q w).
Proof.
  intros Hr Hc u. unfold store_profile. cbn. rewrite lookup_insert.
  case_decide as E.
  - subst u. unfold profile_of in Hr, Hc.
    by destruct (user_profiles w !! uid).
  - by destruct (user_profiles w !! u).
Qed.

Lemma ledger_quiet_ensure uid w : ledger_quiet w (ensure_profile uid w).
Proof.
  unfold ensure_profile. destruct (user_profiles w !! uid) eqn:E.
  - apply ledger_quiet_refl.
  - apply ledger_quiet_store; unfold profile_of; by rewrite E.
Qed.

Lemma step_ledger w w' :
  step w w' -> ledger_quiet w w' \/ exists uid r, ledger_attributes uid r w w'.
Proof.
  destruct 1.
  - unfold start. case_bool_decide; [left; apply ledger_quiet_refl|].
    destruct arg0 as [r|]; [|left; apply ledger_quiet_ensure].
    case_bool_decide as Hne; [|left; apply ledger_quiet_ensure].
    destruct (user_profiles w !! r) as [rp|] eqn:Hr;
      [|left; apply ledger_quiet_ensure].
    destruct (user_profiles w !! uid) as [up|] eqn:Hu;
      [left; apply ledger_quiet_ensure|].
    right. exists uid, r. cbn [after returns].
    erewrite ensure_profile_stored;
      [|unfold store_profile; cbn; apply lookup_insert_eq].
    split; [done|]. split; [done|].
    by eexists rp, _, _.
  - left. destruct (mine_run_after d env uid w) as [->|[->|(level & ->)]].
    + apply ledger_quiet_refl.
    + apply ledger_quiet_ensure.
    + eapply ledger_quiet_trans; [apply ledger_quiet_ensure|].
      apply ledger_quiet_store; rewrite profile_of_ensure;
        apply left_by_referral.
  - left. unfold task_handler.
    destruct (tasks w !! task); [|apply ledger_quiet_refl].
    case_bool_decide; [apply ledger_quiet_refl|apply ledger_quiet_ensure].
  - left. unfold verify_task.
    destruct (tasks w !! task); [|apply ledger_quiet_refl].
    case_bool_decide; [apply ledger_quiet_refl|].
    destruct (_ && _); [apply ledger_quiet_refl|].
    cbn [after returns].
    apply ledger_quiet_set_tasks.
    destruct (user_profiles w !! uid); [|apply ledger_quiet_refl].
    by apply ledger_quiet_store.
  - left. unfold successful_payment_callback.
    destruct plan as [k|]; [|apply ledger_quiet_refl]. cbv zeta.
    set (w1 := ensure_profile uid w).
    set (w2 := store_profile uid _ w1).
    assert (H2 : ledger_quiet w w2).
    { eapply ledger_quiet_trans; [apply ledger_quiet_ensure|].
      by apply ledger_quiet_store. }
    destruct (referred_by _) as [r|]; [|exact H2].
    case_bool_decide; [|exact H2].
    destruct (user_profiles w2 !! r) as [rp|] eqn:Hr; [|exact H2].
    cbn [after returns].
    eapply ledger_quiet_trans; [exact H2|].
    apply ledger_quiet_store; by rewrite (profile_of_stored _ _ _ Hr).
  - left. unfold suspend_user. repeat case_match; by apply ledger_quiet_same.
  - left. unfold unsuspend_user.
    repeat case_match; by apply ledger_quiet_same.
  - left. unfold add_task. repeat case_match; by apply ledger_quiet_same.
  - left. unfold remove_task. repeat case_match; by apply ledger_quiet_same.
Qed.

Lemma ledger_quiet_ids w w' r :
  ledger_quiet w w' -> referred_ids w' r = referred_ids w r.
Proof.
  intros Hq. apply set_eq. intros u. rewrite !elem_of_referred_ids.
  specialize (Hq u).
  destruct (user_profiles w !! u) as [p|], (user_profiles w' !! u) as [p'|];
    try done.
  - destruct Hq as (Er & _). split; intros (q & [= <-] & Hq).
    + exists p. split; [done|congruence].
    + exists p'. split; [done|congruence].
  - destruct Hq as (Er & _). split; intros (q & [= <-] & Hq); congruence.
Qed.

Lemma ledger_ok_quiet w w' : ledger_quiet w w' -> ledger_ok w -> ledger_ok w'.
Proof.
  intros Hq (Href & Hcount). split.
  - intros u p' r Hp' Hr. pose proof (Hq u) as Hu. rewrite Hp' in Hu.
    destruct (user_profiles w !! u) as [p|] eqn:Hp.
    + destruct Hu as (Er & _). rewrite Er in Hr.
      destruct (Href _ _ _ Hp Hr) as (Hne & (rp & Hrp)). split; [done|].
      specialize (Hq r). rewrite Hrp in Hq.
      by destruct (user_profiles w' !! r).
    + destruct Hu as (Er & _). congruence.
  - intros r p' Hp'. rewrite (ledger_quiet_ids _ _ r Hq).
    pose proof (Hq r) as Hu. rewrite Hp' in Hu.
    destruct (user_profiles w !! r) as [p|] eqn:Hp.
    + destruct Hu as (_ & ->). by apply Hcount.
    + destruct Hu as (_ & ->).
      assert (E : referred_ids w r = ∅).
      { apply set_eq. intros u. rewrite elem_of_referred_ids. split.
        - intros (q & Hq' & Hr). destruct (Href _ _ _ Hq' Hr) as (_ & (? & ?)).
          congruence.
        - set_solver. }
      by rewrite E, size_empty.
Qed.

Lemma ledger_attributes_ids uid r w w' r0 :
  ledger_attributes uid r w w' ->
  referred_ids w' r0 =
    if decide (r0 = r) then {[uid]} ∪ referred_ids w r0
    else referred_ids w r0.
Proof.
  intros (Hne & Hnew & rp & rp' & newp & Hrp & E & Hnr & Hnc & Hrr & Hrc).
  apply set_eq. intros u.
  assert (Hu : u ∈ referred_ids w' r0 <->
               (u = uid /\ r0 = r) \/ u ∈ referred_ids w r0).
  { rewrite !elem_of_referred_ids, E.
    destruct (decide (u = uid)) as [->|Hu1].
    - rewrite lookup_insert_eq, Hnew. split.
      + intros (q & [= <-] & Hq). left. split; [done|congruence].
      + intros [(_ & ->)|(q & [=] & _)]. by exists newp.
    - rewrite lookup_insert_ne by done.
      destruct (decide (u = r)) as [->|Hu2].
      + rewrite lookup_insert_eq, Hrp. split.
        * intros (q & [= <-] & Hq). right. exists rp.
          split; [done|congruence].
        * intros [(? & _)|(q & [= <-] & Hq)]; [done|].
          exists rp'. split; [done|congruence].
      + rewrite lookup_insert_ne by done. naive_solver. }
  rewrite Hu. case_decide; set_solver.
Qed.

Lemma ledger_ok_attributes uid r w w' :
  ledger_attributes uid r w w' -> ledger_ok w -> ledger_ok w'.
Proof.
  intros Hatt (Href & Hcount).
  pose proof (ledger_attributes_ids uid r w w') as Hids.
  destruct Hatt as (Hne & Hnew & rp & rp' & newp & Hrp & E & Hnr & Hnc
                    & Hrr & Hrc).
  assert (Hatt : ledger_attributes uid r w w')
    by (split; [done|]; split; [done|]; by exists rp, rp', newp).
  assert (Hstored : forall u, is_Some (user_profiles w !! u) ->
                              is_Some (user_profiles w' !! u)).
  { intros u (q & Hq). rewrite E.
    destruct (decide (u = uid)) as [->|?]; [congruence|].
    rewrite lookup_insert_ne by done.
    destruct (decide (u = r)) as [->|?];
      [rewrite lookup_insert_eq|rewrite lookup_insert_ne by done];
      by eexists. }
  assert (Hnone : referred_ids w uid = ∅).
  { apply set_eq. intros u. rewrite elem_of_referred_ids. split.
    - intros (q & Hq & Hr). destruct (Href _ _ _ Hq Hr) as (_ & (? & ?)).
      congruence.
    - set_solver. }
  split.
  - intros u p' r0 Hp' Hr0. rewrite E in Hp'.
    destruct (decide (u = uid)) as [->|Hu1].
    + rewrite lookup_insert_eq in Hp'. injection Hp' as <-.
      assert (r0 = r) as -> by congruence.
      split; [done|]. apply Hstored. by eexists.
    + rewrite lookup_insert_ne in Hp' by done.
      destruct (decide (u = r)) as [->|Hu2].
      * rewrite lookup_insert_eq in Hp'. injection Hp' as <-.
        rewrite Hrr in Hr0.
        destruct (Href _ _ _ Hrp Hr0) as (? & ?). split; [done|].
        by apply Hstored.
      * rewrite lookup_insert_ne in Hp' by done.
        destruct (Href _ _ _ Hp' Hr0) as (? & ?). split; [done|].
        by apply Hstored.
  - intros r0 p' Hp'. rewrite (Hids r0 Hatt). rewrite E in Hp'.
    destruct (decide (r0 = uid)) as [->|H1].
    + rewrite lookup_insert_eq in Hp'. injection Hp' as <-.
      destruct (decide (uid = r)); [congruence|].
      by rewrite Hnone, size_empty.
    + rewrite lookup_insert_ne in Hp' by done.
      destruct (decide (r0 = r)) as [->|H2].
      * rewrite lookup_insert_eq in Hp'. injection Hp' as <-.
        destruct (decide (r = r)); [|done].
        rewrite size_union, size_singleton.
        -- rewrite Hrc, (Hcount _ _ Hrp). lia.
        -- apply disjoint_singleton_l. rewrite elem_of_referred_ids.
           intros (q & Hq & _). congruence.
      * rewrite lookup_insert_ne in Hp' by done.
        destruct (decide (r0 = r)); [done|]. by apply Hcount.
Qed.

Lemma reachable_ledger_ok w : reachable w -> ledger_ok w.
Proof.
  intros (rr & Hrun).
  refine (rtc_ind_r (R := step) ledger_ok (initial_world rr) _ _ w Hrun).
  - split.
    + intros u p r. cbn. by rewrite lookup_empty.
    + intros r p. cbn. by rewrite lookup_empty.
  - intros w1 w2 _ Hstep IH.
    destruct (step_ledger _ _ Hstep) as [Hq|(uid & r & Hatt)].
    + by eapply ledger_ok_quiet.
    + by eapply ledger_ok_attributes.
Qed.

(** X10: the referral ledger is consistent in every reachable state: a
    profile's referrer is another user who has a stored profile, and the
    referral count of every stored profile equals the number of stored
    profiles that name it as referrer. *)
Theorem referral_counts_match w r p :
  reachable w -> user_profiles w !! r = Some p ->
  referral_count p = Z.of_nat (size (referred_ids w r)) /\
  (forall u, referred_by p = Some u ->
             u <> r /\ is_Some (user_profiles w !! u)).
Proof.
  intros Hw Hp. destruct (reachable_ledger_ok w Hw) as (Href & Hcount).
  split; [by apply Hcount|]. intros u Hu. by eapply Href.
Qed.

Lemma bob_referred_reachable : reachable Sample4.bob_referred.
Proof.
  destruct signed_up_reachable as (rr & Hrun).
  exists rr. eapply rtc_r; [exact Hrun|apply step_start].
Qed.

(** Alice referred Bob: Alice's count is 1, the size of the set of
    users Alice referred. *)
Lemma referral_counts_match_witness :
  referral_count (profile_of Sample4.bob_referred Sample.alice) = 1 /\
  size (referred_ids Sample4.bob_referred Sample.alice) = 1%nat.
Proof.
  destruct (referral_counts_match Sample4.bob_referred Sample.alice
              (profile_of Sample4.bob_referred Sample.alice)
              bob_referred_reachable ltac:(vm_compute; reflexivity))
    as (Hcount & _).
  assert (E : referral_count (profile_of Sample4.bob_referred Sample.alice)
              = 1) by (vm_compute; reflexivity).
  split; [exact E|]. rewrite E in Hcount. lia.
Defined.

(** ** Admin roles *)

Lemma is_admin_owner a uid :
  Admin.is_admin a uid 3 = true <->
  exists adm, a !! uid = Some adm /\ Admin.role adm = Admin.owner.
Proof.
  unfold Admin.is_admin, Admin.get_admin_level.
  destruct (a !! uid) as [adm|].
  - destruct (Admin.role adm) eqn:E; cbn; split; try done.
    + intros _. by exists adm.
    + intros (? & [= <-] & ?). congruence.
    + intros (? & [= <-] & ?). congruence.
  - cbn. split; [done|]. by intros (? & ? & _).
Qed.

Lemma is_admin_member a uid :
  Admin.is_admin a uid 1 = true <-> is_Some (a !! uid).
Proof.
  unfold Admin.is_admin, Admin.get_admin_level.
  destruct (a !! uid) as [adm|].
  - split; [by eexists|]. intros _. by destruct (Admin.role adm).
  - cbn. split; [done|]. by intros (? & ?).
Qed.

(** Only the configured owner holds level 3, and the configured owner is
    in the store. *)
Definition owner_inv (o : Z) (a : gmap Z Admin.AdminUser) : Prop :=
  (forall uid, Admin.is_admin a uid 3 = true -> uid = o /\ o <> 0) /\
  (o <> 0 -> is_Some (a !! o)).

Lemma owner_inv_initial o t : owner_inv o (Admin.initial o t).
Proof.
  unfold Admin.initial. case_bool_decide as Ho.
  - split.
    + intros uid (adm & Hadm & _)%is_admin_owner.
      apply lookup_singleton_Some in Hadm as (-> & _). done.
    + intros _. rewrite lookup_singleton_eq. by eexists.
  - split; [|done].
    intros uid (adm & Hadm & _)%is_admin_owner.
    by rewrite lookup_empty in Hadm.
Qed.

Lemma owner_inv_step o a a' :
  Admin.step a a' -> owner_inv o a -> owner_inv o a'.
Proof.
  intros Hstep (Honly & Hin).
  destruct Hstep as [caller args now a|caller target a].
  - unfold Admin.add_admin.
    destruct (Admin.is_admin a caller 3) eqn:Hc; cbn [negb]; [|done].
    destruct args as [[[target|] [r|]]|]; try done.
    assert (Hins : forall r', r' <> Admin.owner ->
              owner_inv o
                (<[target := {| Admin.user_id := target; Admin.role := r';
                                Admin.added_by := Some caller;
                                Admin.added_at := now |}]> a)).
    { intros r' Hr'. split.
      - intros uid (adm & Hadm & Hrole)%is_admin_owner.
        rewrite lookup_insert in Hadm. case_decide as E.
        + injection Hadm as <-. done.
        + apply Honly, is_admin_owner. by exists adm.
      - intros Ho. rewrite lookup_insert. case_decide; [by eexists|auto]. }
    destruct r; cbn [Admin.admins_after Admin.done]; [done|by apply Hins..].
  - unfold Admin.remove_admin.
    destruct (Admin.is_admin a caller 3) eqn:Hc; cbn [negb]; [|done].
    destruct target as [[target|]|]; try done.
    destruct (a !! target) as [adm|] eqn:Ht; [|done].
    assert (Hdel : Admin.role adm <> Admin.owner ->
                   owner_inv o (delete target a)).
    { intros Hrole.
      destruct (Honly _ Hc) as (-> & Ho).
      apply is_admin_owner in Hc as (own & Hown & Hown_role).
      split.
      - intros uid (adm' & Hadm' & Hrole')%is_admin_owner.
        apply lookup_delete_Some in Hadm' as (_ & Hadm').
        apply Honly, is_admin_owner. by exists adm'.
      - intros _. rewrite lookup_delete. case_decide as E.
        + subst target. congruence.
        + by eexists. }
    destruct (Admin.role adm) eqn:Hrole;
      cbn [Admin.admins_after Admin.done]; [done|by apply Hdel..].
Qed.

(** Without a level-3 user the two commands that write the store refuse
    every call. *)
Lemma step_without_owner a a' :
  (forall uid, Admin.is_admin a uid 3 = false) -> Admin.step a a' -> a' = a.
Proof.
  intros Hnone Hstep.
  destruct Hstep as [caller args now a|caller target a].
  - unfold Admin.add_admin. by rewrite Hnone.
  - unfold Admin.remove_admin. by rewrite Hnone.
Qed.

Lemma run_without_owner a a' :
  (forall uid, Admin.is_admin a uid 3 = false) ->
  rtc Admin.step a a' -> a' = a.
Proof.
  intros Hnone Hrun.
  refine (rtc_ind_r (R := Admin.step) (fun x => x = a) a _ _ a' Hrun);
    [done|].
  intros a1 a2 _ Hstep ->. by apply step_without_owner.
Qed.

(** *** Runs of the program with its admins *)

Lemma bot_step_admins b b' :
  bot_step b b' ->
  admin_users b' = admin_users b \/ Admin.step (admin_users b) (admin_users b').
Proof.
  intros []; cbn; try (by left); right; constructor.
Qed.

Lemma bot_step_core b b' :
  bot_step b b' -> core b' = core b \/ step (core b) (core b').
Proof.
  intros []; cbn; try (by left); right; by constructor.
Qed.

Lemma bot_run_admins b b' :
  rtc bot_step b b' -> rtc Admin.step (admin_users b) (admin_users b').
Proof.
  intros Hrun.
  refine (rtc_ind_r (R := bot_step)
            (fun x => rtc Admin.step (admin_users b) (admin_users x))
            b _ _ b' Hrun); [done|].
  intros b1 b2 _ Hstep IH.
  destruct (bot_step_admins _ _ Hstep) as [->|H]; [done|by eapply rtc_r].
Qed.

Lemma bot_run_core b b' :
  rtc bot_step b b' -> rtc step (core b) (core b').
Proof.
  intros Hrun.
  refine (rtc_ind_r (R := bot_step)
            (fun x => rtc step (core b) (core x)) b _ _ b' Hrun); [done|].
  intros b1 b2 _ Hstep IH.
  destruct (bot_step_core _ _ Hstep) as [->|H]; [done|by eapply rtc_r].
Qed.

Lemma bot_run_owner_inv o t rr b :
  rtc bot_step (bot_initial o t rr) b -> owner_inv o (admin_users b).
Proof.
  intros Hrun%bot_run_admins. cbn in Hrun.
  refine (rtc_ind_r (R := Admin.step) (owner_inv o) (Admin.initial o t)
            _ _ _ Hrun); [apply owner_inv_initial|].
  intros a1 a2 _ Hstep IH. by eapply owner_inv_step.
Qed.

Lemma bob_admin_run : rtc bot_step Sample5.opened Sample5.bob_admin.
Proof. apply rtc_once. apply bot_add_admin. Qed.

Lemma alice_moderator_run :
  rtc bot_step Sample5.opened Sample5.alice_moderator.
Proof.
  eapply rtc_r; [exact bob_admin_run|]. apply bot_add_admin.
Qed.

Lemma unowned_busy_run : rtc bot_step Sample5.unowned Sample5.unowned_busy.
Proof.
  eapply rtc_l; [apply (bot_start Sample5.carol None)|].
  apply rtc_once.
  exact (bot_add_task Sample.bob (Some Sample.survey)
           {| admin_users := admin_users Sample5.unowned;
              core := after (start Sample5.carol None
                               (core Sample5.unowned)) |}).
Qed.

(** X11: however the program is run from the state [main] starts it in,
    a user who passes the level-3 check is the owner configured in the
    environment, and an owner was configured: [add_admin] never grants
    the owner role and no other command writes the admin store. *)
Theorem only_configured_owner o t rr b uid :
  rtc bot_step (bot_initial o t rr) b ->
  Admin.is_admin (admin_users b) uid 3 = true ->
  uid = o /\ o <> 0.
Proof.
  intros Hrun Hlevel.
  destruct (bot_run_owner_inv _ _ _ _ Hrun) as (Honly & _). by apply Honly.
Qed.

Lemma only_configured_owner_witness :
  Sample.alice = Sample.alice /\ Sample.alice <> 0.
Proof.
  apply (only_configured_owner Sample.alice 0 50 Sample5.bob_admin
           Sample.alice bob_admin_run).
  vm_compute. reflexivity.
Defined.

(** X12: a configured owner passes the level-1 check in every state the
    program reaches: [remove_admin] refuses to delete an owner, and once
    the owner has given themself a lower role nobody is left to delete
    them. *)
Theorem owner_stays_admin o t rr b :
  o <> 0 ->
  rtc bot_step (bot_initial o t rr) b ->
  Admin.is_admin (admin_users b) o 1 = true.
Proof.
  intros Ho Hrun.
  destruct (bot_run_owner_inv _ _ _ _ Hrun) as (_ & Hin).
  by apply is_admin_member, Hin.
Qed.

Lemma owner_stays_admin_witness :
  Admin.is_admin (admin_users Sample5.alice_moderator) Sample.alice 1 = true.
Proof.
  apply (owner_stays_admin Sample.alice 0 50 Sample5.alice_moderator).
  - discriminate.
  - exact alice_moderator_run.
Defined.

(** X13: an owner who appoints themself admin or moderator with
    [/add_admin] overwrites their own owner entry; from then on nobody
    passes the level-3 check and the admin store never changes again,
    whatever commands follow. *)
Theorem self_demotion_is_final o t rr b r now b' :
  rtc bot_step (bot_initial o t rr) b ->
  Admin.is_admin (admin_users b) o 3 = true ->
  r <> Admin.owner ->
  rtc bot_step (demote_self o r now b) b' ->
  Admin.get_admin_level (admin_users (demote_self o r now b)) o
    = Admin.level r /\
  (forall uid, Admin.is_admin (admin_users b') uid 3 = false) /\
  admin_users b' = admin_users (demote_self o r now b).
Proof.
  intros Hrun Howner Hr Hlater.
  destruct (bot_run_owner_inv _ _ _ _ Hrun) as (Honly & _).
  assert (E : admin_users (demote_self o r now b)
              = <[o := {| Admin.user_id := o; Admin.role := r;
                          Admin.added_by := Some o;
                          Admin.added_at := now |}]> (admin_users b)).
  { unfold demote_self, Admin.add_admin. cbn. rewrite Howner. cbn.
    by destruct r. }
  assert (Hnone : forall uid,
            Admin.is_admin (admin_users (demote_self o r now b)) uid 3
            = false).
  { intros uid. apply not_true_is_false.
    intros (adm & Hadm & Hrole)%is_admin_owner.
    rewrite E, lookup_insert in Hadm. case_decide as Eo.
    - injection Hadm as <-. done.
    - destruct (Honly uid) as (? & _); [|done].
      apply is_admin_owner. by exists adm. }
  pose proof (run_without_owner _ _ Hnone (bot_run_admins _ _ Hlater)) as Efix.
  split; [|split].
  - rewrite E. unfold Admin.get_admin_level. by rewrite lookup_insert_eq.
  - intros uid. by rewrite Efix.
  - exact Efix.
Qed.

Lemma self_demotion_is_final_witness :
  Admin.get_admin_level (admin_users Sample5.alice_moderator) Sample.alice
    = 1 /\
  (forall uid,
     Admin.is_admin (admin_users Sample5.alice_moderator) uid 3 = false) /\
  admin_users Sample5.alice_moderator = admin_users Sample5.alice_moderator.
Proof.
  apply (self_demotion_is_final Sample.alice 0 50 Sample5.bob_admin
           Admin.moderator 2 Sample5.alice_moderator bob_admin_run).
  - vm_compute. reflexivity.
  - discriminate.
  - apply rtc_refl.
Defined.

Lemma bot_core_reachable o t rr b :
  rtc bot_step (bot_initial o t rr) b -> reachable (core b).
Proof. intros Hrun%bot_run_core. by exists rr. Qed.

Lemma unowned_admins t rr b :
  rtc bot_step (bot_initial 0 t rr) b -> admin_users b = ∅.
Proof.
  intros Hrun%bot_run_admins.
  apply (run_without_owner (Admin.initial 0 t)); [|done].
  intros uid. apply not_true_is_false.
  intros (adm & Hadm & _)%is_admin_owner.
  unfold Admin.initial in Hadm. case_bool_decide; [done|].
  by rewrite lookup_empty in Hadm.
Qed.

(** X14: when the configured owner id is 0 the admin store stays empty,
    so every admin command is refused for good: in every state the
    program reaches nobody is suspended, no task exists and the next task
    identifier is still 1. *)
Theorem unowned_bot_is_never_administered t rr b :
  rtc bot_step (bot_initial 0 t rr) b ->
  admin_users b = ∅ /\
  suspended_users (core b) = ∅ /\
  tasks (core b) = ∅ /\
  next_task_id (core b) = 1.
Proof.
  intros Hrun.
  refine (rtc_ind_r (R := bot_step)
            (fun b => rtc bot_step (bot_initial 0 t rr) b ->
                      admin_users b = ∅ /\ suspended_users (core b) = ∅ /\
                      tasks (core b) = ∅ /\ next_task_id (core b) = 1)
            (bot_initial 0 t rr) _ _ b Hrun Hrun); [done|].
  clear b Hrun. intros b b' Hrun Hstep IH Hrun'.
  split; [by eapply unowned_admins|].
  destruct (IH Hrun) as (Ea & Es & Et & En).
  assert (Hsame : forall w', same_admin_stores (core b) w' ->
            suspended_users w' = ∅ /\ tasks w' = ∅ /\ next_task_id w' = 1).
  { intros w' (-> & -> & ->). done. }
  destruct Hstep; cbn [core admin_users] in *.
  - apply Hsame, start_same_admin_stores.
  - apply Hsame, mine_same_admin_stores.
  - apply Hsame, task_handler_same_admin_stores.
  - apply Hsame. unfold verify_task. rewrite Et, lookup_empty. done.
  - apply Hsame, payment_same_admin_stores.
  - rewrite Ea. done.
  - rewrite Ea. done.
  - rewrite Ea. done.
  - rewrite Ea. done.
  - done.
  - done.
Qed.

Lemma unowned_bot_is_never_administered_witness :
  admin_users Sample5.unowned_busy = ∅ /\
  suspended_users (core Sample5.unowned_busy) = ∅ /\
  tasks (core Sample5.unowned_busy) = ∅ /\
  next_task_id (core Sample5.unowned_busy) = 1.
Proof.
  exact (unowned_bot_is_never_administered 0 50 Sample5.unowned_busy
           unowned_busy_run).
Defined.

(** ** Bot detection *)

Lemma filter_length_le {A} (f : A -> bool) (l : list A) :
  (length (List.filter f l) <= length l)%nat.
Proof. induction l as [|x l IH]; cbn; [done|]. destruct (f x); cbn; lia. Qed.


Lemma actions_of_insert uid uid' l (log : gmap Z (list float)) :
  actions_of (<[uid := l]> log) uid'
  = if decide (uid = uid') then l else actions_of log uid'.
Proof.
  unfold actions_of. rewrite lookup_insert. by case_decide.
Qed.

Lemma log_after_length thr events log uid :
  Z.of_nat (length (actions_of (log_after thr events log) uid))
  <= Z.of_nat (length (actions_of log uid)) + records_of uid events.
Proof.
  revert log. induction events as [|e events IH]; intros log.
  - cbn. unfold records_of. cbn. lia.
  - change (log_after thr (e :: events) log)
      with (log_after thr events
              match e with
              | recorded_at uid now => record_user_action now uid log
              | checked_at uid now => (check_bot_behavior thr now uid log).2
              end).
    etrans; [apply IH|].
    unfold records_of. destruct e as [u t|u t]; cbn [List.filter].
    + unfold record_user_action. rewrite actions_of_insert.
      case_bool_decide as E; case_decide; try done; try subst u;
        rewrite ?length_app; cbn [length]; lia.
    + unfold check_bot_behavior. cbn [snd]. rewrite actions_of_insert.
      case_decide; [|lia]. subst u.
      pose proof (filter_length_le (fun t0 => (t - t0 <? 60)%float)
                    (actions_of log uid)).
      lia.
Qed.

(** X15: starting from the empty log, a check flags a user only if the
    events before it recorded at least [SUSPICIOUS_THRESHOLD] actions of
    that user, and the count it reports never exceeds the number of
    recorded actions: pruning only drops entries, and checks of other
    users never add any. *)
Theorem flagged_users_were_active thr events uid now :
  let verdict :=
    (check_bot_behavior thr now uid (log_after thr events ∅)).1 in
  verdict.2 <= records_of uid events /\
  (verdict.1 = true -> thr <= records_of uid events).
Proof.
  cbv zeta. unfold check_bot_behavior. cbn [fst snd].
  pose proof (log_after_length thr events ∅ uid) as Hlen.
  pose proof (filter_length_le (fun t => (now - t <? 60)%float)
                (actions_of (log_after thr events ∅) uid)) as Hkept.
  change (actions_of ∅ uid) with (@nil float) in Hlen. cbn [length] in Hlen.
  split; [lia|]. intros H%Z.leb_le. lia.
Qed.


(** ** Durations as text *)

Lemma td_seconds_range td : 0 <= td_seconds td < 86400.
Proof.
  unfold td_seconds, timedelta_days, us_per_second.
  pose proof (Z.mod_pos_bound td (1 * 24 * 3600 * 1000000) ltac:(lia)).
  split; [apply Z.div_pos; lia|].
  apply Z.div_lt_upper_bound; lia.
Qed.

(** X17: the text of [format_time_remaining] splits the seconds into
    hours, minutes and seconds that add up to the input, with minutes and
    seconds below 60; for a duration of less than a day, as in the
    cooldown reply, the hours are below 24. *)
Theorem format_time_remaining_parts seconds :
  exists h m s,
    format_time_remaining seconds
    = pretty h +:+ "h " +:+ pretty m +:+ "m " +:+ pretty s +:+ "s" /\
    seconds = 3600 * h + 60 * m + s /\
    0 <= m < 60 /\ 0 <= s < 60 /\
    ((0 <= seconds < 86400) <-> (0 <= h < 24)).
Proof.
  exists (seconds / 3600), (seconds `mod` 3600 / 60),
    (seconds `mod` 3600 `mod` 60).
  split; [done|].
  pose proof (Z.div_mod seconds 3600 ltac:(lia)).
  pose proof (Z.mod_pos_bound seconds 3600 ltac:(lia)).
  pose proof (Z.div_mod (seconds `mod` 3600) 60 ltac:(lia)).
  pose proof (Z.mod_pos_bound (seconds `mod` 3600) 60 ltac:(lia)).
  repeat split; lia.
Qed.

Lemma pretty_N_go_numeral x s :
  numeral s = true -> numeral (pretty_N_go x s) = true.
Proof.
  revert s. induction (N.lt_wf_0 x) as [x _ IH]; intros s Hs.
  assert (x = 0 \/ 0 < x)%N as [->|Hx] by lia.
  - by rewrite pretty_N_go_0.
  - rewrite pretty_N_go_step by done. apply IH.
    { by apply N.div_lt. }
    cbn [numeral]. rewrite Hs, andb_true_r.
    unfold pretty_N_char. by repeat case_match.
Qed.

Lemma pretty_Z_numeral (z : Z) : numeral (pretty z) = true.
Proof.
  assert (HN : forall n : N, numeral (pretty n) = true).
  { intros n. unfold pretty, pretty_N. case_decide; [done|].
    by apply pretty_N_go_numeral. }
  unfold pretty, pretty_Z. destruct z as [|q|q]; [done|apply HN|].
  cbn [String.append numeral]. apply andb_true_iff.
  split; [done|apply (HN (N.pos q))].
Qed.

(** Two numerals followed by the same letter: the letter ends each. *)
Lemma numeral_split a b c x y :
  numeral a = true -> numeral b = true -> numeral_char c = false ->
  a +:+ String c x = b +:+ String c y -> a = b /\ x = y.
Proof.
  intros Ha Hb Hc. revert b Hb.
  induction a as [|d a IH]; intros [|e b] Hb; cbn [String.append];
    intros E.
  - by injection E.
  - injection E as -> _. cbn in Hb. apply andb_true_iff in Hb as (Hb & _).
    congruence.
  - injection E as -> _. cbn in Ha. apply andb_true_iff in Ha as (Ha & _).
    congruence.
  - injection E as -> E.
    cbn in Ha, Hb.
    apply andb_true_iff in Ha as (_ & Ha).
    apply andb_true_iff in Hb as (_ & Hb).
    destruct (IH Ha b Hb E) as (-> & ->). done.
Qed.

(** X18: the text of [format_time_remaining] determines the number of
    seconds: two durations with the same text are equal. *)
Theorem format_time_remaining_inj a b :
  format_time_remaining a = format_time_remaining b -> a = b.
Proof.
  unfold format_time_remaining. cbv zeta. intros E.
  apply numeral_split in E as (Eh & E);
    [|apply pretty_Z_numeral..|done].
  injection E as E.
  apply numeral_split in E as (Em & E);
    [|apply pretty_Z_numeral..|done].
  injection E as E.
  apply numeral_split in E as (Es & _);
    [|apply pretty_Z_numeral..|done].
  apply (inj pretty) in Eh, Em, Es.
  pose proof (Z.div_mod a 3600 ltac:(lia)).
  pose proof (Z.div_mod b 3600 ltac:(lia)).
  pose proof (Z.div_mod (a `mod` 3600) 60 ltac:(lia)).
  pose proof (Z.div_mod (b `mod` 3600) 60 ltac:(lia)).
  lia.
Qed.

Lemma format_time_remaining_inj_witness : 3725 = 3725.
Proof.
  apply (format_time_remaining_inj 3725 3725). vm_compute. reflexivity.
Defined.

(** *** The time left on a plan *)

Lemma remaining_parts r :
  let h := td_seconds r / 3600 in
  let m := td_seconds r `mod` 3600 / 60 in
  0 <= h < 24 /\ 0 <= m < 60 /\
  (days r * 86400 + h * 3600 + m * 60) * us_per_second <= r
  /\ r < (days r * 86400 + h * 3600 + m * 60 + 60) * us_per_second.
Proof.
  cbv zeta.
  pose proof (td_seconds_range r) as Hs.
  revert Hs. unfold td_seconds, days, timedelta_days, us_per_second.
  change (1 * 24 * 3600 * 1000000) with 86400000000.
  intros Hs.
  pose proof (Z.div_mod r 86400000000 ltac:(lia)).
  pose proof (Z.mod_pos_bound r 86400000000 ltac:(lia)).
  set (rest := r `mod` 86400000000) in *.
  pose proof (Z.div_mod rest 1000000 ltac:(lia)).
  pose proof (Z.mod_pos_bound rest 1000000 ltac:(lia)).
  set (s := rest / 1000000) in *.
  pose proof (Z.div_mod s 3600 ltac:(lia)).
  pose proof (Z.mod_pos_bound s 3600 ltac:(lia)).
  pose proof (Z.div_mod (s `mod` 3600) 60 ltac:(lia)).
  pose proof (Z.mod_pos_bound (s `mod` 3600) 60 ltac:(lia)).
  repeat split; lia.
Qed.

(** X19: right after a payment at [now], [energy_status] run with its
    clock readings inside the thirty days reports the plan bought, its
    daily limit and a time left of between 0 and 30 days, below 24 hours
    and below 60 minutes, which is the time to the expiry rounded down to
    the minute. *)
Theorem energy_status_after_payment uid k now w clock :
  clock_within now (now + timedelta_days 30) clock ->
  let w' := after (successful_payment_callback uid (Some k) now w) in
  let left := now + timedelta_days 30 - at_remaining clock in
  exists d h m,
    energy_status clock uid w'
    = StatusReport (name (ENERGY_PLANS k)) (daily_limit (ENERGY_PLANS k))
        (pretty d +:+ "d " +:+ pretty h +:+ "h " +:+ pretty m +:+ "m") /\
    0 <= d <= 30 /\ 0 <= h < 24 /\ 0 <= m < 60 /\
    (d * 86400 + h * 3600 + m * 60) * us_per_second <= left /\
    left < (d * 86400 + h * 3600 + m * 60 + 60) * us_per_second.
Proof.
  intros (H1 & H2 & H3 & H4 & H5 & H6) w' left.
  destruct (payment_buyer uid k now w) as (v & Hp' & _ & Hstored).
  fold w' in Hp', Hstored.
  exists (days left), (td_seconds left / 3600),
    (td_seconds left `mod` 3600 / 60).
  destruct (remaining_parts left) as (Hh & Hm & Hlo & Hhi).
  split; [|split; [|done]].
  - unfold energy_status. rewrite Hstored, Hp'.
    unfold get_plan_name, get_daily_limit, get_remaining_time,
      has_active_plan.
    cbn [set_balance set_energy energy_plan energy_expires].
    rewrite !(proj2 (Z.ltb_lt _ _)) by lia. done.
  - revert Hh Hm Hlo Hhi.
    generalize (days left) (td_seconds left / 3600)
      (td_seconds left `mod` 3600 / 60).
    subst left. unfold timedelta_days, us_per_second in *. lia.
Qed.

Lemma energy_status_after_payment_witness :
  let left :=
    Sample.day 1 + timedelta_days 30 - at_remaining (instant (Sample.day 1))
  in
  exists d h m,
    energy_status (instant (Sample.day 1)) Sample.alice Sample.subscribed
    = StatusReport (name (ENERGY_PLANS plan_max))
        (daily_limit (ENERGY_PLANS plan_max))
        (pretty d +:+ "d " +:+ pretty h +:+ "h " +:+ pretty m +:+ "m") /\
    0 <= d <= 30 /\ 0 <= h < 24 /\ 0 <= m < 60 /\
    (d * 86400 + h * 3600 + m * 60) * us_per_second <= left /\
    left < (d * 86400 + h * 3600 + m * 60 + 60) * us_per_second.
Proof.
  apply (energy_status_after_payment Sample.alice plan_max (Sample.day 1)
           Sample.signed_up (instant (Sample.day 1))).
  unfold clock_within, instant, Sample.day, timedelta_days, us_per_second.
  cbn [at_status at_plan_name at_daily_limit at_remaining_check
       at_remaining].
  lia.
Defined.

(** X20: a plan that runs out between the two clock readings of
    [get_remaining_time] is reported with a negative number of days: up
    to a minute after the expiry the text is [-1d 23h 59m], while at the
    expiry itself it is [0d 0h 0m]. *)
Theorem remaining_time_past_expiry p k expires checked now :
  energy_plan p = Some k ->
  energy_expires p = Some expires ->
  checked < expires ->
  expires < now < expires + 60 * us_per_second ->
  get_remaining_time p checked now = "-1d 23h 59m" /\
  get_remaining_time p checked expires = "0d 0h 0m".
Proof.
  intros Hk He Hc Hnow.
  assert (Hactive : has_active_plan p checked = true).
  { unfold has_active_plan. rewrite Hk, He. by apply Z.ltb_lt. }
  unfold get_remaining_time. rewrite Hactive, He. cbv zeta.
  split.
  - destruct (remaining_parts (expires - now)) as (Hh & Hm & Hlo & Hhi).
    revert Hnow Hlo Hhi. unfold us_per_second.
    set (d := days (expires - now)).
    set (h := td_seconds (expires - now) / 3600).
    set (m := td_seconds (expires - now) `mod` 3600 / 60).
    intros Hnow Hlo Hhi.
    assert (d = -1) as -> by lia.
    assert (h = 23) as -> by lia.
    assert (m = 59) as -> by lia.
    reflexivity.
  - replace (expires - expires) with 0 by lia. reflexivity.
Qed.

Lemma remaining_time_past_expiry_witness :
  let expires := Sample.day 10 + Sample.hour 13 in
  get_remaining_time Sample.expiring (expires - 1) (expires + 1)
  = "-1d 23h 59m" /\
  get_remaining_time Sample.expiring (expires - 1) expires = "0d 0h 0m".
Proof.
  apply (remaining_time_past_expiry Sample.expiring plan_max
           (Sample.day 10 + Sample.hour 13)).
  - reflexivity.
  - reflexivity.
  - vm_compute. reflexivity.
  - vm_compute. split; reflexivity.
Defined.

(** ** Strings *)

Lemma append_nil_l s : "" +:+ s = s.
Proof. reflexivity. Qed.

Lemma append_cons a s t : String a s +:+ t = String a (s +:+ t).
Proof. reflexivity. Qed.

Lemma append_nil_r s : s +:+ "" = s.
Proof.
  induction s as [|a s IH]; [done|]. by rewrite append_cons, IH.
Qed.

Lemma append_assoc s1 s2 s3 : (s1 +:+ s2) +:+ s3 = s1 +:+ s2 +:+ s3.
Proof.
  induction s1 as [|a s1 IH]; [done|]. by rewrite !append_cons, IH.
Qed.

Lemma append_snoc cur a s :
  (cur +:+ String a "") +:+ s = cur +:+ String a s.
Proof. by rewrite append_assoc. Qed.

Lemma occurs_append c s1 s2 :
  Str.occurs c (s1 +:+ s2) = Str.occurs c s1 || Str.occurs c s2.
Proof.
  induction s1 as [|a s1 IH]; [done|].
  rewrite append_cons. cbn [Str.occurs]. by rewrite IH, orb_assoc.
Qed.

Lemma prefix_nil s : String.prefix "" s = true.
Proof. by destruct s. Qed.

Lemma split_go_nonempty sep skip cur s : Str.split_go sep skip cur s <> [].
Proof.
  revert skip cur. induction s as [|a s IH]; intros skip cur; cbn; [done|].
  destruct skip; [|apply IH]. by case_match.
Qed.

Lemma last_item_cons x l : l <> [] -> Str.last_item (x :: l) = Str.last_item l.
Proof. by destruct l. Qed.

Lemma last_item_elem l : l <> [] -> Str.last_item l ∈ l.
Proof.
  induction l as [|x l IH]; [done|]. intros _.
  destruct l as [|y l]; [left|].
  rewrite last_item_cons by done. right. by apply IH.
Qed.

(** *** Splitting at a character *)

Lemma split_go_char c cur a s :
  Str.split_go (String c "") 0 cur (String a s)
  = if Ascii.eqb a c then cur :: Str.split_go (String c "") 0 "" s
    else Str.split_go (String c "") 0 (cur +:+ String a "") s.
Proof.
  cbn [Str.split_go String.prefix String.length Nat.sub].
  destruct (ascii_dec c a) as [->|Hne].
  - by rewrite Ascii.eqb_refl, prefix_nil.
  - destruct (Ascii.eqb_spec a c); [congruence|done].
Qed.

Lemma split_char_free c s cur :
  Str.occurs c s = false ->
  Str.split_go (String c "") 0 cur s = [cur +:+ s].
Proof.
  revert cur. induction s as [|a s IH]; intros cur; cbn [Str.occurs].
  - intros _. cbn. by rewrite append_nil_r.
  - intros (Ha & Hs)%orb_false_iff.
    rewrite split_go_char, Ha, IH by done. by rewrite append_snoc.
Qed.

Lemma split_char_app c s rest cur :
  Str.occurs c s = false ->
  Str.split_go (String c "") 0 cur (s +:+ String c rest)
  = (cur +:+ s) :: Str.split_go (String c "") 0 "" rest.
Proof.
  revert cur. induction s as [|a s IH]; intros cur; cbn [Str.occurs].
  - intros _.
    by rewrite append_nil_l, split_go_char, Ascii.eqb_refl, append_nil_r.
  - intros (Ha & Hs)%orb_false_iff.
    rewrite append_cons, split_go_char, Ha, IH by done.
    by rewrite append_snoc.
Qed.

(** The pieces hold no separator, and no character that was not there. *)
Lemma split_char_pieces c s cur piece :
  piece ∈ Str.split_go (String c "") 0 cur s ->
  (Str.occurs c cur = false -> Str.occurs c piece = false) /\
  (forall a, Str.occurs a piece = true ->
             Str.occurs a cur = true \/ Str.occurs a s = true).
Proof.
  revert cur. induction s as [|a s IH]; intros cur.
  - cbn. intros ->%list_elem_of_singleton. split; [done|]. by left.
  - rewrite split_go_char. destruct (Ascii.eqb a c) eqn:Ha.
    + intros [->|Hin]%elem_of_cons.
      * split; [done|]. by left.
      * destruct (IH _ Hin) as (H1 & H2). split; [by intros _; apply H1|].
        intros b Hb. destruct (H2 b Hb) as [?|Hs]; [done|].
        right. cbn. by rewrite Hs, orb_true_r.
    + intros Hin. destruct (IH _ Hin) as (H1 & H2). split.
      * intros Hcur. apply H1. rewrite occurs_append, Hcur. cbn.
        by rewrite Ha.
      * intros b Hb. destruct (H2 b Hb) as [Hc|Hs].
        -- rewrite occurs_append in Hc.
           apply orb_true_iff in Hc as [?|Hc]; [by left|].
           right. cbn in *. rewrite orb_false_r in Hc. by rewrite Hc.
        -- right. cbn. by rewrite Hs, orb_true_r.
Qed.

Lemma first_item_split c s :
  Str.first_item (Str.split (String c "") s) ∈ Str.split (String c "") s.
Proof.
  unfold Str.split.
  pose proof (split_go_nonempty (String c "") 0 "" s) as H.
  destruct (Str.split_go (String c "") 0 "" s); [done|left].
Qed.

(** The text after the last separator. *)
Lemma last_item_split_app c b s cur :
  Str.last_item (Str.split_go (String c "") 0 cur (b +:+ String c s))
  = Str.last_item (Str.split (String c "") s).
Proof.
  revert cur. induction b as [|a b IH]; intros cur;
    rewrite ?append_nil_l, ?append_cons, split_go_char.
  - rewrite Ascii.eqb_refl. apply last_item_cons, split_go_nonempty.
  - destruct (Ascii.eqb a c); [|apply IH].
    rewrite last_item_cons by apply split_go_nonempty. apply IH.
Qed.

(** *** Splitting at ["t.me/"] *)

Lemma prefix_cons x t a r :
  String.prefix (String x t) (String a r) = true ->
  a = x /\ String.prefix t r = true.
Proof. cbn. by destruct (ascii_dec x a) as [->|]. Qed.

(** The last piece is the whole text read, or what follows a [/]. *)
Lemma tme_last_piece rest skip cur :
  (skip <= 4)%nat ->
  String.prefix (tme_tail skip) rest = true ->
  let piece := Str.last_item (Str.split_go "t.me/" skip cur rest) in
  (exists r, rest = tme_tail skip +:+ r /\ piece = cur +:+ r) \/
  (exists b, rest = b +:+ String "/" piece).
Proof.
  cbv zeta. revert skip cur.
  induction rest as [|a rest IH]; intros skip cur Hskip Hpre.
  - destruct skip as [|[|[|[|[|?]]]]]; try done.
    left. exists "". split; [done|]. cbn. by rewrite append_nil_r.
  - destruct skip as [|n].
    + cbn [Str.split_go]. destruct (String.prefix "t.me/" _) eqn:Hm.
      * apply prefix_cons in Hm as (-> & Hm).
        rewrite last_item_cons by apply split_go_nonempty.
        change (String.length "t.me/" - 1)%nat with 4%nat.
        destruct (IH 4%nat "" ltac:(lia) Hm) as [(r & -> & Hp)|(b & E)].
        -- right. exists "t.me". by rewrite Hp.
        -- right. exists (String "t" b). by rewrite append_cons, <- E.
      * destruct (IH 0%nat (cur +:+ String a "") ltac:(lia) (prefix_nil _))
          as [(r & -> & Hp)|(b & E)].
        -- left. exists (String a r). by rewrite Hp, append_snoc.
        -- right. exists (String a b). by rewrite append_cons, <- E.
    + cbn [Str.split_go].
      assert (Hn : a = match n with
                       | 0 => "/" | 1 => "e" | 2 => "m" | _ => "."
                       end%nat%char
                   /\ String.prefix (tme_tail n) rest = true).
      { destruct n as [|[|[|[|?]]]]; try lia;
          by apply prefix_cons in Hpre. }
      destruct Hn as (Ha & Hn).
      destruct (IH n cur ltac:(lia) Hn) as [(r & -> & Hp)|(b & E)].
      * left. exists r. split; [|done]. subst a.
        by destruct n as [|[|[|[|?]]]]; try lia.
      * right. exists (String a b). by rewrite append_cons, <- E.
Qed.

Lemma tme_last_segment link :
  last_segment (Str.last_item (Str.split "t.me/" link)) = last_segment link.
Proof.
  unfold Str.split.
  destruct (tme_last_piece link 0 "" ltac:(lia) (prefix_nil _))
    as [(r & E & Hp)|(b & E)].
  - change (link = r) in E. subst r. by rewrite Hp.
  - unfold last_segment, Str.split at 2.
    rewrite E at 2. by rewrite last_item_split_app.
Qed.

(** ** The channel of a task *)

Lemma task_channel_id_eq link :
  task_channel_id link
  = Some (Str.first_item (Str.split "?" (last_segment link))).
Proof.
  unfold task_channel_id. destruct (Str.contains "t.me/" link); [|done].
  fold (last_segment (Str.last_item (Str.split "t.me/" link))).
  by rewrite tme_last_segment.
Qed.

Lemma last_segment_app pre name :
  Str.occurs "/" name = false ->
  last_segment (pre +:+ String "/" name) = name.
Proof.
  intros Hname. unfold last_segment, Str.split.
  rewrite last_item_split_app. unfold Str.split.
  by rewrite split_char_free.
Qed.

Lemma task_channel_id_segment pre name :
  Str.occurs "/" name = false ->
  Str.occurs "?" name = false ->
  task_channel_id (pre +:+ "/" +:+ name) = Some name.
Proof.
  intros Hslash Hq. rewrite task_channel_id_eq.
  change (pre +:+ "/" +:+ name) with (pre +:+ String "/" name).
  rewrite last_segment_app by done.
  unfold Str.split. by rewrite split_char_free.
Qed.

Lemma last_segment_clean link :
  let id := Str.first_item (Str.split "?" (last_segment link)) in
  Str.occurs "/" id = false /\ Str.occurs "?" id = false.
Proof.
  cbv zeta.
  pose proof (first_item_split "?" (last_segment link)) as Hfirst.
  destruct (split_char_pieces _ _ _ _ Hfirst) as (Hq & Hchars).
  split; [|by apply Hq].
  apply not_true_is_false. intros Hslash.
  destruct (Hchars _ Hslash) as [?|Hseg]; [done|].
  assert (Hlast : last_segment link ∈ Str.split "/" link)
    by apply last_item_elem, split_go_nonempty.
  destruct (split_char_pieces _ _ _ _ Hlast) as (Hs & _).
  rewrite Hs in Hseg; done.
Qed.

(** X22: the channel id [Task.__init__] extracts is always the text
    between the last [/] of the link and the first [?] after it, whether
    the link mentions [t.me/] or not (the two branches agree); it holds
    neither [/] nor [?]. *)
Theorem task_channel_id_last_segment link :
  exists id,
    task_channel_id link = Some id /\
    id = Str.first_item (Str.split "?" (last_segment link)) /\
    Str.occurs "/" id = false /\ Str.occurs "?" id = false.
Proof.
  eexists. split; [apply task_channel_id_eq|]. split; [reflexivity|].
  apply last_segment_clean.
Qed.

(** X23: for a link that ends in [/name] or in [/name?query], where
    [name] holds neither [/] nor [?] and the query no [/], the channel id
    of the task is [name]: the last path segment, which for a link to a
    message of a channel is the message number and not the channel. *)
Theorem task_channel_id_of_link pre name query :
  Str.occurs "/" name = false ->
  Str.occurs "?" name = false ->
  Str.occurs "/" query = false ->
  task_channel_id (pre +:+ "/" +:+ name) = Some name /\
  task_channel_id (pre +:+ "/" +:+ name +:+ "?" +:+ query) = Some name.
Proof.
  intros Hslash Hq Hquery.
  split; [by apply task_channel_id_segment|].
  rewrite task_channel_id_eq.
  change (pre +:+ "/" +:+ name +:+ "?" +:+ query)
    with (pre +:+ String "/" (name +:+ String "?" query)).
  rewrite last_segment_app
    by (rewrite occurs_append, Hslash; cbn; by rewrite Hquery).
  unfold Str.split. by rewrite split_char_app.
Qed.

Lemma task_channel_id_of_link_witness :
  task_channel_id ("https://t.me/megachannel" +:+ "/" +:+ "123")
  = Some "123" /\
  task_channel_id
    ("https://t.me/megachannel" +:+ "/" +:+ "123" +:+ "?" +:+ "single")
  = Some "123".
Proof.
  apply (task_channel_id_of_link "https://t.me/megachannel" "123" "single");
    reflexivity.
Defined.

(** X24: a task whose link does not mention [t.me/] and ends in a
    non-empty segment is still guarded by the membership check:
    [add_task] validates no channel and computes no channel id for its
    reply, but the stored task has the last segment as channel id, so
    [verify_task] refuses a user the membership check does not find. *)
Theorem plain_link_demands_membership pre name ttl descr shown rwd now
    uid w :
  let link := pre +:+ "/" +:+ name in
  let task := Task_init 0 ttl descr link shown rwd now in
  let w' := after (add_task true (Some task) w) in
  Str.contains "t.me/" link = false ->
  name <> "" ->
  Str.occurs "/" name = false ->
  Str.occurs "?" name = false ->
  add_task_channel_id link = None /\
  verify_task uid (next_task_id w) false w'
  = returns w' [MsgVerificationFailed].
Proof.
  intros link task w' Hplain Hname Hslash Hq.
  split; [unfold add_task_channel_id; by rewrite Hplain|].
  pose proof (task_channel_id_segment pre name Hslash Hq) as Hid.
  fold link in Hid.
  unfold verify_task. subst w'. cbn [add_task negb after returns].
  cbn [tasks set_tasks]. rewrite lookup_insert_eq.
  cbn [completed_by channel_id Task_init task]. rewrite Hid.
  rewrite bool_decide_eq_false_2 by set_solver.
  cbn [Py.truthy_str negb andb].
  destruct (String.eqb_spec name ""); [done|]. done.
Qed.

Lemma plain_link_demands_membership_witness :
  let link := "https://example.org" +:+ "/" +:+ "page" in
  let task := Task_init 0 "Survey" "Answer" link "Open" 50 0 in
  let w' := after (add_task true (Some task) Sample.signed_up) in
  add_task_channel_id link = None /\
  verify_task Sample.bob (next_task_id Sample.signed_up) false w'
  = returns w' [MsgVerificationFailed].
Proof.
  apply (plain_link_demands_membership "https://example.org" "page" "Survey"
           "Answer" "Open" 50 0 Sample.bob Sample.signed_up);
    [reflexivity|discriminate|reflexivity|reflexivity].
Defined.

(** ** The plan key in callback data and payloads *)

Lemma numeral_occurs c s :
  numeral s = true -> numeral_char c = false -> Str.occurs c s = false.
Proof.
  intros Hs Hc. induction s as [|a s IH]; [done|].
  cbn in Hs. apply andb_true_iff in Hs as (Ha & Hs).
  cbn [Str.occurs]. rewrite (IH Hs), orb_false_r.
  destruct (Ascii.eqb_spec a c); [congruence|done].
Qed.

Lemma payload_split key tail :
  Str.occurs "_" key = false -> Str.occurs "_" tail = false ->
  Str.split "_" ("energy_plan_" +:+ key +:+ "_" +:+ tail)
  = ["energy"; "plan"; key; tail].
Proof.
  intros Hkey Htail. unfold Str.split.
  change ("energy_plan_" +:+ key +:+ "_" +:+ tail)
    with ("energy" +:+ String "_" ("plan" +:+ String "_"
            (key +:+ String "_" tail))).
  rewrite !split_char_app by done. by rewrite split_char_free.
Qed.

Lemma plan_of_key_plan_key k : plan_of_key (plan_key k) = Some k.
Proof. by destruct k. Qed.

(** X21: the plan key survives the purchase flow: for each plan of the
    catalog the shop has a button, pressing it makes
    [handle_energy_purchase] send an invoice of 100 times the plan's
    price whose payload names the plan and the buyer, the pre-checkout
    query for that payload is answered with [ok], and the successful
    payment with that payload activates exactly that plan, whatever the
    buyer's id. *)
Theorem purchase_flow_keeps_plan k uid now w :
  let data := "buy_energy_" +:+ plan_key k in
  data ∈ energy_shop /\
  exists i,
    handle_energy_purchase uid data = PurchaseInvoice i /\
    inv_payload i = "energy_plan_" +:+ plan_key k +:+ "_" +:+ pretty uid /\
    inv_amount i = price (ENERGY_PLANS k) * 100 /\
    precheckout_callback (inv_payload i) = true /\
    payment_received uid (inv_payload i) now w
    = PaymentHandled (successful_payment_callback uid (Some k) now w).
Proof.
  cbv zeta.
  assert (Hdata : Str.split "_" ("buy_energy_" +:+ plan_key k) !! 2%nat
                  = Some (plan_key k)) by (by destruct k).
  assert (Hplan : Str.split "_"
                    ("energy_plan_" +:+ plan_key k +:+ "_" +:+ pretty uid)
                  !! 2%nat
                  = Some (plan_key k)).
  { rewrite payload_split; [done|by destruct k|].
    by apply numeral_occurs; [apply pretty_Z_numeral|]. }
  split.
  - unfold energy_shop. destruct k; set_solver.
  - unfold handle_energy_purchase. rewrite Hdata, plan_of_key_plan_key.
    eexists. split; [reflexivity|]. cbn [inv_payload inv_amount].
    unfold precheckout_callback, payment_received.
    by rewrite Hplan, plan_of_key_plan_key.
Qed.

(** ** The chats asked about a channel *)

Lemma prefix_occurs c sep s :
  String.prefix sep s = true -> Str.occurs c sep = true ->
  Str.occurs c s = true.
Proof.
  revert s. induction sep as [|x sep IH]; intros s; [done|].
  destruct s as [|a s]; [done|].
  intros (-> & Hp)%prefix_cons. cbn [Str.occurs].
  destruct (Ascii.eqb x c); [done|]. cbn [orb]. by apply IH.
Qed.

Lemma contains_occurs c sep s :
  Str.contains sep s = true -> Str.occurs c sep = true ->
  Str.occurs c s = true.
Proof.
  intros Hin Hc. induction s as [|a s IH].
  - cbn in Hin. rewrite orb_false_r in Hin. by eapply prefix_occurs.
  - cbn [Str.contains] in Hin. apply orb_true_iff in Hin as [Hp|Hin].
    + by eapply prefix_occurs.
    + cbn [Str.occurs]. rewrite (IH Hin). apply orb_true_r.
Qed.

(** X25: for a link that mentions [t.me/], the chats [add_task]
    validated when the task was created are the chats
    [verify_channel_membership] asks when a user claims the task: both
    clean the last segment of the link in the same way, and the [t.me/]
    branch of [verify_channel_membership] is never taken for the channel
    id of a task. *)
Theorem validated_chats_are_verified link id :
  Str.contains "t.me/" link = true ->
  task_channel_id link = Some id ->
  Str.contains "t.me/" id = false /\
  add_task_chats link = Some (verify_channel_membership_chats id).
Proof.
  intros Htme Hid. rewrite task_channel_id_eq in Hid.
  injection Hid as <-.
  destruct (last_segment_clean link) as (Hslash & _).
  assert (Hplain : Str.contains "t.me/"
                     (Str.first_item (Str.split "?" (last_segment link)))
                   = false).
  { apply not_true_is_false. intros Hin.
    rewrite (contains_occurs "/" _ _ Hin eq_refl) in Hslash. done. }
  split; [done|].
  unfold add_task_chats, add_task_channel_id,
    verify_channel_membership_chats.
  rewrite Htme, Hplain. cbn [fmap option_fmap option_map].
  fold (last_segment (Str.last_item (Str.split "t.me/" link))).
  by rewrite tme_last_segment.
Qed.

Lemma validated_chats_are_verified_witness :
  Str.contains "t.me/" "@megachannel" = false /\
  add_task_chats "https://t.me/@megachannel?start=1"
  = Some (verify_channel_membership_chats "@megachannel").
Proof.
  apply (validated_chats_are_verified "https://t.me/@megachannel?start=1"
           "@megachannel"); reflexivity.
Defined.

(** ** achievements and profile *)

Lemma size_subset_list (S : gset string) (l : list string) :
  NoDup l -> S ⊆ list_to_set l ->
  size S = length (List.filter (fun id => bool_decide (id ∈ S)) l).
Proof.
  intros Hl. revert S. induction Hl as [|x l Hx Hl IH]; intros S HS.
  - cbn. apply size_empty_iff. set_solver.
  - cbn [List.filter]. case_bool_decide as Hin.
    + assert (HS' : S ∖ {[x]} ⊆ list_to_set l) by set_solver.
      rewrite (union_difference_L {[x]} S) by set_solver.
      rewrite size_union, size_singleton by set_solver.
      rewrite (IH _ HS'). cbn [length]. f_equal. f_equal.
      apply List.filter_ext_in. intros y Hy%list_elem_of_In.
      apply bool_decide_ext. set_solver.
    + apply IH. set_solver.
Qed.

Lemma filter_fst_tagged {A} (f : A -> bool) (l : list A) :
  length (List.filter fst ((fun x => (f x, x)) <$> l))
  = length (List.filter f l).
Proof.
  induction l as [|x l IH]; [done|].
  cbn [fmap list_fmap List.filter fst]. destruct (f x); cbn [length];
    by rewrite <- IH.
Qed.

(** X26: for a stored profile of a reachable state, the number of
    achievements shown as unlocked by [/achievements] is the number
    [/profile] reports, and it is at most the 5 of the catalog: a profile
    never holds an achievement outside [ACHIEVEMENTS]. *)
Theorem achievement_counts_agree w uid p :
  reachable w -> user_profiles w !! uid = Some p ->
  Z.of_nat (length (List.filter fst (achievements_reply p)))
  = (profile_achievements p).1 /\
  (profile_achievements p).1 <= (profile_achievements p).2 /\
  (profile_achievements p).2 = 5.
Proof.
  intros Hw Hp.
  pose proof (profile_invariant_reachable _ _ w achievements_known_invariant
                Hw _ _ Hp) as Hknown.
  cbn beta in Hknown.
  assert (Hkeys : NoDup ACHIEVEMENTS_keys).
  { unfold ACHIEVEMENTS_keys. repeat constructor; set_solver. }
  assert (Hsub : achievements p ⊆ list_to_set ACHIEVEMENTS_keys).
  { etrans; [exact Hknown|]. unfold ACHIEVEMENTS, ACHIEVEMENTS_keys.
    set_solver. }
  pose proof (size_subset_list _ _ Hkeys Hsub) as Hsize.
  unfold profile_achievements, achievements_reply. cbn [fst snd].
  rewrite filter_fst_tagged, <- Hsize.
  split; [done|]. split; [|done].
  rewrite Hsize.
  pose proof (filter_length_le
                (fun id => bool_decide (id ∈ achievements p))
                ACHIEVEMENTS_keys).
  lia.
Qed.

Lemma achievement_counts_agree_witness :
  let p := profile_of Sample2.after_second_claim Sample.alice in
  Z.of_nat (length (List.filter fst (achievements_reply p)))
  = (profile_achievements p).1 /\
  (profile_achievements p).1 <= (profile_achievements p).2 /\
  (profile_achievements p).2 = 5.
Proof.
  apply (achievement_counts_agree Sample2.after_second_claim Sample.alice).
  - exact after_second_claim_reachable.
  - vm_compute. reflexivity.
Defined.
